(** * night-orm: the query builder, the reflection helpers and the
      PostgreSQL CRUD operations, embedded from the Go sources

    - the query builder of package [utils] (type [QueryBuilder])
                                     ->  Module [QB]
    - [pkg/utils/reflection.go]      ->  Module [Reflection]
    - package [postgres], in the version whose [Create] ends the INSERT
      with a RETURNING clause (messages in English)
                                     ->  Module [Postgres]

    Go strings are byte strings: [string] (a list of 8-bit characters).
    A Go [int] is a 64-bit integer, kept in [Z] with its wrap-around
    written out ([wrap_int]). *)

From Stdlib Require Import ZArith Ascii String DecimalString List Permutation.
From Stdlib Require DecimalPos DecimalZ.
From stdpp Require Import gmap strings list fin_maps.

Local Open Scope Z_scope.

(** ** Outcomes of Go calls

    A call returns, or panics (the state it leaves behind is kept: a
    recovered panic lets the caller go on with it), or its input leaves
    the fragment of the [fmt] library that is modelled here. *)

Inductive outcome (S A : Type) : Type :=
| Ret (a : A) (s : S)
| Panic (msg : string) (s : S)
| Beyond.
Arguments Ret {S A} a s.
Arguments Panic {S A} msg s.
Arguments Beyond {S A}.

Definition M (S A : Type) : Type := S -> outcome S A.

Definition ret {S A} (a : A) : M S A := fun s => Ret a s.

Definition bind {S A B} (m : M S A) (k : A -> M S B) : M S B :=
  fun s =>
    match m s with
    | Ret a s' => k a s'
    | Panic msg s' => Panic msg s'
    | Beyond => Beyond
    end.

Definition get {S} : M S S := fun s => Ret s s.
Definition put {S} (s : S) : M S unit := fun _ => Ret tt s.
Definition modify {S} (f : S -> S) : M S unit := fun s => Ret tt (f s).
Definition panic {S A} (msg : string) : M S A := fun s => Panic msg s.
Definition beyond {S A} : M S A := fun _ => Beyond.

Notation "'do' x <- m 'in' k" := (bind m (fun x => k))
  (at level 10, x name, m at level 100, k at level 200).
Notation "'run' m 'in' k" := (bind m (fun _ => k))
  (at level 10, m at level 100, k at level 200).

(** The state an outcome leaves behind, when there is one. *)
Definition final_state {S A} (o : outcome S A) : option S :=
  match o with
  | Ret _ s => Some s
  | Panic _ s => Some s
  | Beyond => None
  end.

(** ** Go's [int] *)

Definition MaxInt : Z := 2 ^ 63 - 1.
Definition MinInt : Z := - 2 ^ 63.

Definition wrap_int (z : Z) : Z := (z + 2 ^ 63) mod 2 ^ 64 - 2 ^ 63.

(** ** package strings (the functions the sources call) *)

Module strings.

Definition lower_byte (c : ascii) : ascii :=
  let n := N_of_ascii c in
  if ((65 <=? n) && (n <=? 90))%N then ascii_of_N (n + 32) else c.

(** [strings.ToLower] on identifiers and tags written in ASCII: bytes
    [A]..[Z] are mapped, every other byte is kept. *)
Fixpoint ToLower (s : string) : string :=
  match s with
  | EmptyString => EmptyString
  | String c s' => String (lower_byte c) (ToLower s')
  end.

(** [strings.Contains]. *)
Fixpoint Contains (s substr : string) : bool :=
  if String.prefix substr s then true
  else match s with
       | EmptyString => false
       | String _ s' => Contains s' substr
       end.

(** [strings.Split] for a separator of one byte, the only kind the
    sources pass: the result always has at least one element. *)
Fixpoint Split (s : string) (sep : ascii) : list string :=
  match s with
  | EmptyString => [EmptyString]
  | String c s' =>
      if Ascii.eqb c sep then EmptyString :: Split s' sep
      else match Split s' sep with
           | [] => [String c EmptyString]
           | seg :: segs => String c seg :: segs
           end
  end.

(** [strings.Join]. *)
Definition Join (elems : list string) (sep : string) : string :=
  String.concat sep elems.

End strings.

(** ** package fmt, the fragment the sources use

    Operands are strings and ints; the verbs are [%s], [%d], [%v] and
    [%%].  A directive with flags, width, precision or an argument index,
    and the verbs that print in another base or quoted, are outside the
    fragment: [Sprintf] answers [None] there. *)

Module fmt.

Inductive operand : Type :=
| OStr (s : string)
| OInt (n : Z).

Definition itoa (n : Z) : string := NilZero.string_of_int (Z.to_int n).

Definition type_name (a : operand) : string :=
  match a with OStr _ => "string" | OInt _ => "int" end.

(** What [%v] prints. *)
Definition print_v (a : operand) : string :=
  match a with OStr s => s | OInt n => itoa n end.

Definition bad_verb (verb : ascii) (a : operand) : string :=
  "%!" +:+ String verb ("(" +:+ type_name a +:+ "=" +:+ print_v a +:+ ")").

Definition is_flag (c : ascii) : bool :=
  let n := N_of_ascii c in
  (* '#' '+' '-' ' ' '[' '*' '.' and the digits *)
  ((n =? 35) || (n =? 43) || (n =? 45) || (n =? 32) || (n =? 91)
   || (n =? 42) || (n =? 46) || ((48 <=? n) && (n <=? 57)))%N.

Definition is_ascii (c : ascii) : bool := (N_of_ascii c <? 128)%N.

(** [printArg] for one operand under one verb: [%T] prints the type
    of the operand, whatever it is. *)
Definition print_arg (verb : ascii) (a : operand) : option string :=
  if Ascii.eqb verb "T"%char then Some (type_name a) else
  match a with
  | OStr s =>
      if (Ascii.eqb verb "s" || Ascii.eqb verb "v")%char then Some s
      else if (Ascii.eqb verb "x" || Ascii.eqb verb "X"
               || Ascii.eqb verb "q")%char then None
      else Some (bad_verb verb a)
  | OInt n =>
      if (Ascii.eqb verb "d" || Ascii.eqb verb "v")%char then Some (itoa n)
      else if (Ascii.eqb verb "b" || Ascii.eqb verb "o" || Ascii.eqb verb "O"
               || Ascii.eqb verb "x" || Ascii.eqb verb "X"
               || Ascii.eqb verb "c" || Ascii.eqb verb "q"
               || Ascii.eqb verb "U")%char then None
      else Some (bad_verb verb a)
  end.

(** The operands left over when the format is used up. *)
Definition extra (args : list operand) : string :=
  match args with
  | [] => EmptyString
  | _ => "%!(EXTRA "
         +:+ strings.Join
               (map (fun a => type_name a +:+ "=" +:+ print_v a) args) ", "
         +:+ ")"
  end.

Fixpoint Sprintf (format : string) (args : list operand) : option string :=
  match format with
  | EmptyString => Some (extra args)
  | String c rest =>
      if Ascii.eqb c "%"%char then
        match rest with
        | EmptyString => Some ("%!(NOVERB)" +:+ extra args)
        | String verb rest' =>
            if negb (is_ascii verb) || is_flag verb then None
            else if Ascii.eqb verb "%"%char then
              option_map (String "%"%char) (Sprintf rest' args)
            else
              match args with
              | [] =>
                  option_map
                    (fun t => "%!" +:+ String verb ("(MISSING)" +:+ t))
                    (Sprintf rest' [])
              | a :: args' =>
                  match print_arg verb a, Sprintf rest' args' with
                  | Some p, Some t => Some (p +:+ t)
                  | _, _ => None
                  end
              end
        end
      else option_map (String c) (Sprintf rest args)
  end.

End fmt.

(** ** Go values

    The field types of the records in this development: [int], [int64],
    [string] and [bool].  An [interface{}] holds one of their values or is
    nil ([None]). *)

Inductive GoType : Type := TInt | TInt64 | TString | TBool.

Inductive GoValue : Type :=
| VInt (n : Z)
| VInt64 (n : Z)
| VString (s : string)
| VBool (b : bool).

Definition iface : Type := option GoValue.

Definition TypeOf (v : GoValue) : GoType :=
  match v with
  | VInt _ => TInt
  | VInt64 _ => TInt64
  | VString _ => TString
  | VBool _ => TBool
  end.

#[global] Instance GoType_eq_dec : EqDecision GoType.
Proof. solve_decision. Defined.

#[global] Instance GoValue_eq_dec : EqDecision GoValue.
Proof. solve_decision. Defined.

(** ** package utils: the query builder *)

Module QB.

Record QueryBuilder : Type := mkQB {
  query : string;          (* the text held by the strings.Builder *)
  args : list iface;
  paramIndex : Z
}.

Definition NewQueryBuilder : QueryBuilder :=
  {| query := EmptyString; args := []; paramIndex := 1 |}.

Definition Reset : M QueryBuilder unit :=
  fun _ => Ret tt {| query := EmptyString; args := []; paramIndex := 1 |}.

(** [append(qb.args, value)]: the runtime refuses to grow a slice
    beyond [maxAlloc] bytes (2^48 on 64-bit Linux) and an [interface{}]
    takes 16 of them, so [append] panics there at the latest; the counter
    of the builder, one ahead of the length, never comes near [MaxInt]. *)
Definition maxAlloc : Z := 2 ^ 48.

Definition append (l : list iface) (v : iface) : option (list iface) :=
  if 16 * (Z.of_nat (length l) + 1) <=? maxAlloc then Some (l ++ [v])
  else None.

Definition sprintf {S} (format : string) (a : list fmt.operand) : M S string :=
  match fmt.Sprintf format a with
  | Some s => ret s
  | None => beyond
  end.

Definition AddParam (value : iface) : M QueryBuilder string :=
  do qb <- get in
  match append (args qb) value with
  | None => panic "runtime error: growslice: len out of range"
  | Some args' =>
      run put {| query := query qb; args := args'; paramIndex := paramIndex qb |} in
      do placeholder <- sprintf "$%d" [fmt.OInt (paramIndex qb)] in
      run modify (fun qb => {| query := query qb; args := args qb;
                               paramIndex := wrap_int (paramIndex qb + 1) |}) in
      ret placeholder
  end.

Definition Write (s : string) : M QueryBuilder unit :=
  modify (fun qb => {| query := query qb +:+ s; args := args qb;
                       paramIndex := paramIndex qb |}).

(** [for i, arg := range args { placeholders[i] = qb.AddParam(arg) }] *)
Fixpoint AddParams (values : list iface) : M QueryBuilder (list string) :=
  match values with
  | [] => ret []
  | v :: values' =>
      do p <- AddParam v in
      do ps <- AddParams values' in
      ret (p :: ps)
  end.

Definition WriteWithParams (format : string) (a : list iface)
  : M QueryBuilder unit :=
  do placeholders <- AddParams a in
  do s <- sprintf format (map fmt.OStr placeholders) in
  Write s.

Definition WriteSelect (columns : list string) : M QueryBuilder unit :=
  run Write "SELECT " in
  match columns with
  | [] => Write "*"
  | _ => Write (strings.Join columns ", ")
  end.

Definition WriteFrom (table : string) : M QueryBuilder unit :=
  run Write " FROM " in
  Write table.

Definition WriteWhere (condition : string) (a : list iface)
  : M QueryBuilder unit :=
  run Write " WHERE " in
  WriteWithParams condition a.

Definition WriteAnd (condition : string) (a : list iface)
  : M QueryBuilder unit :=
  run Write " AND " in
  WriteWithParams condition a.

Definition WriteOr (condition : string) (a : list iface)
  : M QueryBuilder unit :=
  run Write " OR " in
  WriteWithParams condition a.

Definition WriteOrderBy (columns : list string) : M QueryBuilder unit :=
  match columns with
  | [] => ret tt
  | _ => run Write " ORDER BY " in Write (strings.Join columns ", ")
  end.

Definition WriteLimit (limit : Z) : M QueryBuilder unit :=
  if 0 <? limit then
    do s <- sprintf " LIMIT %d" [fmt.OInt limit] in Write s
  else ret tt.

Definition WriteOffset (offset : Z) : M QueryBuilder unit :=
  if 0 <? offset then
    do s <- sprintf " OFFSET %d" [fmt.OInt offset] in Write s
  else ret tt.

Definition WriteInsert (table : string) (columns : list string)
    (values : list iface) : M QueryBuilder unit :=
  do s <- sprintf "INSERT INTO %s (" [fmt.OStr table] in
  run Write s in
  run Write (strings.Join columns ", ") in
  run Write ") VALUES (" in
  do placeholders <- AddParams values in
  run Write (strings.Join placeholders ", ") in
  Write ")".

(** What the runtime says when an index is out of range. *)
Definition index_out_of_range (i len : nat) : string :=
  "runtime error: index out of range [" +:+ fmt.itoa (Z.of_nat i)
  +:+ "] with length " +:+ fmt.itoa (Z.of_nat len).

(** The loop of [WriteUpdate] from index [i] on, [rest] being
    [columns[i:]]; [values[i]] panics when [values] is too short. *)
Fixpoint WriteUpdate_loop (i : nat) (rest : list string) (values : list iface)
  : M QueryBuilder unit :=
  match rest with
  | [] => ret tt
  | column :: rest' =>
      run (if (0 <? i)%nat then Write ", " else ret tt) in
      match values !! i with
      | None => panic (index_out_of_range i (length values))
      | Some v =>
          do p <- AddParam v in
          do s <- sprintf "%s = %s" [fmt.OStr column; fmt.OStr p] in
          run Write s in
          WriteUpdate_loop (S i) rest' values
      end
  end.

Definition WriteUpdate (table : string) (columns : list string)
    (values : list iface) : M QueryBuilder unit :=
  do s <- sprintf "UPDATE %s SET " [fmt.OStr table] in
  run Write s in
  WriteUpdate_loop 0 columns values.

Definition WriteDelete (table : string) : M QueryBuilder unit :=
  do s <- sprintf "DELETE FROM %s" [fmt.OStr table] in
  Write s.

Definition WriteReturning (columns : list string) : M QueryBuilder unit :=
  match columns with
  | [] => ret tt
  | _ => run Write " RETURNING " in Write (strings.Join columns ", ")
  end.

Definition Build (qb : QueryBuilder) : string * list iface :=
  (query qb, args qb).

End QB.

(** ** Go errors *)

Inductive error : Type :=
| New (msg : string)                 (* errors.New, fmt.Errorf without %w *)
| Wrap (msg : string) (err : error)  (* fmt.Errorf("msg: %w", err) *)
| PqError (code : string).           (* a *pq.Error with its Code *)

Inductive result (A : Type) : Type :=
| Ok (a : A)
| Err (err : error).
Arguments Ok {A} a.
Arguments Err {A} err.

(** ** Records as the reflection helpers see them *)

(** A struct tag as its key/value pairs; [Get] answers the value of the
    first pair under the key and the empty string when there is none. *)
Definition StructTag : Type := list (string * string).

Fixpoint Get (tag : StructTag) (key : string) : string :=
  match tag with
  | [] => EmptyString
  | (k, v) :: tag' => if String.eqb k key then v else Get tag' key
  end.

(** [reflect.StructField]: a field is exported when its [PkgPath] is
    empty. *)
Record StructField : Type := mkStructField {
  Name : string;
  PkgPath : string;
  Tag : StructTag
}.

Definition IsExported (f : StructField) : bool := String.eqb (PkgPath f) EmptyString.

(** One field of a struct value: its declaration and its current value,
    whose type is the field's type. *)
Record Field : Type := mkField {
  fieldType : StructField;
  field : GoValue
}.

Definition StructValue : Type := list Field.

(** What a pointer points to, or a value holds. *)
Inductive Target : Type :=
| TStructOf (s : StructValue)
| TPlain (v : GoValue).

(** The [obj interface{}] handed to the reflection helpers: nil, a value,
    or a pointer (the nil pointer is [OPtr None]).  A pointer carries the
    value it points to: the helpers that assign through it answer the
    object with the new pointee. *)
Inductive GoObj : Type :=
| ONil
| OVal (t : Target)
| OPtr (p : option Target).

Module reflect.

Inductive Kind : Type := Invalid | Bool | Int | Int64 | String_ | Ptr | Struct.

#[global] Instance Kind_eq_dec : EqDecision Kind.
Proof. solve_decision. Defined.

(** A [reflect.Value]: the zero Value, a pointer, or a value with its
    addressability flag. *)
Inductive Value : Type :=
| Zero
| OfPtr (p : option Target)
| Of (t : Target) (flagAddr : bool).

Definition ValueOf (obj : GoObj) : Value :=
  match obj with
  | ONil => Zero
  | OVal t => Of t false
  | OPtr p => OfPtr p
  end.

Definition KindOfType (t : GoType) : Kind :=
  match t with
  | TInt => Int
  | TInt64 => Int64
  | TString => String_
  | TBool => Bool
  end.

Definition kind (v : Value) : Kind :=
  match v with
  | Zero => Invalid
  | OfPtr _ => Ptr
  | Of (TStructOf _) _ => Struct
  | Of (TPlain x) _ => KindOfType (TypeOf x)
  end.

(** [Elem] of a pointer: the zero Value behind the nil pointer, the
    addressable pointee otherwise.  (On the other kinds Go panics; the
    sources call it under [Kind() == reflect.Ptr] only.) *)
Definition Elem (v : Value) : Value :=
  match v with
  | OfPtr (Some t) => Of t true
  | _ => Zero
  end.

Definition IsNil (v : Value) : bool :=
  match v with
  | OfPtr None => true
  | _ => false
  end.

Definition CanAddr (v : Value) : bool :=
  match v with
  | Of _ a => a
  | _ => false
  end.

(** The fields of a struct Value, in declaration order: [NumField] is
    their number, [val.Field(i)] and [typ.Field(i)] read the i-th. *)
Definition Fields (v : Value) : StructValue :=
  match v with
  | Of (TStructOf s) _ => s
  | _ => []
  end.

(** [val.Field(i)] of a struct Value: the field's value, read-only when
    the field is not exported, addressable when the struct is. *)
Record FieldValue : Type := mkFieldValue {
  fv : GoValue;
  flagRO : bool;
  flagAddr : bool
}.

Definition FieldOf (addr : bool) (f : Field) : FieldValue :=
  {| fv := field f; flagRO := negb (IsExported (fieldType f)); flagAddr := addr |}.

Definition CanInterface (v : FieldValue) : bool := negb (flagRO v).
Definition CanSet (v : FieldValue) : bool := flagAddr v && negb (flagRO v).
Definition Interface (v : FieldValue) : iface := Some (fv v).

Definition IsZero (v : GoValue) : bool :=
  match v with
  | VInt n | VInt64 n => n =? 0
  | VString s => String.eqb s EmptyString
  | VBool b => negb b
  end.

Definition is_integer (t : GoType) : bool :=
  match t with TInt | TInt64 => true | _ => false end.

Definition ConvertibleTo (src dst : GoType) : bool :=
  match dst with
  | TInt | TInt64 => is_integer src
  | TString => is_integer src || bool_decide (src = TString)
  | TBool => bool_decide (src = TBool)
  end.

Definition byte (z : Z) : ascii := ascii_of_N (Z.to_N z).

(** [string(rune(x))]: the UTF-8 encoding of the code point, U+FFFD
    for what is not one. *)
Definition rune_string (x : Z) : string :=
  let bad := String (byte 239) (String (byte 191) (String (byte 189) EmptyString)) in
  if (x <? 0) || (1114111 <? x) || ((55296 <=? x) && (x <=? 57343)) then bad
  else if x <? 128 then String (byte x) EmptyString
  else if x <? 2048 then
    String (byte (Z.lor 192 (Z.shiftr x 6)))
      (String (byte (Z.lor 128 (Z.land x 63))) EmptyString)
  else if x <? 65536 then
    String (byte (Z.lor 224 (Z.shiftr x 12)))
      (String (byte (Z.lor 128 (Z.land (Z.shiftr x 6) 63)))
         (String (byte (Z.lor 128 (Z.land x 63))) EmptyString))
  else
    String (byte (Z.lor 240 (Z.shiftr x 18)))
      (String (byte (Z.lor 128 (Z.land (Z.shiftr x 12) 63)))
         (String (byte (Z.lor 128 (Z.land (Z.shiftr x 6) 63)))
            (String (byte (Z.lor 128 (Z.land x 63))) EmptyString))).

Definition int_of (v : GoValue) : Z :=
  match v with VInt n | VInt64 n => n | _ => 0 end.

(** [Convert], called only where [ConvertibleTo] holds. *)
Definition Convert (v : GoValue) (dst : GoType) : GoValue :=
  match dst with
  | TInt => VInt (int_of v)
  | TInt64 => VInt64 (int_of v)
  | TString =>
      match v with
      | VString s => VString s
      | _ => VString (rune_string (int_of v))
      end
  | TBool => v
  end.

End reflect.

(** ** pkg/utils/reflection.go *)

Module Reflection.

Definition column_of (tag : string) (name : string) : string :=
  if String.eqb tag EmptyString then strings.ToLower name else tag.

Definition interface_of (fld : reflect.FieldValue) : iface :=
  if reflect.CanInterface fld then reflect.Interface fld else None.

(** The loop of [GetStructFields] over the fields still to visit. *)
Fixpoint GetStructFields_loop (addr : bool) (rest : StructValue)
    (fields : gmap string iface) : gmap string iface :=
  match rest with
  | [] => fields
  | f :: rest' =>
      let fld := reflect.FieldOf addr f in
      if negb (IsExported (fieldType f)) then
        GetStructFields_loop addr rest' fields
      else
        let tag := Get (Tag (fieldType f)) "db" in
        if String.eqb tag "-" then GetStructFields_loop addr rest' fields
        else
          let columnName := column_of tag (Name (fieldType f)) in
          let fieldValue := interface_of fld in
          GetStructFields_loop addr rest' (<[columnName := fieldValue]> fields)
  end.

Definition GetStructFields (obj : GoObj) : result (gmap string iface) :=
  match obj with
  | ONil => Err (New "objeto não pode ser nil")
  | _ =>
      let val := reflect.ValueOf obj in
      let val := if bool_decide (reflect.kind val = reflect.Ptr)
                 then reflect.Elem val else val in
      if bool_decide (reflect.kind val <> reflect.Struct) then
        Err (New "objeto deve ser uma estrutura ou um ponteiro para uma estrutura")
      else
        Ok (GetStructFields_loop (reflect.CanAddr val) (reflect.Fields val) ∅)
  end.

(** [field.Set(fieldVal)] on the i-th field of the struct the object
    points to. *)
Definition set_field (i : nat) (fieldVal : GoValue) (obj : GoObj) : GoObj :=
  match obj with
  | OPtr (Some (TStructOf s)) =>
      OPtr (Some (TStructOf
                    (alter (fun f => {| fieldType := fieldType f; field := fieldVal |}) i s)))
  | _ => obj
  end.

(** The loop of [SetStructField] from index [i] on, [rest] being the
    fields from that index. *)
Fixpoint SetStructField_loop (addr : bool) (fieldName : string) (value : iface)
    (i : nat) (rest : StructValue) : M GoObj (option error) :=
  match rest with
  | [] => ret (Some (New "campo não encontrado"))
  | f :: rest' =>
      let fld := reflect.FieldOf addr f in
      let tag := Get (Tag (fieldType f)) "db" in
      if String.eqb tag fieldName
         || (String.eqb tag EmptyString
             && String.eqb (strings.ToLower (Name (fieldType f))) fieldName)
      then
        if negb (reflect.CanSet fld) then
          ret (Some (New "campo não pode ser definido"))
        else
          match value with
          | None => panic "reflect: call of reflect.Value.Type on zero Value"
          | Some fieldVal =>
              if bool_decide (TypeOf (reflect.fv fld) <> TypeOf fieldVal) then
                if reflect.ConvertibleTo (TypeOf fieldVal) (TypeOf (reflect.fv fld))
                then
                  let fieldVal := reflect.Convert fieldVal (TypeOf (reflect.fv fld)) in
                  run modify (set_field i fieldVal) in
                  ret None
                else
                  ret (Some (New "tipo de valor incompatível com o tipo do campo"))
              else
                run modify (set_field i fieldVal) in
                ret None
          end
      else SetStructField_loop addr fieldName value (S i) rest'
  end.

Definition SetStructField (fieldName : string) (value : iface)
  : M GoObj (option error) :=
  do obj <- get in
  match obj with
  | ONil => ret (Some (New "objeto não pode ser nil"))
  | _ =>
      let val := reflect.ValueOf obj in
      if bool_decide (reflect.kind val <> reflect.Ptr) || reflect.IsNil val then
        ret (Some (New "objeto deve ser um ponteiro não-nil"))
      else
        let val := reflect.Elem val in
        if bool_decide (reflect.kind val <> reflect.Struct) then
          ret (Some (New "objeto deve ser um ponteiro para uma estrutura"))
        else
          SetStructField_loop (reflect.CanAddr val) fieldName value 0
            (reflect.Fields val)
  end.

(** [GetTagName], over the declared fields of the struct type. *)
Definition GetTagName (structType : list StructField)
    (fieldName tagName : string) : string :=
  match List.find (fun f => String.eqb (Name f) fieldName) structType with
  | None => EmptyString
  | Some f =>
      let tag := Get (Tag f) tagName in
      if String.eqb tag EmptyString then EmptyString
      else hd EmptyString (strings.Split tag ",")
  end.

(** First loop of [GetPrimaryKeyField]: the tag names the primary key. *)
Fixpoint primary_loop (addr : bool) (rest : StructValue)
  : option (string * iface) :=
  match rest with
  | [] => None
  | f :: rest' =>
      let fld := reflect.FieldOf addr f in
      let tag := Get (Tag (fieldType f)) "db" in
      if strings.Contains tag ",primary" then
        let columnName := hd EmptyString (strings.Split tag ",") in
        let columnName :=
          if String.eqb columnName EmptyString then strings.ToLower (Name (fieldType f))
          else columnName in
        Some (columnName, interface_of fld)
      else primary_loop addr rest'
  end.

(** Second loop: a field called "ID", "Id", "id" or "iD". *)
Fixpoint id_loop (addr : bool) (rest : StructValue) : option (string * iface) :=
  match rest with
  | [] => None
  | f :: rest' =>
      let fld := reflect.FieldOf addr f in
      if String.eqb (strings.ToLower (Name (fieldType f))) "id" then
        let tag := Get (Tag (fieldType f)) "db" in
        let columnName :=
          if String.eqb tag EmptyString || String.eqb tag "-" then "id" else tag in
        Some (columnName, interface_of fld)
      else id_loop addr rest'
  end.

Definition GetPrimaryKeyField (obj : GoObj) : result (string * iface) :=
  match obj with
  | ONil => Err (New "objeto não pode ser nil")
  | _ =>
      let val := reflect.ValueOf obj in
      let val := if bool_decide (reflect.kind val = reflect.Ptr)
                 then reflect.Elem val else val in
      if bool_decide (reflect.kind val <> reflect.Struct) then
        Err (New "objeto deve ser uma estrutura ou um ponteiro para uma estrutura")
      else
        match primary_loop (reflect.CanAddr val) (reflect.Fields val) with
        | Some r => Ok r
        | None =>
            match id_loop (reflect.CanAddr val) (reflect.Fields val) with
            | Some r => Ok r
            | None => Err (New "chave primária não encontrada")
            end
        end
  end.

End Reflection.

(** ** package core (the model interfaces) and package postgres (the
       version of [PostgresORM] and [PostgresTransaction] with
       RETURNING) *)

Module Postgres.

(** [core.Model] and [core.ModelWithPrimaryKey]: the methods of the
    record's type, applied to the record as it is when they are
    called. *)
Record Model : Type := mkModel {
  TableName : GoObj -> string
}.

Record ModelWithPrimaryKey : Type := mkModelWithPrimaryKey {
  asModel : Model;
  PrimaryKey : GoObj -> string;
  PrimaryKeyValue : GoObj -> iface
}.

(** A [core.Model] argument: whether the type behind it also has the
    methods of [core.ModelWithPrimaryKey] decides the type assertion in
    [Create]. *)
Inductive core_Model : Type :=
| JustModel (m : Model)
| WithPrimaryKey (m : ModelWithPrimaryKey).

Definition table_of (model : core_Model) : GoObj -> string :=
  match model with
  | JustModel m => TableName m
  | WithPrimaryKey m => TableName (asModel m)
  end.

(** [sql.Result], as far as the sources look at it. *)
Record Result : Type := mkResult {
  RowsAffected : result Z
}.

(** The backend behind [*sql.DB]: what it answers to a statement and
    its arguments.  [QueryRowContext_Scan] is
    [QueryRowContext(ctx, query, args...).Scan(&generatedID)] with
    [generatedID] an [int]. *)
Record DB : Type := mkDB {
  ExecContext : string -> list iface -> result Result;
  QueryRowContext_Scan : string -> list iface -> result Z
}.

Record PostgresORM : Type := mkPostgresORM {
  db : option DB
}.

(** [PostgresTransaction]: the statements of a transaction go to the same
    backend through [*sql.Tx]. *)
Record PostgresTransaction : Type := mkPostgresTransaction {
  tx : DB
}.

(** The calls made to the backend, with what it answered. *)
Inductive Event : Type :=
| EvExec (query : string) (a : list iface) (res : result Result)
| EvQueryRow (query : string) (a : list iface) (res : result Z).

(** The record behind the model (mutated through its pointer) and the
    backend calls made so far. *)
Record World : Type := mkWorld {
  record : GoObj;
  trace : list Event
}.

Definition exec (d : DB) (query : string) (a : list iface)
  : M World (result Result) :=
  fun w =>
    let res := ExecContext d query a in
    Ret res {| record := record w; trace := trace w ++ [EvExec query a res] |}.

Definition query_row_scan (d : DB) (query : string) (a : list iface)
  : M World (result Z) :=
  fun w =>
    let res := QueryRowContext_Scan d query a in
    Ret res {| record := record w; trace := trace w ++ [EvQueryRow query a res] |}.

(** A statement built on a builder of its own. *)
Definition build (m : M QB.QueryBuilder unit) : M World (string * list iface) :=
  fun w =>
    match m QB.NewQueryBuilder with
    | Ret _ qb => Ret (QB.Build qb) w
    | Panic msg _ => Panic msg w
    | Beyond => Beyond
    end.

(** A helper that works on the record alone. *)
Definition on_record {A} (m : M GoObj A) : M World A :=
  fun w =>
    match m (record w) with
    | Ret a obj => Ret a {| record := obj; trace := trace w |}
    | Panic msg obj => Panic msg {| record := obj; trace := trace w |}
    | Beyond => Beyond
    end.

Section Operations.

(** The order in which [range] visits a map: Go leaves it open. *)
Variable range : gmap string iface -> list (string * iface).

(** [for column, value := range fields] in [Create]. *)
Fixpoint Create_loop (primaryKey : string) (primaryKeyValue : iface)
    (rest : list (string * iface)) (columns : list string)
    (values : list iface) : M World (list string * list iface) :=
  match rest with
  | [] => ret (columns, values)
  | (column, value) :: rest' =>
      if String.eqb column primaryKey then
        match primaryKeyValue with
        | None => panic "reflect: call of reflect.Value.IsZero on zero Value"
        | Some v =>
            if reflect.IsZero v then
              Create_loop primaryKey primaryKeyValue rest' columns values
            else
              Create_loop primaryKey primaryKeyValue rest'
                (columns ++ [column]) (values ++ [value])
        end
      else
        Create_loop primaryKey primaryKeyValue rest'
          (columns ++ [column]) (values ++ [value])
  end.

(** The error [Create] returns when the backend refused the
    statement: code 23505 is the unique-key violation. *)
Definition insert_error (err : error) : error :=
  match err with
  | PqError "23505" => Wrap "record already exists" err
  | _ => Wrap "error inserting record" err
  end.

Definition Create (p : PostgresORM) (model : core_Model)
  : M World (option error) :=
  match db p with
  | None => ret (Some (New "connection not established"))
  | Some d =>
      do w <- get in
      match Reflection.GetStructFields (record w) with
      | Err err => ret (Some (Wrap "error retrieving struct fields" err))
      | Ok fields =>
          let '(primaryKey, primaryKeyValue) :=
            match model with
            | WithPrimaryKey m =>
                (PrimaryKey m (record w), PrimaryKeyValue m (record w))
            | JustModel _ => (EmptyString, None)
            end in
          do cv <- Create_loop primaryKey primaryKeyValue (range fields) [] [] in
          let '(columns, values) := cv in
          do qa <- build
              (run QB.WriteInsert (table_of model (record w)) columns values in
               if negb (String.eqb primaryKey EmptyString)
               then QB.WriteReturning [primaryKey] else ret tt) in
          let '(query, a) := qa in
          do res <- (if negb (String.eqb primaryKey EmptyString)
                     then query_row_scan d query a
                     else do r <- exec d query a in
                          ret (match r with
                               | Ok _ => Ok 0
                               | Err err => Err err
                               end)) in
          match res with
          | Err err => ret (Some (insert_error err))
          | Ok generatedID =>
              if negb (String.eqb primaryKey EmptyString) then
                do e <- on_record
                          (Reflection.SetStructField primaryKey
                             (Some (VInt generatedID))) in
                match e with
                | Some err => ret (Some (Wrap "error setting primary key value" err))
                | None => ret None
                end
              else ret None
          end
      end
  end.

Definition Update (p : PostgresORM) (model : ModelWithPrimaryKey)
  : M World (option error) :=
  match db p with
  | None => ret (Some (New "connection not established"))
  | Some d =>
      do w <- get in
      match Reflection.GetStructFields (record w) with
      | Err err => ret (Some (Wrap "error retrieving struct fields" err))
      | Ok fields =>
          let primaryKey := PrimaryKey model (record w) in
          let primaryKeyValue := PrimaryKeyValue model (record w) in
          let fields := delete primaryKey fields in
          let columns := map fst (range fields) in
          let values := map snd (range fields) in
          do qa <- build
              (run QB.WriteUpdate (TableName (asModel model) (record w))
                     columns values in
               do placeholder <- QB.AddParam primaryKeyValue in
               do condition <- QB.sprintf "%s = %s"
                                 [fmt.OStr primaryKey; fmt.OStr placeholder] in
               QB.WriteWhere condition []) in
          let '(query, a) := qa in
          do res <- exec d query a in
          match res with
          | Err err => ret (Some (Wrap "error updating record" err))
          | Ok r =>
              match RowsAffected r with
              | Err err =>
                  ret (Some (Wrap "error retrieving affected rows count" err))
              | Ok rowsAffected =>
                  if rowsAffected =? 0 then
                    ret (Some (New "no records were updated"))
                  else ret None
              end
          end
      end
  end.

Definition Delete (p : PostgresORM) (model : ModelWithPrimaryKey)
  : M World (option error) :=
  match db p with
  | None => ret (Some (New "connection not established"))
  | Some d =>
      do w <- get in
      do qa <- build
          (run QB.WriteDelete (TableName (asModel model) (record w)) in
           do placeholder <- QB.AddParam (PrimaryKeyValue model (record w)) in
           do condition <- QB.sprintf "%s = %s"
                             [fmt.OStr (PrimaryKey model (record w));
                              fmt.OStr placeholder] in
           QB.WriteWhere condition []) in
      let '(query, a) := qa in
      do res <- exec d query a in
      match res with
      | Err err => ret (Some (Wrap "error deleting record" err))
      | Ok r =>
          match RowsAffected r with
          | Err err =>
              ret (Some (Wrap "error retrieving affected rows count" err))
          | Ok rowsAffected =>
              if rowsAffected =? 0 then
                ret (Some (New "no records were deleted"))
              else ret None
          end
      end
  end.

(** [PostgresTransaction.Update]: the same statement, executed on the
    transaction. *)
Definition Transaction_Update (t : PostgresTransaction) (model : ModelWithPrimaryKey)
  : M World (option error) :=
  do w <- get in
  match Reflection.GetStructFields (record w) with
  | Err err => ret (Some (Wrap "error retrieving struct fields" err))
  | Ok fields =>
      let primaryKey := PrimaryKey model (record w) in
      let primaryKeyValue := PrimaryKeyValue model (record w) in
      let fields := delete primaryKey fields in
      let columns := map fst (range fields) in
      let values := map snd (range fields) in
      do qa <- build
          (run QB.WriteUpdate (TableName (asModel model) (record w))
                 columns values in
           do placeholder <- QB.AddParam primaryKeyValue in
           do condition <- QB.sprintf "%s = %s"
                             [fmt.OStr primaryKey; fmt.OStr placeholder] in
           QB.WriteWhere condition []) in
      let '(query, a) := qa in
      do res <- exec (tx t) query a in
      match res with
      | Err err => ret (Some (Wrap "error updating record" err))
      | Ok r =>
          match RowsAffected r with
          | Err err =>
              ret (Some (Wrap "error retrieving affected rows count" err))
          | Ok rowsAffected =>
              if rowsAffected =? 0 then
                ret (Some (New "no records were updated"))
              else ret None
          end
      end
  end.

(** [PostgresTransaction.Delete]. *)
Definition Transaction_Delete (t : PostgresTransaction) (model : ModelWithPrimaryKey)
  : M World (option error) :=
  do w <- get in
  do qa <- build
      (run QB.WriteDelete (TableName (asModel model) (record w)) in
       do placeholder <- QB.AddParam (PrimaryKeyValue model (record w)) in
       do condition <- QB.sprintf "%s = %s"
                         [fmt.OStr (PrimaryKey model (record w));
                          fmt.OStr placeholder] in
       QB.WriteWhere condition []) in
  let '(query, a) := qa in
  do res <- exec (tx t) query a in
  match res with
  | Err err => ret (Some (Wrap "error deleting record" err))
  | Ok r =>
      match RowsAffected r with
      | Err err =>
          ret (Some (Wrap "error retrieving affected rows count" err))
      | Ok rowsAffected =>
          if rowsAffected =? 0 then
            ret (Some (New "no records were deleted"))
          else ret None
      end
  end.

(** [PostgresTransaction.Create]: every entry of the column mapping goes
    into the INSERT, which is executed on the transaction. *)
Definition Transaction_Create (t : PostgresTransaction) (model : core_Model)
  : M World (option error) :=
  do w <- get in
  match Reflection.GetStructFields (record w) with
  | Err err => ret (Some (Wrap "error retrieving struct fields" err))
  | Ok fields =>
      let columns := map fst (range fields) in
      let values := map snd (range fields) in
      do qa <- build (QB.WriteInsert (table_of model (record w)) columns values) in
      let '(query, a) := qa in
      do res <- exec (tx t) query a in
      match res with
      | Err err => ret (Some (insert_error err))
      | Ok _ => ret None
      end
  end.

End Operations.

End Postgres.

(** ** The builder seen from outside: its methods as operations *)

Module QBOps.
Import QB.

Inductive op : Type :=
| OpAddParam (value : iface)
| OpWrite (s : string)
| OpWriteWithParams (format : string) (a : list iface)
| OpWriteSelect (columns : list string)
| OpWriteFrom (table : string)
| OpWriteWhere (condition : string) (a : list iface)
| OpWriteAnd (condition : string) (a : list iface)
| OpWriteOr (condition : string) (a : list iface)
| OpWriteOrderBy (columns : list string)
| OpWriteLimit (limit : Z)
| OpWriteOffset (offset : Z)
| OpWriteInsert (table : string) (columns : list string) (values : list iface)
| OpWriteUpdate (table : string) (columns : list string) (values : list iface)
| OpWriteDelete (table : string)
| OpWriteReturning (columns : list string)
| OpReset.

Definition run_op (o : op) : M QueryBuilder unit :=
  match o with
  | OpAddParam value => do _ <- AddParam value in ret tt
  | OpWrite s => Write s
  | OpWriteWithParams format a => WriteWithParams format a
  | OpWriteSelect columns => WriteSelect columns
  | OpWriteFrom table => WriteFrom table
  | OpWriteWhere condition a => WriteWhere condition a
  | OpWriteAnd condition a => WriteAnd condition a
  | OpWriteOr condition a => WriteOr condition a
  | OpWriteOrderBy columns => WriteOrderBy columns
  | OpWriteLimit limit => WriteLimit limit
  | OpWriteOffset offset => WriteOffset offset
  | OpWriteInsert table columns values => WriteInsert table columns values
  | OpWriteUpdate table columns values => WriteUpdate table columns values
  | OpWriteDelete table => WriteDelete table
  | OpWriteReturning columns => WriteReturning columns
  | OpReset => Reset
  end.

(** A sequence of calls, each one returning before the next. *)
Fixpoint run_ops (os : list op) : M QueryBuilder unit :=
  match os with
  | [] => ret tt
  | o :: os' => run run_op o in run_ops os'
  end.

(** The states a builder made by [NewQueryBuilder] can be found in:
    after a call that returned, and after a call that panicked when the
    caller recovered and kept the builder. *)
Inductive reachable : QueryBuilder -> Prop :=
| reachable_new : reachable NewQueryBuilder
| reachable_step qb o qb' :
    reachable qb -> final_state (run_op o qb) = Some qb' -> reachable qb'.

(** The values a call hands to [AddParam] when it returns, in the order
    of the calls. *)
Definition op_params (o : op) : list iface :=
  match o with
  | OpAddParam value => [value]
  | OpWriteWithParams _ a | OpWriteWhere _ a | OpWriteAnd _ a | OpWriteOr _ a => a
  | OpWriteInsert _ _ values => values
  | OpWriteUpdate _ columns values => take (length columns) values
  | _ => []
  end.

(** The values added since the builder was made or last reset. *)
Definition added_since_reset (os : list op) : list iface :=
  fold_left (fun acc o => match o with
                          | OpReset => []
                          | _ => acc ++ op_params o
                          end) os [].

Definition is_reset (o : op) : bool :=
  match o with OpReset => true | _ => false end.

(** The invariant: the counter is one ahead of the number of arguments,
    which the runtime keeps within what a slice can hold. *)
Definition inv (qb : QueryBuilder) : Prop :=
  Z.of_nat (length (args qb)) = paramIndex qb - 1
  /\ 16 * Z.of_nat (length (args qb)) <= maxAlloc.

(** A computation that, from a state under the invariant, appends [l]
    to the arguments when it returns, and only appends when it panics. *)
Definition adds {A} (m : M QueryBuilder A) (l : list iface) : Prop :=
  forall qb, inv qb ->
    match m qb with
    | Ret _ qb' => inv qb' /\ args qb' = args qb ++ l
    | Panic _ qb' => inv qb' /\ exists l', args qb' = args qb ++ l'
    | Beyond => True
    end.

(** The calls that take no value to bind. *)
Definition is_plain (o : op) : bool :=
  match o with
  | OpWrite _ | OpWriteSelect _ | OpWriteFrom _ | OpWriteOrderBy _
  | OpWriteLimit _ | OpWriteOffset _ | OpWriteDelete _ | OpWriteReturning _ => true
  | _ => false
  end.

(** A sequence of calls without [Reset]. *)
Definition no_reset (os : list op) : bool :=
  forallb (fun o => negb (is_reset o)) os.

(** A computation of the builder that, whether it returns or panics,
    leaves the text it found with more text behind it. *)
Definition extends {A} (m : M QueryBuilder A) : Prop :=
  forall qb,
    match m qb with
    | Ret _ qb' | Panic _ qb' => exists t, query qb' = query qb +:+ t
    | Beyond => True
    end.

End QBOps.

(** ** What the helpers are expected to answer, for the comparison *)

Module Expected.

(** The struct behind a record handed over by value or by pointer. *)
Definition record_fields (obj : GoObj) : option StructValue :=
  match obj with
  | OVal (TStructOf s) | OPtr (Some (TStructOf s)) => Some s
  | _ => None
  end.

Definition db_tag (f : Field) : string := Get (Tag (fieldType f)) "db".

(** A field enters the column mapping when it is exported and its tag
    is not the exclusion mark. *)
Definition included (f : Field) : Prop :=
  IsExported (fieldType f) = true /\ db_tag f <> "-".

(** The value reflection hands out for a field: its current value when
    the field is exported, nil when it is not. *)
Definition visible (f : Field) : iface :=
  if IsExported (fieldType f) then Some (field f) else None.

(** A field marked as the primary key by its tag. *)
Definition marked_primary (f : Field) : bool :=
  strings.Contains (db_tag f) ",primary".

(** The column of a field marked primary: the first comma-delimited
    segment of the tag, the lower-cased identifier when that is empty. *)
Definition primary_column (f : Field) : string :=
  match strings.Split (db_tag f) "," with
  | EmptyString :: _ | [] => strings.ToLower (Name (fieldType f))
  | column :: _ => column
  end.

(** A field whose identifier is "id" whatever the case of its letters. *)
Definition named_id (f : Field) : bool :=
  String.eqb (strings.ToLower (Name (fieldType f))) "id".

(** The placeholders [$start], [$start+1], ... for [n] values. *)
Fixpoint placeholders (start : Z) (n : nat) : list string :=
  match n with
  | O => []
  | S n' => ("$" +:+ fmt.itoa start) :: placeholders (start + 1) n'
  end.

(** The text of an INSERT for a table, its columns and [n] values. *)
Definition insert_text (table : string) (columns : list string) (n : nat)
  : string :=
  "INSERT INTO " +:+ table +:+ " (" +:+ strings.Join columns ", "
  +:+ ") VALUES (" +:+ strings.Join (placeholders 1 n) ", " +:+ ")".

(** The text of an INSERT whose placeholders are numbered from [start]. *)
Definition insert_from (table : string) (columns : list string)
    (start : Z) (n : nat) : string :=
  "INSERT INTO " +:+ table +:+ " (" +:+ strings.Join columns ", "
  +:+ ") VALUES (" +:+ strings.Join (placeholders start n) ", " +:+ ")".

(** The assignments [column = $k] of an UPDATE, numbered from [start]. *)
Fixpoint assignments (start : Z) (columns : list string) : list string :=
  match columns with
  | [] => []
  | column :: columns' =>
      (column +:+ " = $" +:+ fmt.itoa start) :: assignments (start + 1) columns'
  end.

(** What the loop of [WriteUpdate] writes from index [i] on, the first
    placeholder being [$start]. *)
Fixpoint loop_text (i : nat) (start : Z) (rest : list string) : string :=
  match rest with
  | [] => EmptyString
  | column :: rest' =>
      (if (0 <? i)%nat then ", " else EmptyString)
      +:+ (column +:+ " = $" +:+ fmt.itoa start)
      +:+ loop_text (S i) (start + 1) rest'
  end.

(** The text of an UPDATE for a table and its columns, and of a DELETE
    for a table, up to the WHERE clause. *)
Definition update_text (table : string) (columns : list string) : string :=
  "UPDATE " +:+ table +:+ " SET " +:+ strings.Join (assignments 1 columns) ", ".

Definition delete_text (table : string) : string := "DELETE FROM " +:+ table.

(** The condition [key = $n] of [Update] and [Delete] as it reaches the
    statement: [WriteWhere] takes it for a format and hands it to
    [fmt.Sprintf] once more, with no operand. *)
Definition key_condition (primaryKey : string) (n : Z) : option string :=
  fmt.Sprintf (primaryKey +:+ " = $" +:+ fmt.itoa n) [].

(** A text with no [%] in it. *)
Fixpoint no_percent (s : string) : bool :=
  match s with
  | EmptyString => true
  | String c s' => negb (Ascii.eqb c "%"%char) && no_percent s'
  end.

(** The entries of the column mapping that go into the INSERT: all of
    them, but the one under the primary key when its value is zero. *)
Definition kept (primaryKey : string) (primaryKeyValue : GoValue)
    (entries : list (string * iface)) : list (string * iface) :=
  List.filter
    (fun kv => negb (String.eqb (fst kv) primaryKey
                     && reflect.IsZero primaryKeyValue))
    entries.

(** What [Update] and [Delete] return for an answer of the backend:
    [failed] wraps the error of the backend, [none] is the message for
    zero rows. *)
Definition verdict (failed none : string) (res : result Postgres.Result)
  : option error :=
  match res with
  | Err err => Some (Wrap failed err)
  | Ok r =>
      match Postgres.RowsAffected r with
      | Err err => Some (Wrap "error retrieving affected rows count" err)
      | Ok rowsAffected => if rowsAffected =? 0 then Some (New none) else None
      end
  end.

End Expected.

(** ** Fields of a record, as the reflection helpers treat them *)

Module Fields.

(** The column under which [GetStructFields] files a field. *)
Definition column (f : Field) : string :=
  Reflection.column_of (Expected.db_tag f) (Name (fieldType f)).

(** The test by which [SetStructField] takes a field for the one named. *)
Definition matches (fieldName : string) (f : Field) : bool :=
  String.eqb (Expected.db_tag f) fieldName
  || (String.eqb (Expected.db_tag f) EmptyString
      && String.eqb (strings.ToLower (Name (fieldType f))) fieldName).

(** What [SetStructField] stores in a field for a value: the value
    itself when it has the type of the field, its conversion otherwise. *)
Definition stored (v : GoValue) (f : Field) : GoValue :=
  if bool_decide (TypeOf (field f) = TypeOf v) then v
  else reflect.Convert v (TypeOf (field f)).

(** Whether a value can be stored in a field. *)
Definition storable (v : GoValue) (f : Field) : bool :=
  bool_decide (TypeOf (field f) = TypeOf v)
  || reflect.ConvertibleTo (TypeOf v) (TypeOf (field f)).

(** A field with another value. *)
Definition with_value (f : Field) (v : GoValue) : Field :=
  {| fieldType := fieldType f; field := v |}.

(** The declarations of a struct and the types of its fields. *)
Definition shape (s : StructValue) : list (StructField * GoType) :=
  map (fun f => (fieldType f, TypeOf (field f))) s.

(** The column the second loop of [GetPrimaryKeyField] answers for a
    field called "id": its db tag as it is written, "id" when the tag is
    empty or "-". *)
Definition fallback_column (f : Field) : string :=
  if String.eqb (Expected.db_tag f) EmptyString || String.eqb (Expected.db_tag f) "-"
  then "id" else Expected.db_tag f.

End Fields.

(** ** Records and backends used as examples *)

Module Examples.

Definition tagged (name tag : string) (v : GoValue) : Field :=
  {| fieldType := {| Name := name; PkgPath := EmptyString; Tag := [("db", tag)] |};
     field := v |}.

Definition untagged (name pkg : string) (v : GoValue) : Field :=
  {| fieldType := {| Name := name; PkgPath := pkg; Tag := [] |}; field := v |}.

(** [TestStruct] of reflection_test.go, with the values of
    [TestGetStructFields]. *)
Definition TestStruct : StructValue :=
  [ tagged "ID" "id,primary" (VInt 1);
    tagged "Name" "name" (VString "Test Name");
    tagged "Email" "email" (VString "test@example.com");
    tagged "Ignored" "-" (VString "This should be ignored");
    untagged "NoTag" EmptyString (VString "No tag field");
    untagged "unexported" "github.com/rodolfocoding/night-orm/pkg/utils"
      (VString "Unexported field") ].

(** [struct { id int `db:"id,primary"` }{id: 5}], declared in package main. *)
Definition hidden_key : StructValue :=
  [ {| fieldType := {| Name := "id"; PkgPath := "main";
                       Tag := [("db", "id,primary")] |};
       field := VInt 5 |} ].

(** [struct { ID int `db:"user_id,unique"` }{ID: 7}]: the tag names the
    column and carries an option; no field is marked primary. *)
Definition Account : StructValue := [ tagged "ID" "user_id,unique" (VInt 7) ].

(** The same record with the field marked primary. *)
Definition KeyedAccount : StructValue := [ tagged "ID" "user_id,primary" (VInt 7) ].

(** [type User struct { ID int `db:"id"`; Name string `db:"name"` }]
    with the methods the examples of the repository give it. *)
Definition User (id : Z) (name : string) : StructValue :=
  [ tagged "ID" "id" (VInt id); tagged "Name" "name" (VString name) ].

Definition user_id (obj : GoObj) : iface :=
  match Expected.record_fields obj with
  | Some (f :: _) => Some (field f)
  | _ => None
  end.

Definition UserModel : Postgres.ModelWithPrimaryKey :=
  {| Postgres.asModel := {| Postgres.TableName := fun _ => "users" |};
     Postgres.PrimaryKey := fun _ => "id";
     Postgres.PrimaryKeyValue := user_id |}.

(** A backend that takes every statement, generates the key 42 and
    reports that no row was affected. *)
Definition quiet_backend : Postgres.DB :=
  {| Postgres.ExecContext := fun _ _ => Ok {| Postgres.RowsAffected := Ok 0 |};
     Postgres.QueryRowContext_Scan := fun _ _ => Ok 42 |}.

Definition orm : Postgres.PostgresORM := {| Postgres.db := Some quiet_backend |}.

Definition world (s : StructValue) : Postgres.World :=
  {| Postgres.record := OPtr (Some (TStructOf s)); Postgres.trace := [] |}.

(** Builder states and calls. *)
Definition where_clause : QBOps.op :=
  QBOps.OpWriteWhere "id = %s" [Some (VInt 7)].

Definition after_where : QB.QueryBuilder :=
  {| QB.query := " WHERE id = $1"; QB.args := [Some (VInt 7)];
     QB.paramIndex := 2 |}.

Definition calls : list QBOps.op :=
  [ QBOps.OpWriteSelect []; QBOps.OpReset; QBOps.OpWriteDelete "t"; where_clause ].

Definition after_calls : QB.QueryBuilder :=
  {| QB.query := "DELETE FROM t WHERE id = $1"; QB.args := [Some (VInt 7)];
     QB.paramIndex := 2 |}.

(** The column mapping of [User 0 "Ann"]. *)
Definition user_fields : gmap string iface :=
  <["name" := Some (VString "Ann")]> (<["id" := Some (VInt 0)]> ∅).

Definition answered : Postgres.Result := {| Postgres.RowsAffected := Ok 0 |}.

Definition after_update : Postgres.World :=
  {| Postgres.record := OPtr (Some (TStructOf (User 5 "Ann")));
     Postgres.trace :=
       [Postgres.EvExec "UPDATE users SET name = $1 WHERE id = $2"
          [Some (VString "Ann"); Some (VInt 5)] (Ok answered)] |}.

Definition after_delete : Postgres.World :=
  {| Postgres.record := OPtr (Some (TStructOf (User 5 "Ann")));
     Postgres.trace :=
       [Postgres.EvExec "DELETE FROM users WHERE id = $1"
          [Some (VInt 5)] (Ok answered)] |}.

(** The column mapping of [User 5 "Ann"]. *)
Definition ann_fields : gmap string iface :=
  <["name" := Some (VString "Ann")]> (<["id" := Some (VInt 5)]> ∅).

(** More builder calls and states. *)
Definition delete_calls : list QBOps.op :=
  [ QBOps.OpWriteDelete "t"; where_clause ].

Definition after_limit : QB.QueryBuilder :=
  {| QB.query := " WHERE id = $1 LIMIT 5"; QB.args := [Some (VInt 7)];
     QB.paramIndex := 2 |}.

(** The fields of [TestStruct] and of [User], one by one. *)
Definition id_field : Field := tagged "ID" "id,primary" (VInt 1).
Definition name_field : Field := tagged "Name" "name" (VString "Test Name").

(** [struct { Code int `db:"n"`; Name string `db:"n"` }]: two fields under
    one column. *)
Definition Twice : StructValue :=
  [ tagged "Code" "n" (VInt 3); tagged "Name" "n" (VString "x") ].

(** A model whose [PrimaryKeyValue()] answers nil. *)
Definition NilKeyModel : Postgres.ModelWithPrimaryKey :=
  {| Postgres.asModel := {| Postgres.TableName := fun _ => "users" |};
     Postgres.PrimaryKey := fun _ => "id";
     Postgres.PrimaryKeyValue := fun _ => None |}.

Definition transaction : Postgres.PostgresTransaction :=
  {| Postgres.tx := quiet_backend |}.

End Examples.

(** * Properties *)

Lemma append_empty_r (s : string) : s +:+ EmptyString = s.
Proof.
  induction s as [|c s IH]; [reflexivity|].
  change (String c (s +:+ EmptyString) = String c s). now rewrite IH.
Qed.

Lemma wrap_int_small (z : Z) : MinInt <= z <= MaxInt -> wrap_int z = z.
Proof.
  unfold MinInt, MaxInt, wrap_int. intros H.
  rewrite Z.mod_small; lia.
Qed.

Section BuilderTheory.
Import QB QBOps.

Lemma Sprintf_placeholder (n : Z) :
  fmt.Sprintf "$%d" [fmt.OInt n] = Some ("$" +:+ fmt.itoa n).
Proof. cbv -[fmt.itoa String.append]. now rewrite append_empty_r. Qed.

(** [AddParam], step by step. *)
Lemma AddParam_eq (v : iface) (qb : QueryBuilder) :
  AddParam v qb =
    if 16 * (Z.of_nat (length (args qb)) + 1) <=? maxAlloc then
      Ret ("$" +:+ fmt.itoa (paramIndex qb))
          {| query := query qb; args := args qb ++ [v];
             paramIndex := wrap_int (paramIndex qb + 1) |}
    else Panic "runtime error: growslice: len out of range" qb.
Proof.
  unfold AddParam, bind, get, append.
  destruct (16 * (Z.of_nat (length (args qb)) + 1) <=? maxAlloc); [|reflexivity].
  unfold put, sprintf. rewrite Sprintf_placeholder. reflexivity.
Qed.

Lemma inv_new : inv NewQueryBuilder.
Proof. unfold inv, maxAlloc; simpl. lia. Qed.

Lemma adds_ret {A} (a : A) : adds (ret a) [].
Proof. intros qb H. simpl. now rewrite app_nil_r. Qed.

Lemma adds_bind {A B} (m : M QueryBuilder A) (k : A -> M QueryBuilder B) l1 l2 :
  adds m l1 -> (forall a, adds (k a) l2) -> adds (bind m k) (l1 ++ l2).
Proof.
  intros Hm Hk qb H. unfold bind. specialize (Hm qb H).
  destruct (m qb) as [a qb1|msg qb1|]; [| exact Hm | exact I].
  destruct Hm as [H1 E1]. specialize (Hk a qb1 H1).
  destruct (k a qb1) as [b qb2|msg qb2|]; [| | exact I].
  - destruct Hk as [H2 E2]. split; [exact H2|].
    now rewrite E2, E1, app_assoc.
  - destruct Hk as [H2 [l' E2]]. split; [exact H2|].
    exists (l1 ++ l'). now rewrite E2, E1, app_assoc.
Qed.

Lemma adds_bind_nil_l {A B} (m : M QueryBuilder A) (k : A -> M QueryBuilder B) l :
  adds m [] -> (forall a, adds (k a) l) -> adds (bind m k) l.
Proof. intros Hm Hk. exact (adds_bind m k [] l Hm Hk). Qed.

Lemma adds_Write (s : string) : adds (Write s) [].
Proof. intros qb H. simpl. now rewrite app_nil_r. Qed.

Lemma adds_sprintf (format : string) (a : list fmt.operand) :
  adds (sprintf format a) [].
Proof.
  intros qb H. unfold sprintf. destruct (fmt.Sprintf format a); simpl; [|exact I].
  now rewrite app_nil_r.
Qed.

Lemma adds_AddParam (v : iface) : adds (AddParam v) [v].
Proof.
  intros qb [H1 H2]. rewrite AddParam_eq.
  destruct (Z.leb_spec (16 * (Z.of_nat (length (args qb)) + 1)) maxAlloc) as [Hle|Hgt].
  - split; [|reflexivity]. unfold inv; simpl. rewrite length_app; simpl.
    rewrite wrap_int_small; unfold MinInt, MaxInt, maxAlloc in *; lia.
  - split; [split; assumption|]. exists []. now rewrite app_nil_r.
Qed.

Lemma adds_any_panic {A} (msg : string) (l : list iface) : adds (@panic _ A msg) l.
Proof. intros qb H. simpl. split; [exact H|]. exists []. now rewrite app_nil_r. Qed.

Lemma adds_bind_nil_r {A B} (m : M QueryBuilder A) (k : A -> M QueryBuilder B) l :
  adds m l -> (forall a, adds (k a) []) -> adds (bind m k) l.
Proof.
  intros Hm Hk. rewrite <- (app_nil_r l). exact (adds_bind m k l [] Hm Hk).
Qed.

Lemma adds_AddParams (values : list iface) : adds (AddParams values) values.
Proof.
  induction values as [|v values IH]; simpl.
  - apply adds_ret.
  - change (v :: values) with ([v] ++ values).
    apply adds_bind; [apply adds_AddParam|]. intros p.
    apply adds_bind_nil_r; [exact IH|]. intros ps. apply adds_ret.
Qed.

Lemma adds_WriteWithParams (format : string) (a : list iface) :
  adds (WriteWithParams format a) a.
Proof.
  unfold WriteWithParams.
  apply adds_bind_nil_r; [apply adds_AddParams|]. intros ps.
  apply adds_bind_nil_l; [apply adds_sprintf|]. intros s. apply adds_Write.
Qed.

Lemma adds_joined (prefix : string) (columns : list string) :
  adds (run Write prefix in Write (strings.Join columns ", ")) [].
Proof. apply adds_bind_nil_l; [apply adds_Write|]. intros _. apply adds_Write. Qed.

Lemma adds_WriteUpdate_loop (rest : list string) (values : list iface) (i : nat) :
  adds (WriteUpdate_loop i rest values) (take (length rest) (drop i values)).
Proof.
  revert i. induction rest as [|column rest IH]; intros i; simpl.
  - apply adds_ret.
  - apply adds_bind_nil_l.
    { destruct (0 <? i)%nat; [apply adds_Write | apply adds_ret]. }
    intros _. destruct (values !! i) as [v|] eqn:Hv; [|apply adds_any_panic].
    rewrite (drop_S _ _ _ Hv). simpl.
    change (v :: take (length rest) (drop (S i) values))
      with ([v] ++ take (length rest) (drop (S i) values)).
    apply adds_bind; [apply adds_AddParam|]. intros p.
    apply adds_bind_nil_l; [apply adds_sprintf|]. intros s.
    apply adds_bind_nil_l; [apply adds_Write|]. intros _. apply IH.
Qed.

Lemma run_op_adds (o : op) : is_reset o = false -> adds (run_op o) (op_params o).
Proof.
  destruct o; intros Hr; simpl in *; try discriminate.
  - apply adds_bind_nil_r; [apply adds_AddParam|]. intros p. apply adds_ret.
  - apply adds_Write.
  - apply adds_WriteWithParams.
  - unfold WriteSelect. apply adds_bind_nil_l; [apply adds_Write|]. intros _.
    destruct columns; apply adds_Write.
  - unfold WriteFrom. apply adds_bind_nil_l; [apply adds_Write|]. intros _.
    apply adds_Write.
  - unfold WriteWhere. apply adds_bind_nil_l; [apply adds_Write|]. intros _.
    apply adds_WriteWithParams.
  - unfold WriteAnd. apply adds_bind_nil_l; [apply adds_Write|]. intros _.
    apply adds_WriteWithParams.
  - unfold WriteOr. apply adds_bind_nil_l; [apply adds_Write|]. intros _.
    apply adds_WriteWithParams.
  - unfold WriteOrderBy. destruct columns; [apply adds_ret | apply adds_joined].
  - unfold WriteLimit. destruct (0 <? limit); [|apply adds_ret].
    apply adds_bind_nil_l; [apply adds_sprintf|]. intros s. apply adds_Write.
  - unfold WriteOffset. destruct (0 <? offset); [|apply adds_ret].
    apply adds_bind_nil_l; [apply adds_sprintf|]. intros s. apply adds_Write.
  - unfold WriteInsert.
    apply adds_bind_nil_l; [apply adds_sprintf|]. intros s.
    apply adds_bind_nil_l; [apply adds_Write|]. intros _.
    apply adds_bind_nil_l; [apply adds_Write|]. intros _.
    apply adds_bind_nil_l; [apply adds_Write|]. intros _.
    apply adds_bind_nil_r; [apply adds_AddParams|]. intros ps.
    apply adds_bind_nil_l; [apply adds_Write|]. intros _. apply adds_Write.
  - unfold WriteUpdate.
    apply adds_bind_nil_l; [apply adds_sprintf|]. intros s.
    apply adds_bind_nil_l; [apply adds_Write|]. intros _.
    generalize (adds_WriteUpdate_loop columns values 0). now rewrite drop_0.
  - unfold WriteDelete.
    apply adds_bind_nil_l; [apply adds_sprintf|]. intros s. apply adds_Write.
  - unfold WriteReturning. destruct columns; [apply adds_ret | apply adds_joined].
Qed.

(** Every call leaves a state under the invariant. *)
Lemma run_op_inv (o : op) (qb qb' : QueryBuilder) :
  inv qb -> final_state (run_op o qb) = Some qb' -> inv qb'.
Proof.
  intros H Hf. destruct (is_reset o) eqn:Hr.
  - destruct o; try discriminate. simpl in Hf. injection Hf as <-. apply inv_new.
  - pose proof (run_op_adds o Hr qb H) as Ha.
    destruct (run_op o qb) as [a q|msg q|]; simpl in Hf; try discriminate;
      injection Hf as <-; apply Ha.
Qed.

Lemma reachable_inv (qb : QueryBuilder) : reachable qb -> inv qb.
Proof.
  induction 1 as [|qb o qb' _ IH Hf]; [apply inv_new|].
  exact (run_op_inv o qb qb' IH Hf).
Qed.

Lemma added_step (os : list op) (acc : list iface) (qb qb' : QueryBuilder) :
  inv qb -> args qb = acc -> run_ops os qb = Ret tt qb' ->
  inv qb'
  /\ args qb' = fold_left (fun acc o => match o with
                                       | OpReset => []
                                       | _ => acc ++ op_params o
                                       end) os acc.
Proof.
  revert acc qb. induction os as [|o os IH]; intros acc qb H Hacc Hrun; simpl in *.
  - injection Hrun as <-. split; [exact H | exact Hacc].
  - unfold bind in Hrun. destruct (is_reset o) eqn:Hr.
    + destruct o; try discriminate. simpl in Hrun.
      exact (IH [] NewQueryBuilder inv_new eq_refl Hrun).
    + pose proof (run_op_adds o Hr qb H) as Ha.
      destruct (run_op o qb) as [a q|msg q|]; try discriminate.
      destruct Ha as [Hq Eq]. rewrite Hacc in Eq.
      replace (match o with OpReset => [] | _ => acc ++ op_params o end)
        with (acc ++ op_params o) by (destruct o; try reflexivity; discriminate).
      exact (IH (acc ++ op_params o) q Hq Eq Hrun).
Qed.

Lemma string_app_assoc (a b c : string) : (a +:+ b) +:+ c = a +:+ (b +:+ c).
Proof.
  induction a as [|x a IH]; [reflexivity|].
  change (String x ((a +:+ b) +:+ c) = String x (a +:+ (b +:+ c))).
  now rewrite IH.
Qed.

Lemma bind_Ret {S A B} (m : M S A) (k : A -> M S B) (s s' : S) (a : A) :
  m s = Ret a s' -> bind m k s = k a s'.
Proof. intros H. unfold bind. now rewrite H. Qed.

Lemma bind_get {S B} (k : S -> M S B) (s : S) : bind get k s = k s s.
Proof. reflexivity. Qed.

Lemma bind_Write {B} (t : string) (k : unit -> M QueryBuilder B) (qb : QueryBuilder) :
  bind (Write t) k qb
  = k tt {| query := query qb +:+ t; args := args qb; paramIndex := paramIndex qb |}.
Proof. reflexivity. Qed.

Lemma sprintf_Some {S} (format : string) (a : list fmt.operand) (t : string) (s : S) :
  fmt.Sprintf format a = Some t -> sprintf format a s = Ret t s.
Proof. intros H. unfold sprintf. now rewrite H. Qed.

Lemma Sprintf_insert (table : string) :
  fmt.Sprintf "INSERT INTO %s (" [fmt.OStr table]
  = Some ("INSERT INTO " +:+ table +:+ " (").
Proof. cbv -[String.append]. reflexivity. Qed.

(** With room left in the slice, [AddParams] returns the placeholders
    numbered from the counter on. *)
Lemma AddParams_room (values : list iface) (qb : QueryBuilder) :
  inv qb ->
  16 * (Z.of_nat (length (args qb)) + Z.of_nat (length values)) <= maxAlloc ->
  AddParams values qb
  = Ret (Expected.placeholders (paramIndex qb) (length values))
        {| query := query qb; args := args qb ++ values;
           paramIndex := paramIndex qb + Z.of_nat (length values) |}.
Proof.
  revert qb. induction values as [|v values IH]; intros qb [H1 H2] Hroom;
    cbn [AddParams Expected.placeholders].
  - unfold ret. rewrite app_nil_r, Z.add_0_r. now destruct qb.
  - unfold bind. rewrite AddParam_eq.
    change (length (v :: values)) with (S (length values)) in *.
    rewrite Nat2Z.inj_succ in *.
    destruct (Z.leb_spec (16 * (Z.of_nat (length (args qb)) + 1)) maxAlloc)
      as [Hle|Hgt]; [|exfalso; lia].
    rewrite wrap_int_small by (unfold MinInt, MaxInt, maxAlloc in *; lia).
    rewrite IH; simpl.
    + unfold ret. rewrite <- app_assoc. simpl.
      replace (paramIndex qb + 1 + Z.of_nat (length values))
        with (paramIndex qb + Z.succ (Z.of_nat (length values))) by lia.
      reflexivity.
    + unfold inv; simpl. rewrite length_app; simpl. lia.
    + rewrite length_app; simpl. lia.
Qed.

Lemma WriteInsert_new (table : string) (columns : list string) (values : list iface) :
  16 * Z.of_nat (length values) <= maxAlloc ->
  WriteInsert table columns values NewQueryBuilder
  = Ret tt {| query := Expected.insert_text table columns (length values);
              args := values;
              paramIndex := 1 + Z.of_nat (length values) |}.
Proof.
  intros Hroom. unfold WriteInsert.
  rewrite (bind_Ret _ _ _ _ _ (sprintf_Some _ _ _ _ (Sprintf_insert table))).
  rewrite !bind_Write.
  erewrite (bind_Ret (AddParams values));
    [|apply AddParams_room; [split; simpl; unfold maxAlloc; lia | simpl; lia]].
  rewrite bind_Write.
  unfold Write, modify, Expected.insert_text. simpl.
  rewrite !string_app_assoc. reflexivity.
Qed.

Lemma WriteReturning_one (pk : string) (qb : QueryBuilder) :
  WriteReturning [pk] qb
  = Ret tt {| query := query qb +:+ " RETURNING " +:+ pk; args := args qb;
              paramIndex := paramIndex qb |}.
Proof.
  unfold WriteReturning. rewrite bind_Write. unfold Write, modify. simpl.
  now rewrite string_app_assoc.
Qed.

Lemma Sprintf_delete (table : string) :
  fmt.Sprintf "DELETE FROM %s" [fmt.OStr table] = Some (Expected.delete_text table).
Proof. cbv -[String.append]. now rewrite append_empty_r. Qed.

Lemma Sprintf_update (table : string) :
  fmt.Sprintf "UPDATE %s SET " [fmt.OStr table]
  = Some ("UPDATE " +:+ table +:+ " SET ").
Proof. cbv -[String.append]. reflexivity. Qed.

Lemma Sprintf_assignment (column placeholder : string) :
  fmt.Sprintf "%s = %s" [fmt.OStr column; fmt.OStr placeholder]
  = Some (column +:+ " = " +:+ placeholder).
Proof. cbv -[String.append]. now rewrite append_empty_r. Qed.

Lemma concat_empty_cons (x : string) (l : list string) :
  String.concat EmptyString (x :: l) = x +:+ String.concat EmptyString l.
Proof. destruct l; [cbn [String.concat]; now rewrite append_empty_r | reflexivity]. Qed.

Lemma loop_text_commas (i : nat) (start : Z) (rest : list string) :
  (0 < i)%nat ->
  Expected.loop_text i start rest
  = String.concat EmptyString
      (map (fun a => ", " +:+ a) (Expected.assignments start rest)).
Proof.
  revert i start. induction rest as [|c rest IH]; intros i start Hi; [reflexivity|].
  cbn [Expected.loop_text Expected.assignments map].
  destruct (Nat.ltb_spec 0 i) as [_|]; [|lia].
  rewrite (IH (S i) (start + 1)) by lia. rewrite concat_empty_cons.
  rewrite !string_app_assoc. reflexivity.
Qed.

Lemma join_cons (a : string) (l : list string) :
  strings.Join (a :: l) ", "
  = a +:+ String.concat EmptyString (map (fun b => ", " +:+ b) l).
Proof.
  unfold strings.Join. revert a. induction l as [|b l IH]; intros a.
  - cbn [String.concat map]. now rewrite append_empty_r.
  - cbn [map]. rewrite concat_empty_cons.
    change (String.concat ", " (a :: b :: l))
      with (a +:+ ", " +:+ String.concat ", " (b :: l)).
    rewrite (IH b). rewrite !string_app_assoc. reflexivity.
Qed.

Lemma loop_text_join (start : Z) (columns : list string) :
  Expected.loop_text 0 start columns
  = strings.Join (Expected.assignments start columns) ", ".
Proof.
  destruct columns as [|c columns]; [reflexivity|].
  cbn [Expected.loop_text Expected.assignments]. rewrite join_cons.
  rewrite (loop_text_commas 1 (start + 1) columns) by lia. reflexivity.
Qed.

(** With a value for every column and room for them, the loop of
    [WriteUpdate] returns, having written its assignments. *)
Lemma WriteUpdate_loop_ok (rest : list string) (i : nat) (values : list iface)
    (qb : QueryBuilder) :
  inv qb ->
  16 * (Z.of_nat (length (args qb)) + Z.of_nat (length rest)) <= maxAlloc ->
  (i + length rest <= length values)%nat ->
  WriteUpdate_loop i rest values qb
  = Ret tt {| query := query qb +:+ Expected.loop_text i (paramIndex qb) rest;
              args := args qb ++ take (length rest) (drop i values);
              paramIndex := paramIndex qb + Z.of_nat (length rest) |}.
Proof.
  revert i qb. induction rest as [|column rest IH]; intros i qb [H1 H2] Hroom Hlen;
    cbn [WriteUpdate_loop Expected.loop_text].
  - unfold ret. cbn [length take]. rewrite app_nil_r, Z.add_0_r, append_empty_r.
    now destruct qb.
  - change (length (column :: rest)) with (S (length rest)) in *.
    rewrite Nat2Z.inj_succ in *.
    destruct (lookup_lt_is_Some_2 values i ltac:(lia)) as [v Hv]. rewrite Hv.
    rewrite (drop_S _ _ _ Hv). cbn [take].
    assert (forall q : QueryBuilder,
              args q = args qb -> paramIndex q = paramIndex qb ->
              (do p <- AddParam v in
               do s <- sprintf "%s = %s" [fmt.OStr column; fmt.OStr p] in
               run Write s in WriteUpdate_loop (S i) rest values) q
              = Ret tt {| query := query q
                                   +:+ (column +:+ " = $" +:+ fmt.itoa (paramIndex qb))
                                   +:+ Expected.loop_text (S i) (paramIndex qb + 1) rest;
                          args := args qb ++ v :: take (length rest) (drop (S i) values);
                          paramIndex := paramIndex qb + Z.succ (Z.of_nat (length rest)) |})
      as Hstep.
    { intros q Ea Ep. unfold bind at 1. rewrite AddParam_eq, Ea, Ep.
      destruct (Z.leb_spec (16 * (Z.of_nat (length (args qb)) + 1)) maxAlloc)
        as [Hle|Hgt]; [|exfalso; lia].
      rewrite wrap_int_small by (unfold MinInt, MaxInt, maxAlloc in *; lia).
      rewrite (bind_Ret _ _ _ _ _ (sprintf_Some _ _ _ _ (Sprintf_assignment _ _))).
      rewrite bind_Write. rewrite IH.
      - cbn [query args paramIndex]. rewrite <- app_assoc.
        rewrite !string_app_assoc. cbn [app].
        replace (paramIndex qb + 1 + Z.of_nat (length rest))
          with (paramIndex qb + Z.succ (Z.of_nat (length rest))) by lia.
        reflexivity.
      - unfold inv; cbn [args paramIndex]. rewrite length_app; simpl. lia.
      - cbn [args]. rewrite length_app; simpl. lia.
      - lia. }
    destruct (0 <? i)%nat.
    + rewrite bind_Write. rewrite Hstep by reflexivity. cbn [query].
      rewrite !string_app_assoc. reflexivity.
    + unfold bind at 1, ret. rewrite Hstep by reflexivity.
      rewrite !string_app_assoc. reflexivity.
Qed.

Lemma WriteUpdate_new (table : string) (columns : list string) (values : list iface) :
  length columns = length values ->
  16 * Z.of_nat (length values) <= maxAlloc ->
  WriteUpdate table columns values NewQueryBuilder
  = Ret tt {| query := Expected.update_text table columns;
              args := values;
              paramIndex := 1 + Z.of_nat (length values) |}.
Proof.
  intros Hlen Hroom. unfold WriteUpdate.
  rewrite (bind_Ret _ _ _ _ _ (sprintf_Some _ _ _ _ (Sprintf_update table))).
  rewrite bind_Write.
  rewrite WriteUpdate_loop_ok;
    [| split; simpl; unfold maxAlloc; lia | simpl; lia | lia].
  cbn [query args paramIndex NewQueryBuilder app].
  rewrite drop_0, loop_text_join, Hlen, firstn_all.
  unfold Expected.update_text. rewrite !string_app_assoc. reflexivity.
Qed.

Lemma WriteDelete_new (table : string) :
  WriteDelete table NewQueryBuilder
  = Ret tt {| query := Expected.delete_text table; args := []; paramIndex := 1 |}.
Proof.
  unfold WriteDelete.
  rewrite (bind_Ret _ _ _ _ _ (sprintf_Some _ _ _ _ (Sprintf_delete table))).
  reflexivity.
Qed.

(** The WHERE clause of [Update] and [Delete]: the key is bound to the
    next placeholder, and the condition goes through [fmt.Sprintf]
    twice. *)
Lemma where_key (primaryKey condition : string) (value : iface) (qb : QueryBuilder) :
  inv qb ->
  16 * (Z.of_nat (length (args qb)) + 1) <= maxAlloc ->
  Expected.key_condition primaryKey (paramIndex qb) = Some condition ->
  (do placeholder <- AddParam value in
   do condition <- sprintf "%s = %s" [fmt.OStr primaryKey; fmt.OStr placeholder] in
   WriteWhere condition []) qb
  = Ret tt {| query := query qb +:+ " WHERE " +:+ condition;
              args := args qb ++ [value];
              paramIndex := paramIndex qb + 1 |}.
Proof.
  intros [H1 H2] Hroom Hc. unfold bind at 1. rewrite AddParam_eq.
  destruct (Z.leb_spec (16 * (Z.of_nat (length (args qb)) + 1)) maxAlloc)
    as [Hle|Hgt]; [|exfalso; lia].
  rewrite wrap_int_small by (unfold MinInt, MaxInt, maxAlloc in *; lia).
  rewrite (bind_Ret _ _ _ _ _ (sprintf_Some _ _ _ _ (Sprintf_assignment _ _))).
  unfold WriteWhere. rewrite bind_Write. unfold WriteWithParams.
  cbn [AddParams]. unfold bind at 1, ret at 1. cbn [map].
  rewrite (bind_Ret _ _ _ _ _ (sprintf_Some _ _ _ _ Hc)).
  unfold Write, modify. cbn [query args paramIndex].
  rewrite string_app_assoc. reflexivity.
Qed.

(** C9: in every state a builder made by [NewQueryBuilder] can be found
    in, the argument list has [paramIndex - 1] elements; [AddParam]
    there answers the placeholder [$n] for the value it stores at
    position [n] (counting from 1), behind the values stored before, and
    [Build] hands the list out as it is; [Reset] gives the state of a new
    builder; after a sequence of calls that returned, the arguments are
    the values added since the last [Reset], in the order of the calls. *)
Theorem builder_args_follow_counter :
  (forall qb, reachable qb ->
     Z.of_nat (length (args qb)) = paramIndex qb - 1
     /\ (forall v,
           match AddParam v qb with
           | Ret placeholder qb' =>
               placeholder = "$" +:+ fmt.itoa (Z.of_nat (length (args qb)) + 1)
               /\ args qb' !! length (args qb) = Some v
               /\ Build qb' = (query qb, args qb ++ [v])
               /\ paramIndex qb' = paramIndex qb + 1
           | Panic _ qb' => qb' = qb
           | Beyond => False
           end)
     /\ Reset qb = Ret tt NewQueryBuilder)
  /\ (forall os qb, run_ops os NewQueryBuilder = Ret tt qb ->
        Build qb = (query qb, added_since_reset os)
        /\ paramIndex qb = 1 + Z.of_nat (length (added_since_reset os)))
  /\ NewQueryBuilder = {| query := EmptyString; args := []; paramIndex := 1 |}.
Proof.
  split; [|split; [|reflexivity]].
  - intros qb Hr. pose proof (reachable_inv qb Hr) as [H1 H2].
    split; [exact H1|]. split; [|reflexivity].
    intros v. rewrite AddParam_eq.
    destruct (Z.leb_spec (16 * (Z.of_nat (length (args qb)) + 1)) maxAlloc)
      as [Hle|Hgt]; [|reflexivity].
    simpl. split; [f_equal; f_equal; lia|].
    split; [apply list_lookup_middle; reflexivity|].
    split; [reflexivity|].
    apply wrap_int_small. unfold MinInt, MaxInt, maxAlloc in *. lia.
  - intros os qb Hrun.
    destruct (added_step os [] NewQueryBuilder qb inv_new eq_refl Hrun) as [[H1 _] E].
    unfold Build, added_since_reset. rewrite <- E. split; [reflexivity|]. lia.
Qed.

(** C5: the chain [WriteUpdate("t", ["n"], ["J"])], [WriteWhere("id = %s", 7)]
    on a new builder builds [UPDATE t SET n = $1 WHERE id = $2] with the
    arguments ["J", 7]; and no call but [Reset] lowers the counter: a
    clause written to a builder numbers its placeholders from where the
    clauses before it stopped. *)
Theorem update_where_numbering_continues :
  (exists qb,
      (run WriteUpdate "t" ["n"] [Some (VString "J")] in
       WriteWhere "id = %s" [Some (VInt 7)]) NewQueryBuilder = Ret tt qb
      /\ Build qb = ("UPDATE t SET n = $1 WHERE id = $2",
                     [Some (VString "J"); Some (VInt 7)]))
  /\ (forall qb o qb',
        reachable qb -> is_reset o = false ->
        final_state (run_op o qb) = Some qb' ->
        paramIndex qb <= paramIndex qb'
        /\ (forall v placeholder qb'',
              AddParam v qb' = Ret placeholder qb'' ->
              placeholder = "$" +:+ fmt.itoa (paramIndex qb')
              /\ paramIndex qb'' = paramIndex qb' + 1)).
Proof.
  split.
  - eexists. split; vm_compute; reflexivity.
  - intros qb o qb' Hr Ho Hf.
    pose proof (reachable_inv qb Hr) as Hi.
    pose proof (run_op_inv o qb qb' Hi Hf) as Hi'.
    pose proof (run_op_adds o Ho qb Hi) as Ha.
    split.
    + destruct Hi as [H1 _], Hi' as [H1' _].
      assert (exists l, args qb' = args qb ++ l) as [l El].
      { destruct (run_op o qb) as [a q|msg q|]; simpl in Hf; try discriminate;
          injection Hf as <-; [exists (op_params o); apply Ha | apply Ha]. }
      rewrite El, length_app in H1'. lia.
    + intros v placeholder qb'' Hadd. rewrite AddParam_eq in Hadd.
      destruct Hi' as [H1' H2'].
      destruct (Z.leb_spec (16 * (Z.of_nat (length (args qb')) + 1)) maxAlloc)
        as [Hle|Hgt]; [|discriminate].
      injection Hadd as <- <-. split; [reflexivity|]. simpl.
      apply wrap_int_small. unfold MinInt, MaxInt, maxAlloc in *. lia.
Qed.

(** C6: the chain [WriteSelect("a","b")], [WriteFrom("t")],
    [WriteWhere("a = %s", 1)], [WriteAnd("b = %s", "x")] on a new builder
    builds [SELECT a, b FROM t WHERE a = $1 AND b = $2] with the arguments
    [1, "x"]; with no column [WriteSelect] writes [SELECT *]. *)
Theorem select_chain_text_and_wildcard :
  (exists qb,
      (run WriteSelect ["a"; "b"] in
       run WriteFrom "t" in
       run WriteWhere "a = %s" [Some (VInt 1)] in
       WriteAnd "b = %s" [Some (VString "x")]) NewQueryBuilder = Ret tt qb
      /\ Build qb = ("SELECT a, b FROM t WHERE a = $1 AND b = $2",
                     [Some (VInt 1); Some (VString "x")]))
  /\ (forall qb,
        WriteSelect [] qb
        = Ret tt {| query := query qb +:+ "SELECT *"; args := args qb;
                    paramIndex := paramIndex qb |}).
Proof.
  split.
  - eexists. split; vm_compute; reflexivity.
  - intros qb. unfold WriteSelect, bind, Write, modify. simpl.
    now rewrite string_app_assoc.
Qed.

End BuilderTheory.

Section ReflectionTheory.
Import Reflection Expected.

(** A record is a struct for both getters: they reach its fields. *)
Lemma record_fields_value (obj : GoObj) (s : StructValue) :
  record_fields obj = Some s ->
  obj <> ONil
  /\ exists addr,
      (if bool_decide (reflect.kind (reflect.ValueOf obj) = reflect.Ptr)
       then reflect.Elem (reflect.ValueOf obj) else reflect.ValueOf obj)
      = reflect.Of (TStructOf s) addr.
Proof.
  destruct obj as [|[s'|v]|[[s'|v]|]]; simpl; try discriminate;
    intros [= <-]; (split; [discriminate|]); eexists; reflexivity.
Qed.

Lemma GetStructFields_record (obj : GoObj) (s : StructValue) :
  record_fields obj = Some s ->
  exists addr, GetStructFields obj = Ok (GetStructFields_loop addr s ∅).
Proof.
  intros H. destruct (record_fields_value obj s H) as [Hn [addr E]].
  exists addr. unfold GetStructFields. destruct obj; [contradiction| |];
    rewrite E; reflexivity.
Qed.

Lemma loop_skip addr f rest fields :
  ~ included f ->
  GetStructFields_loop addr (f :: rest) fields = GetStructFields_loop addr rest fields.
Proof.
  unfold included, db_tag. intros H. simpl.
  destruct (IsExported (fieldType f)); simpl; [|reflexivity].
  destruct (String.eqb_spec (Get (Tag (fieldType f)) "db") "-") as [E|E];
    [reflexivity|]. exfalso. apply H. split; [reflexivity | exact E].
Qed.

Lemma loop_take addr f rest fields :
  included f ->
  GetStructFields_loop addr (f :: rest) fields
  = GetStructFields_loop addr rest
      (<[column_of (db_tag f) (Name (fieldType f)) := Some (field f)]> fields).
Proof.
  unfold included, db_tag. intros [He Ht]. simpl.
  unfold interface_of, reflect.CanInterface, reflect.FieldOf, reflect.Interface.
  simpl. rewrite He. simpl.
  destruct (String.eqb_spec (Get (Tag (fieldType f)) "db") "-") as [E|E];
    [contradiction | reflexivity].
Qed.

Lemma included_dec (f : Field) : {included f} + {~ included f}.
Proof.
  unfold included. destruct (IsExported (fieldType f)).
  - destruct (decide (db_tag f = "-")) as [E|E].
    + right. intros [_ H]. contradiction.
    + left. split; [reflexivity | exact E].
  - right. intros [H _]. discriminate.
Qed.

Lemma loop_keeps_keys addr rest (fields : gmap string iface) k :
  is_Some (fields !! k) -> is_Some (GetStructFields_loop addr rest fields !! k).
Proof.
  revert fields. induction rest as [|f rest IH]; intros fields H; [exact H|].
  destruct (included_dec f) as [Hi|Hi].
  - rewrite (loop_take _ _ _ _ Hi). apply IH.
    destruct (decide (column_of (db_tag f) (Name (fieldType f)) = k)) as [<-|Hne].
    + rewrite lookup_insert_eq. eauto.
    + now rewrite lookup_insert_ne.
  - rewrite (loop_skip _ _ _ _ Hi). now apply IH.
Qed.

Lemma loop_entries addr rest (fields : gmap string iface) k v :
  GetStructFields_loop addr rest fields !! k = Some v ->
  fields !! k = Some v
  \/ exists f, f ∈ rest /\ included f
               /\ k = column_of (db_tag f) (Name (fieldType f))
               /\ v = Some (field f).
Proof.
  revert fields. induction rest as [|f rest IH]; intros fields H; [now left|].
  destruct (included_dec f) as [Hi|Hi].
  - rewrite (loop_take _ _ _ _ Hi) in H. destruct (IH _ H) as [H0|[g [Hg Hrest]]].
    + destruct (decide (column_of (db_tag f) (Name (fieldType f)) = k)) as [E|Hne].
      * subst k. rewrite lookup_insert_eq in H0. injection H0 as <-.
        right. exists f. split; [left|]. now split.
      * rewrite lookup_insert_ne in H0 by exact Hne. now left.
    + right. exists g. split; [now right | exact Hrest].
  - rewrite (loop_skip _ _ _ _ Hi) in H. destruct (IH _ H) as [H0|[g [Hg Hrest]]].
    + now left.
    + right. exists g. split; [now right | exact Hrest].
Qed.

Lemma loop_covers addr rest (fields : gmap string iface) f :
  f ∈ rest -> included f ->
  is_Some (GetStructFields_loop addr rest fields
             !! column_of (db_tag f) (Name (fieldType f))).
Proof.
  revert fields. induction rest as [|g rest IH]; intros fields Hin Hi.
  - now apply not_elem_of_nil in Hin.
  - apply elem_of_cons in Hin as [->|Hin].
    + rewrite (loop_take _ _ _ _ Hi). apply loop_keeps_keys.
      rewrite lookup_insert_eq. eauto.
    + destruct (included_dec g) as [Hg|Hg].
      * rewrite (loop_take _ _ _ _ Hg). now apply IH.
      * rewrite (loop_skip _ _ _ _ Hg). now apply IH.
Qed.

(** C7: for a struct record, every entry of the mapping comes from a
    field that is exported and whose db tag is not "-" (so no entry is
    made for a field that is not exported or that is tagged "-"), and
    every exported field with another tag, or none, has its column in
    the mapping. *)
Theorem mapping_holds_the_exported_unexcluded_fields :
  forall (obj : GoObj) (s : StructValue),
    record_fields obj = Some s ->
    exists m : gmap string iface,
      GetStructFields obj = Ok m
      /\ (forall k v, m !! k = Some v ->
            exists f, f ∈ s
                      /\ IsExported (fieldType f) = true
                      /\ Get (Tag (fieldType f)) "db" <> "-"
                      /\ k = column_of (Get (Tag (fieldType f)) "db")
                               (Name (fieldType f))
                      /\ v = Some (field f))
      /\ (forall f, f ∈ s ->
            IsExported (fieldType f) = true ->
            Get (Tag (fieldType f)) "db" <> "-" ->
            is_Some (m !! column_of (Get (Tag (fieldType f)) "db")
                               (Name (fieldType f)))).
Proof.
  intros obj s H. destruct (GetStructFields_record obj s H) as [addr E].
  eexists. split; [exact E|]. split.
  - intros k v Hk. destruct (loop_entries _ _ _ _ _ Hk) as [H0|[f [Hf [[He Ht] [Ek Ev]]]]].
    + rewrite lookup_empty in H0. discriminate.
    + exists f. repeat split; assumption.
  - intros f Hf He Ht. apply loop_covers; [exact Hf|]. split; assumption.
Qed.

(** C2 (the code departs from the claim): on [TestStruct] of the
    repository's own test, whose [ID] field is tagged [id,primary], the
    mapping has no key "id": the key is the whole tag, option flag
    included, bound to the field's value. *)
Theorem tagged_key_keeps_the_option_flags :
  exists m : gmap string iface,
    GetStructFields (OVal (TStructOf Examples.TestStruct)) = Ok m
    /\ m !! "id" = None
    /\ m !! "id,primary" = Some (Some (VInt 1))
    /\ hd EmptyString (strings.Split "id,primary" ",") = "id".
Proof. eexists. repeat split; vm_compute; reflexivity. Qed.

(** C3 (the code departs from the claim): on a pointer to [TestStruct],
    setting the field of column "id" finds no field, the tag of [ID]
    being compared as a whole, and the record stays as it was. *)
Theorem set_by_column_misses_flagged_tag :
  SetStructField "id" (Some (VInt 7)) (OPtr (Some (TStructOf Examples.TestStruct)))
  = Ret (Some (New "campo não encontrado"))
        (OPtr (Some (TStructOf Examples.TestStruct))).
Proof. vm_compute. reflexivity. Qed.

Lemma SetStructField_loop_error addr fieldName value i rest obj err obj' :
  SetStructField_loop addr fieldName value i rest obj = Ret (Some err) obj' ->
  obj' = obj.
Proof.
  revert i. induction rest as [|f rest IH]; intros i H; simpl in H.
  - now injection H as _ <-.
  - unfold bind, modify, ret, panic in H.
    repeat case_match; simplify_eq; solve [reflexivity | eauto].
Qed.

(** C10: whenever [SetStructField] returns an error, the record is the
    one it was given: no field has been assigned. *)
Theorem error_leaves_the_record_unchanged :
  forall (fieldName : string) (value : iface) (obj obj' : GoObj) (err : error),
    SetStructField fieldName value obj = Ret (Some err) obj' ->
    obj' = obj.
Proof.
  intros fieldName value obj obj' err H.
  unfold SetStructField, bind, get, ret in H.
  destruct obj as [|[s|[]]|[[s|[]]|]]; simpl in H;
    try (injection H as _ <-; reflexivity).
  exact (SetStructField_loop_error _ _ _ _ _ _ _ _ H).
Qed.

Lemma interface_of_visible (addr : bool) (f : Field) :
  interface_of (reflect.FieldOf addr f) = visible f.
Proof.
  unfold interface_of, visible, reflect.CanInterface, reflect.FieldOf. simpl.
  now destruct (IsExported (fieldType f)).
Qed.

Lemma primary_loop_find (addr : bool) (s : StructValue) :
  primary_loop addr s
  = option_map (fun f => (primary_column f, visible f)) (List.find marked_primary s).
Proof.
  induction s as [|f s IH]; [reflexivity|]. simpl. unfold marked_primary at 1, db_tag.
  destruct (strings.Contains (Get (Tag (fieldType f)) "db") ",primary"); [|exact IH].
  simpl. rewrite interface_of_visible. unfold primary_column, db_tag.
  destruct (strings.Split (Get (Tag (fieldType f)) "db") ",") as [|[|c column] segs];
    reflexivity.
Qed.

(** C4 (the code departs from the claim): on
    [struct { ID int `db:"user_id,unique"` }{ID: 7}], where no field is
    marked primary and the identity is the field called [ID], the helper
    answers the whole tag, option included, for the column.  The
    resolved column is the first comma-delimited segment, "user_id": it
    is what [GetTagName] answers for the same field, and what the helper
    itself answers once the field is marked primary. *)
Theorem fallback_identity_keeps_the_option_flags :
  GetPrimaryKeyField (OVal (TStructOf Examples.Account))
  = Ok ("user_id,unique", Some (VInt 7))
  /\ GetPrimaryKeyField (OPtr (Some (TStructOf Examples.Account)))
     = Ok ("user_id,unique", Some (VInt 7))
  /\ hd EmptyString (strings.Split "user_id,unique" ",") = "user_id"
  /\ GetTagName (map fieldType Examples.Account) "ID" "db" = "user_id"
  /\ GetPrimaryKeyField (OVal (TStructOf Examples.KeyedAccount))
     = Ok ("user_id", Some (VInt 7)).
Proof. repeat split; vm_compute; reflexivity. Qed.

End ReflectionTheory.

Section PostgresTheory.
Import Postgres Expected.

Lemma Create_loop_kept pk v rest cols vals w :
  Create_loop pk (Some v) rest cols vals w
  = Ret (cols ++ map fst (kept pk v rest), vals ++ map snd (kept pk v rest)) w.
Proof.
  revert cols vals. induction rest as [|[c x] rest IH]; intros cols vals; simpl.
  - unfold ret. now rewrite !app_nil_r.
  - destruct (String.eqb c pk); simpl.
    + destruct (reflect.IsZero v); simpl; rewrite IH; [reflexivity|].
      now rewrite <- !app_assoc.
    + rewrite IH. now rewrite <- !app_assoc.
Qed.

Lemma Create_loop_all rest cols vals w :
  (forall x, (EmptyString, x) ∉ rest) ->
  Create_loop EmptyString None rest cols vals w
  = Ret (cols ++ map fst rest, vals ++ map snd rest) w.
Proof.
  revert cols vals. induction rest as [|[c x] rest IH]; intros cols vals Hno; simpl.
  - unfold ret. now rewrite !app_nil_r.
  - destruct (String.eqb_spec c EmptyString) as [->|Hc].
    + exfalso. apply (Hno x). left.
    + rewrite IH; [now rewrite <- !app_assoc|].
      intros y Hy. apply (Hno y). now right.
Qed.

Lemma kept_length_le pk v rest : (length (kept pk v rest) <= length rest)%nat.
Proof. unfold kept. apply List.filter_length_le. Qed.

Lemma kept_elem pk v rest k x :
  (k, x) ∈ kept pk v rest <-> (k, x) ∈ rest /\ (k = pk -> reflect.IsZero v = false).
Proof.
  unfold kept. rewrite !list_elem_of_In, List.filter_In. simpl.
  split; intros [H1 H2]; (split; [exact H1|]).
  - intros ->. rewrite String.eqb_refl in H2. simpl in H2.
    now destruct (reflect.IsZero v).
  - destruct (String.eqb_spec k pk) as [E|E]; [|reflexivity].
    rewrite (H2 E). reflexivity.
Qed.

(** C1, as the code has it: for a record whose type names a primary key
    ([PrimaryKey()] not empty, [PrimaryKeyValue()] not nil), [Create]
    lists in the INSERT the entries of the column mapping, leaving out
    the one under the primary key exactly when the primary-key value is
    the zero value of its type; it appends [RETURNING <primary key>]
    and reads the generated key whether that value is zero or not, and,
    the backend having answered a key, hands it to [SetStructField] on
    the record.  For a record whose type names no primary key the INSERT
    lists every entry, has no RETURNING clause, and the record is left
    as it is. *)
Theorem insert_returns_key_whenever_one_is_named :
  forall (range : gmap string iface -> list (string * iface)) (d : DB)
         (obj : GoObj) (fields : gmap string iface),
    (forall m, range m ≡ₚ map_to_list m) ->
    Reflection.GetStructFields obj = Ok fields ->
    16 * Z.of_nat (size fields) <= QB.maxAlloc ->
    (forall (m : ModelWithPrimaryKey) (v : GoValue),
        PrimaryKey m obj <> EmptyString ->
        PrimaryKeyValue m obj = Some v ->
        let pk := PrimaryKey m obj in
        let entries := kept pk v (range fields) in
        let query := insert_text (TableName (asModel m) obj) (map fst entries)
                       (length entries) +:+ " RETURNING " +:+ pk in
        (forall k x, (k, x) ∈ entries
                     <-> fields !! k = Some x
                         /\ (k = pk -> reflect.IsZero v = false))
        /\ Create range {| db := Some d |} (WithPrimaryKey m)
             {| record := obj; trace := [] |}
           = match QueryRowContext_Scan d query (map snd entries) with
             | Err err =>
                 Ret (Some (insert_error err))
                     {| record := obj;
                        trace := [EvQueryRow query (map snd entries) (Err err)] |}
             | Ok generatedID =>
                 match Reflection.SetStructField pk (Some (VInt generatedID)) obj with
                 | Ret e obj' =>
                     Ret (option_map (Wrap "error setting primary key value") e)
                         {| record := obj';
                            trace := [EvQueryRow query (map snd entries)
                                        (Ok generatedID)] |}
                 | Panic msg obj' =>
                     Panic msg
                           {| record := obj';
                              trace := [EvQueryRow query (map snd entries)
                                          (Ok generatedID)] |}
                 | Beyond => Beyond
                 end
             end)
    /\ (forall m : Model,
          fields !! EmptyString = None ->
          let query := insert_text (TableName m obj) (map fst (range fields))
                         (length (range fields)) in
          let res := ExecContext d query (map snd (range fields)) in
          Create range {| db := Some d |} (JustModel m)
            {| record := obj; trace := [] |}
          = Ret (match res with
                 | Err err => Some (insert_error err)
                 | Ok _ => None
                 end)
                {| record := obj;
                   trace := [EvExec query (map snd (range fields)) res] |}).
Proof.
  intros range d obj fields Hperm Hfields Hsize.
  assert (length (range fields) = size fields) as Hlen.
  { rewrite (Permutation_length (Hperm fields)). apply length_map_to_list. }
  split.
  - intros m v Hpk Hv pk entries query. split.
    + intros k x. unfold entries. rewrite kept_elem.
      rewrite (Hperm fields), elem_of_map_to_list. reflexivity.
    + unfold Create. cbn [db]. rewrite bind_get. cbn [record].
      rewrite Hfields, Hv. fold pk.
      rewrite (bind_Ret _ _ _ _ _ (Create_loop_kept pk v (range fields) [] [] _)).
      cbn [app]. fold entries.
      assert (negb (String.eqb pk EmptyString) = true) as Hne.
      { destruct (String.eqb_spec pk EmptyString); [contradiction | reflexivity]. }
      rewrite Hne.
      assert (16 * Z.of_nat (length (map snd entries)) <= QB.maxAlloc) as Hroom.
      { rewrite length_map. pose proof (kept_length_le pk v (range fields)) as Hk.
        fold entries in Hk. lia. }
      assert (build (run QB.WriteInsert (table_of (WithPrimaryKey m) obj)
                           (map fst entries) (map snd entries)
                     in QB.WriteReturning [pk])
                {| record := obj; trace := [] |}
              = Ret (query, map snd entries) {| record := obj; trace := [] |}) as Hb.
      { unfold build.
        rewrite (bind_Ret _ _ _ _ _ (WriteInsert_new _ _ _ Hroom)).
        rewrite WriteReturning_one. unfold QB.Build. cbn [QB.query QB.args].
        rewrite length_map. reflexivity. }
      rewrite (bind_Ret _ _ _ _ _ Hb).
      unfold bind, query_row_scan, on_record. cbn [record trace app].
      destruct (QueryRowContext_Scan d query (map snd entries)) as [g|err];
        [|reflexivity].
      cbn [record trace app].
      destruct (Reflection.SetStructField pk (Some (VInt g)) obj)
        as [[e|] obj'|msg obj'|]; reflexivity.
  - intros m Hno query res. unfold Create. cbn [db]. rewrite bind_get. cbn [record].
    rewrite Hfields.
    assert (forall x, (EmptyString, x) ∉ range fields) as Hnone.
    { intros x Hx. rewrite (Hperm fields), elem_of_map_to_list in Hx. congruence. }
    rewrite (bind_Ret _ _ _ _ _ (Create_loop_all (range fields) [] [] _ Hnone)).
    cbn [app negb String.eqb].
    assert (16 * Z.of_nat (length (map snd (range fields))) <= QB.maxAlloc) as Hroom.
    { rewrite length_map. lia. }
    assert (build (run QB.WriteInsert (table_of (JustModel m) obj)
                         (map fst (range fields)) (map snd (range fields))
                   in ret tt)
              {| record := obj; trace := [] |}
            = Ret (query, map snd (range fields)) {| record := obj; trace := [] |})
      as Hb.
    { unfold build.
      rewrite (bind_Ret _ _ _ _ _ (WriteInsert_new _ _ _ Hroom)).
      unfold ret, QB.Build. cbn [QB.query QB.args]. rewrite length_map. reflexivity. }
    rewrite (bind_Ret _ _ _ _ _ Hb).
    unfold bind, exec, ret. cbn [record trace app]. fold res.
    destruct res; reflexivity.
Qed.

(** C1 as stated fails on a [User] whose [ID] holds 5: the INSERT lists
    the column [id] with the value 5 and still ends in [RETURNING id],
    and the key the backend answers, 42, is written over the 5. *)
Lemma nonzero_identity_is_still_retrieved :
  PrimaryKeyValue Examples.UserModel (record (Examples.world (Examples.User 5 "Ann")))
  = Some (VInt 5)
  /\ reflect.IsZero (VInt 5) = false
  /\ Create map_to_list Examples.orm (WithPrimaryKey Examples.UserModel)
       (Examples.world (Examples.User 5 "Ann"))
     = Ret None
         {| record := OPtr (Some (TStructOf (Examples.User 42 "Ann")));
            trace := [EvQueryRow
                        "INSERT INTO users (id, name) VALUES ($1, $2) RETURNING id"
                        [Some (VInt 5); Some (VString "Ann")] (Ok 42)] |}.
Proof. repeat split; vm_compute; reflexivity. Qed.

(** The statement of [Update] and of [PostgresTransaction.Update]. *)
Lemma update_statement (table primaryKey condition : string)
    (entries : list (string * iface)) (value : iface) (w : World) :
  16 * (Z.of_nat (length entries) + 1) <= QB.maxAlloc ->
  key_condition primaryKey (1 + Z.of_nat (length entries)) = Some condition ->
  build (run QB.WriteUpdate table (map fst entries) (map snd entries) in
         do placeholder <- QB.AddParam value in
         do condition <- QB.sprintf "%s = %s"
                           [fmt.OStr primaryKey; fmt.OStr placeholder] in
         QB.WriteWhere condition []) w
  = Ret (update_text table (map fst entries) +:+ " WHERE " +:+ condition,
         map snd entries ++ [value]) w.
Proof.
  intros Hroom Hc. unfold build.
  assert (length (map fst entries) = length (map snd entries)) as Hlen
    by now rewrite !length_map.
  assert (16 * Z.of_nat (length (map snd entries)) <= QB.maxAlloc) as Hr
    by (rewrite length_map; lia).
  rewrite (bind_Ret _ _ _ _ _ (WriteUpdate_new table _ _ Hlen Hr)).
  rewrite (where_key primaryKey condition).
  - reflexivity.
  - unfold QBOps.inv. cbn [QB.args QB.paramIndex]. rewrite length_map. lia.
  - cbn [QB.args]. rewrite length_map. lia.
  - cbn [QB.paramIndex]. rewrite length_map. exact Hc.
Qed.

(** The statement of [Delete] and of [PostgresTransaction.Delete]. *)
Lemma delete_statement (table primaryKey condition : string) (value : iface)
    (w : World) :
  key_condition primaryKey 1 = Some condition ->
  build (run QB.WriteDelete table in
         do placeholder <- QB.AddParam value in
         do condition <- QB.sprintf "%s = %s"
                           [fmt.OStr primaryKey; fmt.OStr placeholder] in
         QB.WriteWhere condition []) w
  = Ret (delete_text table +:+ " WHERE " +:+ condition, [value]) w.
Proof.
  intros Hc. unfold build.
  rewrite (bind_Ret _ _ _ _ _ (WriteDelete_new table)).
  rewrite (where_key primaryKey condition).
  - reflexivity.
  - unfold QBOps.inv, QB.maxAlloc. cbn [QB.args QB.paramIndex length]. lia.
  - unfold QB.maxAlloc. cbn [QB.args length]. lia.
  - exact Hc.
Qed.

(** C8: whenever the backend executes without error the statement that
    an [Update] or a [Delete] sends, on the connection or within a
    transaction, and reports that zero rows were affected, the operation
    returns the error "no records were updated" / "no records were
    deleted".  The statement sent is the UPDATE of every column of the
    mapping but the key (respectively the DELETE) on the table of the
    record, with the condition [key = $n] on the primary key as
    [fmt.Sprintf] renders it ([key_condition]), bound to the column
    values followed by the key value; it is the one call made to the
    backend, whatever calls were made before, and the record is left as
    it was. *)
Theorem zero_rows_affected_is_reported :
  forall (range : gmap string iface -> list (string * iface)) (d : DB)
         (model : ModelWithPrimaryKey) (obj : GoObj) (before : list Event)
         (r : Result),
    RowsAffected r = Ok 0 ->
    let table := TableName (asModel model) obj in
    let primaryKey := PrimaryKey model obj in
    let value := PrimaryKeyValue model obj in
    let w := {| record := obj; trace := before |} in
    (forall (fields : gmap string iface) (condition : string),
        Reflection.GetStructFields obj = Ok fields ->
        let entries := range (delete primaryKey fields) in
        let query := update_text table (map fst entries)
                     +:+ " WHERE " +:+ condition in
        let a := map snd entries ++ [value] in
        16 * (Z.of_nat (length entries) + 1) <= QB.maxAlloc ->
        key_condition primaryKey (1 + Z.of_nat (length entries)) = Some condition ->
        ExecContext d query a = Ok r ->
        Update range {| db := Some d |} model w
        = Ret (Some (New "no records were updated"))
              {| record := obj; trace := before ++ [EvExec query a (Ok r)] |}
        /\ Transaction_Update range {| tx := d |} model w
           = Ret (Some (New "no records were updated"))
                 {| record := obj; trace := before ++ [EvExec query a (Ok r)] |})
    /\ (forall condition : string,
          let query := delete_text table +:+ " WHERE " +:+ condition in
          key_condition primaryKey 1 = Some condition ->
          ExecContext d query [value] = Ok r ->
          Delete {| db := Some d |} model w
          = Ret (Some (New "no records were deleted"))
                {| record := obj; trace := before ++ [EvExec query [value] (Ok r)] |}
          /\ Transaction_Delete {| tx := d |} model w
             = Ret (Some (New "no records were deleted"))
                   {| record := obj;
                      trace := before ++ [EvExec query [value] (Ok r)] |}).
Proof.
  intros range d model obj before r Hr table primaryKey value w. subst w. split.
  - intros fields condition Hfields entries query a Hroom Hc Hexec.
    pose proof (update_statement table primaryKey condition entries value
                  {| record := obj; trace := before |} Hroom Hc) as Hb.
    split.
    + unfold Update. cbn [db]. rewrite bind_get. cbn [record]. rewrite Hfields.
      rewrite (bind_Ret _ _ _ _ _ Hb).
      unfold bind, exec, ret. fold query a. rewrite Hexec, Hr. reflexivity.
    + unfold Transaction_Update. rewrite bind_get. cbn [record]. rewrite Hfields.
      rewrite (bind_Ret _ _ _ _ _ Hb).
      unfold bind, exec, ret. cbn [tx]. fold query a. rewrite Hexec, Hr. reflexivity.
  - intros condition query Hc Hexec.
    pose proof (delete_statement table primaryKey condition value
                  {| record := obj; trace := before |} Hc) as Hb.
    split.
    + unfold Delete. cbn [db]. rewrite bind_get. cbn [record].
      rewrite (bind_Ret _ _ _ _ _ Hb).
      unfold bind, exec, ret. fold query. rewrite Hexec, Hr. reflexivity.
    + unfold Transaction_Delete. rewrite bind_get. cbn [record].
      rewrite (bind_Ret _ _ _ _ _ Hb).
      unfold bind, exec, ret. cbn [tx]. fold query. rewrite Hexec, Hr. reflexivity.
Qed.

End PostgresTheory.

(** ** The theorems at work on the examples *)

Section Witnesses.
Import QB QBOps Reflection Expected Postgres.

Lemma builder_args_follow_counter_witness :
  reachable Examples.after_where
  /\ Z.of_nat (length (args Examples.after_where))
     = paramIndex Examples.after_where - 1
  /\ run_ops Examples.calls NewQueryBuilder = Ret tt Examples.after_calls
  /\ Build Examples.after_calls
     = (query Examples.after_calls, added_since_reset Examples.calls).
Proof.
  assert (reachable Examples.after_where) as Hr.
  { apply (reachable_step NewQueryBuilder Examples.where_clause);
      [apply reachable_new | vm_compute; reflexivity]. }
  assert (run_ops Examples.calls NewQueryBuilder = Ret tt Examples.after_calls)
    as Hrun by (vm_compute; reflexivity).
  split; [exact Hr|].
  split; [exact (proj1 (proj1 builder_args_follow_counter _ Hr))|].
  split; [exact Hrun|].
  exact (proj1 (proj1 (proj2 builder_args_follow_counter) _ _ Hrun)).
Defined.

Lemma update_where_numbering_continues_witness :
  reachable NewQueryBuilder
  /\ is_reset Examples.where_clause = false
  /\ final_state (run_op Examples.where_clause NewQueryBuilder)
     = Some Examples.after_where
  /\ paramIndex NewQueryBuilder <= paramIndex Examples.after_where.
Proof.
  assert (final_state (run_op Examples.where_clause NewQueryBuilder)
          = Some Examples.after_where) as Hf by (vm_compute; reflexivity).
  split; [apply reachable_new|]. split; [reflexivity|]. split; [exact Hf|].
  exact (proj1 (proj2 update_where_numbering_continues
                  NewQueryBuilder Examples.where_clause Examples.after_where
                  reachable_new eq_refl Hf)).
Defined.

Lemma mapping_holds_the_exported_unexcluded_fields_witness :
  record_fields (OVal (TStructOf Examples.TestStruct)) = Some Examples.TestStruct
  /\ exists m : gmap string iface,
       GetStructFields (OVal (TStructOf Examples.TestStruct)) = Ok m
       /\ is_Some (m !! "notag").
Proof.
  split; [reflexivity|].
  destruct (mapping_holds_the_exported_unexcluded_fields
              (OVal (TStructOf Examples.TestStruct)) Examples.TestStruct eq_refl)
    as [m [Hm [_ Hall]]].
  exists m. split; [exact Hm|].
  apply (Hall (Examples.untagged "NoTag" EmptyString (VString "No tag field")));
    [| reflexivity | vm_compute; discriminate].
  do 4 right. left.
Defined.

Lemma error_leaves_the_record_unchanged_witness :
  SetStructField "nonexistent" (Some (VString "value"))
    (OPtr (Some (TStructOf Examples.TestStruct)))
  = Ret (Some (New "campo não encontrado"))
        (OPtr (Some (TStructOf Examples.TestStruct)))
  /\ OPtr (Some (TStructOf Examples.TestStruct))
     = OPtr (Some (TStructOf Examples.TestStruct)).
Proof.
  assert (SetStructField "nonexistent" (Some (VString "value"))
            (OPtr (Some (TStructOf Examples.TestStruct)))
          = Ret (Some (New "campo não encontrado"))
                (OPtr (Some (TStructOf Examples.TestStruct)))) as H
    by (vm_compute; reflexivity).
  split; [exact H|].
  exact (error_leaves_the_record_unchanged _ _ _ _ _ H).
Defined.

Lemma insert_returns_key_whenever_one_is_named_witness :
  GetStructFields (OPtr (Some (TStructOf (Examples.User 0 "Ann"))))
  = Ok Examples.user_fields
  /\ PrimaryKeyValue Examples.UserModel (OPtr (Some (TStructOf (Examples.User 0 "Ann"))))
     = Some (VInt 0)
  /\ Create map_to_list {| db := Some Examples.quiet_backend |}
       (WithPrimaryKey Examples.UserModel)
       {| record := OPtr (Some (TStructOf (Examples.User 0 "Ann"))); trace := [] |}
     = Ret None
         {| record := OPtr (Some (TStructOf (Examples.User 42 "Ann")));
            trace := [EvQueryRow "INSERT INTO users (name) VALUES ($1) RETURNING id"
                        [Some (VString "Ann")] (Ok 42)] |}.
Proof.
  assert (GetStructFields (OPtr (Some (TStructOf (Examples.User 0 "Ann"))))
          = Ok Examples.user_fields) as Hf by (vm_compute; reflexivity).
  split; [exact Hf|]. split; [reflexivity|].
  assert (16 * Z.of_nat (size Examples.user_fields) <= maxAlloc) as Hs
    by (vm_compute; discriminate).
  rewrite (proj2 (proj1 (insert_returns_key_whenever_one_is_named
                           map_to_list Examples.quiet_backend _ _
                           (fun m => Permutation_refl (map_to_list m)) Hf Hs)
                    Examples.UserModel (VInt 0)
                    ltac:(discriminate) eq_refl)).
  vm_compute. reflexivity.
Defined.

Lemma zero_rows_affected_is_reported_witness :
  RowsAffected Examples.answered = Ok 0
  /\ GetStructFields (OPtr (Some (TStructOf (Examples.User 5 "Ann"))))
     = Ok Examples.ann_fields
  /\ key_condition "id" 2 = Some "id = $2"
  /\ key_condition "id" 1 = Some "id = $1"
  /\ ExecContext Examples.quiet_backend "UPDATE users SET name = $1 WHERE id = $2"
       [Some (VString "Ann"); Some (VInt 5)] = Ok Examples.answered
  /\ ExecContext Examples.quiet_backend "DELETE FROM users WHERE id = $1"
       [Some (VInt 5)] = Ok Examples.answered
  /\ Update map_to_list Examples.orm Examples.UserModel
       (Examples.world (Examples.User 5 "Ann"))
     = Ret (Some (New "no records were updated")) Examples.after_update
  /\ Transaction_Update map_to_list {| tx := Examples.quiet_backend |}
       Examples.UserModel (Examples.world (Examples.User 5 "Ann"))
     = Ret (Some (New "no records were updated")) Examples.after_update
  /\ Delete Examples.orm Examples.UserModel (Examples.world (Examples.User 5 "Ann"))
     = Ret (Some (New "no records were deleted")) Examples.after_delete
  /\ Transaction_Delete {| tx := Examples.quiet_backend |}
       Examples.UserModel (Examples.world (Examples.User 5 "Ann"))
     = Ret (Some (New "no records were deleted")) Examples.after_delete.
Proof.
  assert (GetStructFields (OPtr (Some (TStructOf (Examples.User 5 "Ann"))))
          = Ok Examples.ann_fields) as Hf by (vm_compute; reflexivity).
  destruct (zero_rows_affected_is_reported map_to_list Examples.quiet_backend
              Examples.UserModel (OPtr (Some (TStructOf (Examples.User 5 "Ann"))))
              [] Examples.answered eq_refl) as [Hupdate Hdelete].
  destruct (Hupdate Examples.ann_fields "id = $2" Hf
              ltac:(vm_compute; discriminate) ltac:(vm_compute; reflexivity)
              eq_refl) as [HU HTU].
  destruct (Hdelete "id = $1" ltac:(vm_compute; reflexivity) eq_refl)
    as [HD HTD].
  split; [reflexivity|]. split; [exact Hf|].
  split; [vm_compute; reflexivity|]. split; [vm_compute; reflexivity|].
  split; [reflexivity|]. split; [reflexivity|].
  split; [etransitivity; [exact HU | vm_compute; reflexivity]|].
  split; [etransitivity; [exact HTU | vm_compute; reflexivity]|].
  split; [etransitivity; [exact HD | vm_compute; reflexivity]|].
  etransitivity; [exact HTD | vm_compute; reflexivity].
Defined.

End Witnesses.

(** * Further properties of the builder, the helpers and the operations *)

Section BuilderMore.
Import QB QBOps Expected.

Lemma to_int_not_nil (z : Z) : Z.to_int z <> Decimal.Pos Decimal.Nil /\ Z.to_int z <> Decimal.Neg Decimal.Nil.
Proof.
  destruct z as [|p|p]; simpl; split; try discriminate;
    intros [= H]; exact (DecimalPos.Unsigned.to_uint_nonnil p H).
Qed.

Lemma itoa_inj (a b : Z) : fmt.itoa a = fmt.itoa b -> a = b.
Proof.
  unfold fmt.itoa. intros H.
  apply DecimalZ.to_int_inj.
  pose proof (to_int_not_nil a) as [Ha1 Ha2].
  pose proof (to_int_not_nil b) as [Hb1 Hb2].
  pose proof (NilZero.isi _ Ha1 Ha2) as Ea.
  pose proof (NilZero.isi _ Hb1 Hb2) as Eb.
  rewrite H in Ea. rewrite Ea in Eb. now injection Eb.
Qed.

Lemma extends_ret {A} (a : A) : extends (@ret QueryBuilder A a).
Proof. intros qb. simpl. exists EmptyString. now rewrite append_empty_r. Qed.

Lemma extends_panic {A} (msg : string) : extends (@panic QueryBuilder A msg).
Proof. intros qb. simpl. exists EmptyString. now rewrite append_empty_r. Qed.

Lemma extends_bind {A B} (m : M QueryBuilder A) (k : A -> M QueryBuilder B) :
  extends m -> (forall a, extends (k a)) -> extends (bind m k).
Proof.
  intros Hm Hk qb. unfold bind. specialize (Hm qb).
  destruct (m qb) as [a qb1|msg qb1|]; [| exact Hm | exact I].
  destruct Hm as [t1 E1]. specialize (Hk a qb1).
  destruct (k a qb1) as [b qb2|msg qb2|]; [| | exact I];
    destruct Hk as [t2 E2]; exists (t1 +:+ t2);
    now rewrite E2, E1, string_app_assoc.
Qed.

Lemma extends_Write (s : string) : extends (Write s).
Proof. intros qb. simpl. now exists s. Qed.

Lemma extends_sprintf (format : string) (a : list fmt.operand) :
  extends (sprintf format a).
Proof.
  intros qb. unfold sprintf. destruct (fmt.Sprintf format a); simpl; [|exact I].
  exists EmptyString. now rewrite append_empty_r.
Qed.

Lemma extends_AddParam (v : iface) : extends (AddParam v).
Proof.
  intros qb. rewrite AddParam_eq.
  destruct (16 * (Z.of_nat (length (args qb)) + 1) <=? maxAlloc); simpl;
    exists EmptyString; now rewrite append_empty_r.
Qed.

Lemma extends_AddParams (values : list iface) : extends (AddParams values).
Proof.
  induction values as [|v values IH]; simpl; [apply extends_ret|].
  apply extends_bind; [apply extends_AddParam|]. intros p.
  apply extends_bind; [exact IH|]. intros ps. apply extends_ret.
Qed.

Lemma extends_WriteWithParams (format : string) (a : list iface) :
  extends (WriteWithParams format a).
Proof.
  unfold WriteWithParams. apply extends_bind; [apply extends_AddParams|]. intros ps.
  apply extends_bind; [apply extends_sprintf|]. intros s. apply extends_Write.
Qed.

Lemma extends_WriteUpdate_loop (rest : list string) (values : list iface) (i : nat) :
  extends (WriteUpdate_loop i rest values).
Proof.
  revert i. induction rest as [|column rest IH]; intros i; simpl; [apply extends_ret|].
  apply extends_bind.
  { destruct (0 <? i)%nat; [apply extends_Write | apply extends_ret]. }
  intros _. destruct (values !! i) as [v|]; [|apply extends_panic].
  apply extends_bind; [apply extends_AddParam|]. intros p.
  apply extends_bind; [apply extends_sprintf|]. intros s.
  apply extends_bind; [apply extends_Write|]. intros _. apply IH.
Qed.

Lemma run_op_extends (o : op) : is_reset o = false -> extends (run_op o).
Proof.
  destruct o; intros Hr; simpl in *; try discriminate;
    unfold WriteSelect, WriteFrom, WriteWhere, WriteAnd, WriteOr, WriteOrderBy,
      WriteLimit, WriteOffset, WriteInsert, WriteUpdate, WriteDelete, WriteReturning;
    repeat match goal with
           | |- context [match ?c with [] => _ | _ :: _ => _ end] => destruct c
           | |- context [if ?b then _ else _] => destruct b
           end;
    repeat first
      [ apply extends_Write | apply extends_ret | apply extends_sprintf
      | apply extends_AddParams | apply extends_AddParam
      | apply extends_WriteWithParams | apply extends_WriteUpdate_loop
      | apply extends_bind; [|intros ?] ].
Qed.

Lemma run_ops_extends (os : list op) (qb qb' : QueryBuilder) :
  no_reset os = true -> run_ops os qb = Ret tt qb' ->
  exists t, query qb' = query qb +:+ t.
Proof.
  revert qb. induction os as [|o os IH]; intros qb Hn Hrun; simpl in *.
  - injection Hrun as <-. exists EmptyString. now rewrite append_empty_r.
  - apply andb_prop in Hn as [Ho Hos]. apply negb_true_iff in Ho.
    unfold bind in Hrun. pose proof (run_op_extends o Ho qb) as He.
    destruct (run_op o qb) as [a q|msg q|]; try discriminate.
    destruct He as [t1 E1]. destruct (IH q Hos Hrun) as [t2 E2].
    exists (t1 +:+ t2). now rewrite E2, E1, string_app_assoc.
Qed.

(** X1: a call other than [Reset] never rewrites what the builder holds:
    whether it returns or panics, the text it found is still there, with
    what the call wrote behind it; the same for a sequence of calls that
    returned. *)
Theorem text_is_only_appended_to :
  forall (qb qb' : QueryBuilder),
    (forall o, is_reset o = false ->
               final_state (run_op o qb) = Some qb' ->
               exists t, query qb' = query qb +:+ t)
    /\ (forall os, no_reset os = true ->
                   run_ops os qb = Ret tt qb' ->
                   exists t, query qb' = query qb +:+ t).
Proof.
  intros qb qb'. split.
  - intros o Ho Hf. pose proof (run_op_extends o Ho qb) as He.
    destruct (run_op o qb) as [a q|msg q|]; simpl in Hf; try discriminate;
      injection Hf as <-; exact He.
  - intros os Hn Hrun. exact (run_ops_extends os qb qb' Hn Hrun).
Qed.

Lemma Sprintf_limit (n : Z) :
  fmt.Sprintf " LIMIT %d" [fmt.OInt n] = Some (" LIMIT " +:+ fmt.itoa n).
Proof. cbv -[fmt.itoa String.append]. now rewrite append_empty_r. Qed.

Lemma Sprintf_offset (n : Z) :
  fmt.Sprintf " OFFSET %d" [fmt.OInt n] = Some (" OFFSET " +:+ fmt.itoa n).
Proof. cbv -[fmt.itoa String.append]. now rewrite append_empty_r. Qed.

Lemma same_builder (qb : QueryBuilder) :
  {| query := query qb +:+ EmptyString; args := args qb; paramIndex := paramIndex qb |}
  = qb.
Proof. rewrite append_empty_r. now destruct qb. Qed.

(** X2: the calls that bind no value ([Write], [WriteSelect], [WriteFrom],
    [WriteOrderBy], [WriteLimit], [WriteOffset], [WriteDelete],
    [WriteReturning]) always return, on any builder, and leave the
    arguments and the counter as they were: they add text and nothing
    else. *)
Theorem plain_calls_touch_only_the_text :
  forall (o : op) (qb : QueryBuilder),
    is_plain o = true ->
    exists t,
      run_op o qb
      = Ret tt {| query := query qb +:+ t; args := args qb;
                  paramIndex := paramIndex qb |}.
Proof.
  intros o qb Hp. destruct o; simpl in Hp; try discriminate; simpl.
  - exists s. reflexivity.
  - unfold WriteSelect. rewrite bind_Write. destruct columns.
    + exists "SELECT *". unfold Write, modify. simpl. now rewrite string_app_assoc.
    + exists ("SELECT " +:+ strings.Join (s :: columns) ", ").
      unfold Write, modify. simpl. now rewrite string_app_assoc.
  - unfold WriteFrom. rewrite bind_Write. exists (" FROM " +:+ table).
    unfold Write, modify. simpl. now rewrite string_app_assoc.
  - unfold WriteOrderBy. destruct columns.
    + exists EmptyString. unfold ret. now rewrite same_builder.
    + rewrite bind_Write. exists (" ORDER BY " +:+ strings.Join (s :: columns) ", ").
      unfold Write, modify. simpl. now rewrite string_app_assoc.
  - unfold WriteLimit. destruct (0 <? limit).
    + rewrite (bind_Ret _ _ _ _ _ (sprintf_Some _ _ _ _ (Sprintf_limit limit))).
      eexists. reflexivity.
    + exists EmptyString. unfold ret. now rewrite same_builder.
  - unfold WriteOffset. destruct (0 <? offset).
    + rewrite (bind_Ret _ _ _ _ _ (sprintf_Some _ _ _ _ (Sprintf_offset offset))).
      eexists. reflexivity.
    + exists EmptyString. unfold ret. now rewrite same_builder.
  - unfold WriteDelete.
    rewrite (bind_Ret _ _ _ _ _ (sprintf_Some _ _ _ _ (Sprintf_delete table))).
    eexists. reflexivity.
  - unfold WriteReturning. destruct columns.
    + exists EmptyString. unfold ret. now rewrite same_builder.
    + rewrite bind_Write. exists (" RETURNING " +:+ strings.Join (s :: columns) ", ").
      unfold Write, modify. simpl. now rewrite string_app_assoc.
Qed.

(** X3: [WriteLimit] and [WriteOffset] write their clause, with the
    number in decimal, only for a number above zero; for zero or a
    negative number, as [WriteOrderBy] and [WriteReturning] for no column,
    they leave the builder exactly as it was. *)
Theorem clauses_without_content_are_omitted :
  forall (qb : QueryBuilder) (n : Z),
    (n <= 0 -> WriteLimit n qb = Ret tt qb /\ WriteOffset n qb = Ret tt qb)
    /\ (0 < n ->
        WriteLimit n qb
        = Ret tt {| query := query qb +:+ " LIMIT " +:+ fmt.itoa n;
                    args := args qb; paramIndex := paramIndex qb |}
        /\ WriteOffset n qb
           = Ret tt {| query := query qb +:+ " OFFSET " +:+ fmt.itoa n;
                       args := args qb; paramIndex := paramIndex qb |})
    /\ WriteOrderBy [] qb = Ret tt qb
    /\ WriteReturning [] qb = Ret tt qb.
Proof.
  intros qb n. split; [|split; [|split; reflexivity]].
  - intros Hn. unfold WriteLimit, WriteOffset.
    destruct (Z.ltb_spec 0 n); [lia|]. split; reflexivity.
  - intros Hn. unfold WriteLimit, WriteOffset.
    destruct (Z.ltb_spec 0 n); [|lia].
    rewrite (bind_Ret _ _ _ _ _ (sprintf_Some _ _ _ _ (Sprintf_limit n))).
    rewrite (bind_Ret _ _ _ _ _ (sprintf_Some _ _ _ _ (Sprintf_offset n))).
    split; reflexivity.
Qed.

(** X4: on a builder in use, with room for the values, [WriteInsert]
    writes [INSERT INTO table (columns) VALUES (...)] with one placeholder
    per value, numbered from the counter of the builder on, binds the
    values in their order and moves the counter past them; the columns
    are written as given, however many there are. *)
Theorem insert_numbers_from_the_counter :
  forall (table : string) (columns : list string) (values : list iface)
         (qb : QueryBuilder),
    reachable qb ->
    16 * (Z.of_nat (length (args qb)) + Z.of_nat (length values)) <= maxAlloc ->
    WriteInsert table columns values qb
    = Ret tt {| query := query qb
                         +:+ insert_from table columns (paramIndex qb) (length values);
                args := args qb ++ values;
                paramIndex := paramIndex qb + Z.of_nat (length values) |}.
Proof.
  intros table columns values qb Hr Hroom. pose proof (reachable_inv qb Hr) as Hi.
  unfold WriteInsert.
  rewrite (bind_Ret _ _ _ _ _ (sprintf_Some _ _ _ _ (Sprintf_insert table))).
  rewrite !bind_Write.
  erewrite (bind_Ret (AddParams values));
    [|apply AddParams_room; [exact Hi | exact Hroom]].
  rewrite bind_Write. unfold Write, modify, insert_from. simpl.
  rewrite !string_app_assoc. reflexivity.
Qed.

Lemma WriteUpdate_loop_short (rest : list string) (i : nat) (values : list iface)
    (qb : QueryBuilder) :
  inv qb ->
  16 * (Z.of_nat (length (args qb)) + Z.of_nat (length values - i)) <= maxAlloc ->
  (i <= length values < i + length rest)%nat ->
  exists qb',
    WriteUpdate_loop i rest values qb
    = Panic (index_out_of_range (length values) (length values)) qb'
    /\ args qb' = args qb ++ drop i values
    /\ paramIndex qb' = paramIndex qb + Z.of_nat (length values - i).
Proof.
  revert i qb. induction rest as [|column rest IH]; intros i qb [H1 H2] Hroom Hlen;
    cbn [WriteUpdate_loop].
  - simpl in Hlen. lia.
  - change (length (column :: rest)) with (S (length rest)) in *.
    destruct (values !! i) as [v|] eqn:Hv.
    + pose proof (lookup_lt_Some _ _ _ Hv) as Hlt.
      rewrite (drop_S _ _ _ Hv).
      assert (forall q : QueryBuilder,
                args q = args qb -> paramIndex q = paramIndex qb ->
                exists qb',
                  (do p <- AddParam v in
                   do s <- sprintf "%s = %s" [fmt.OStr column; fmt.OStr p] in
                   run Write s in WriteUpdate_loop (S i) rest values) q
                  = Panic (index_out_of_range (length values) (length values)) qb'
                  /\ args qb' = args qb ++ v :: drop (S i) values
                  /\ paramIndex qb' = paramIndex qb + Z.of_nat (length values - i))
        as Hstep.
      { intros q Ea Ep. unfold bind at 1. rewrite AddParam_eq, Ea, Ep.
        destruct (Z.leb_spec (16 * (Z.of_nat (length (args qb)) + 1)) maxAlloc)
          as [Hle|Hgt]; [|exfalso; lia].
        rewrite wrap_int_small by (unfold MinInt, MaxInt, maxAlloc in *; lia).
        rewrite (bind_Ret _ _ _ _ _ (sprintf_Some _ _ _ _ (Sprintf_assignment _ _))).
        rewrite bind_Write.
        edestruct (IH (S i)) as [qb' [E [Ea' Ep']]]; [| | | rewrite E].
        - unfold inv; cbn [args paramIndex]. rewrite length_app; simpl. lia.
        - cbn [args]. rewrite length_app; simpl. lia.
        - lia.
        - exists qb'. split; [reflexivity|]. cbn [args paramIndex] in *.
          rewrite Ea', Ep', <- app_assoc. split; [reflexivity|]. lia. }
      destruct (0 <? i)%nat.
      * rewrite bind_Write. destruct (Hstep {| query := query qb +:+ ", ";
                                               args := args qb;
                                               paramIndex := paramIndex qb |}
                                        eq_refl eq_refl) as [qb' Hq].
        exists qb'. exact Hq.
      * unfold bind at 1, ret. exact (Hstep qb eq_refl eq_refl).
    + pose proof (lookup_ge_None_1 _ _ Hv) as Hge.
      assert (i = length values) as -> by lia.
      rewrite drop_all, app_nil_r, Nat.sub_diag, Z.add_0_r.
      destruct (0 <? length values)%nat.
      * rewrite bind_Write. eexists. split; [reflexivity|]. split; reflexivity.
      * unfold bind at 1, ret. eexists. split; [reflexivity|]. split; reflexivity.
Qed.

(** X5: on a builder in use, [WriteUpdate] with at least as many values
    as columns writes [UPDATE table SET c1 = $k, c2 = $k+1, ...] numbered
    from the counter of the builder on and binds the first value of each
    column, ignoring the values beyond; with fewer values than columns it
    panics at the index of the first value that is missing, after it
    has bound every value there is. *)
Theorem update_needs_a_value_per_column :
  forall (table : string) (columns : list string) (values : list iface)
         (qb : QueryBuilder),
    reachable qb ->
    16 * (Z.of_nat (length (args qb)) + Z.of_nat (length values)) <= maxAlloc ->
    ((length columns <= length values)%nat ->
     WriteUpdate table columns values qb
     = Ret tt {| query := query qb +:+ "UPDATE " +:+ table +:+ " SET "
                          +:+ strings.Join (assignments (paramIndex qb) columns) ", ";
                 args := args qb ++ take (length columns) values;
                 paramIndex := paramIndex qb + Z.of_nat (length columns) |})
    /\ ((length values < length columns)%nat ->
        exists qb',
          WriteUpdate table columns values qb
          = Panic (index_out_of_range (length values) (length values)) qb'
          /\ args qb' = args qb ++ values
          /\ paramIndex qb' = paramIndex qb + Z.of_nat (length values)).
Proof.
  intros table columns values qb Hr Hroom. pose proof (reachable_inv qb Hr) as Hi.
  unfold WriteUpdate.
  rewrite (bind_Ret _ _ _ _ _ (sprintf_Some _ _ _ _ (Sprintf_update table))).
  rewrite bind_Write. split; intros Hlen.
  - rewrite WriteUpdate_loop_ok.
    + cbn [query args paramIndex]. rewrite drop_0, loop_text_join.
      rewrite !string_app_assoc. reflexivity.
    + exact Hi.
    + cbn [args]. lia.
    + lia.
  - edestruct (WriteUpdate_loop_short columns 0 values) as [qb' [E [Ea Ep]]];
      [| | | exists qb'; split; [exact E|]].
    + exact Hi.
    + cbn [args]. rewrite Nat.sub_0_r. exact Hroom.
    + lia.
    + cbn [args paramIndex] in *. rewrite drop_0 in Ea. rewrite Nat.sub_0_r in Ep.
      split; assumption.
Qed.

Lemma Sprintf_plain (format : string) (a : list fmt.operand) :
  no_percent format = true ->
  fmt.Sprintf format a = Some (format +:+ fmt.extra a).
Proof.
  induction format as [|c format IH]; intros Hn; [reflexivity|].
  cbn [no_percent] in Hn. apply andb_prop in Hn as [Hc Hn].
  apply negb_true_iff in Hc. cbn [fmt.Sprintf]. rewrite Hc, (IH Hn). reflexivity.
Qed.

Lemma WriteWithParams_plain (keyword condition : string) (a : list iface)
    (qb : QueryBuilder) :
  no_percent condition = true ->
  inv qb ->
  16 * (Z.of_nat (length (args qb)) + Z.of_nat (length a)) <= maxAlloc ->
  (run Write keyword in WriteWithParams condition a) qb
  = Ret tt {| query := query qb +:+ keyword +:+ condition
                       +:+ fmt.extra (map fmt.OStr
                                        (Expected.placeholders (paramIndex qb)
                                           (length a)));
              args := args qb ++ a;
              paramIndex := paramIndex qb + Z.of_nat (length a) |}.
Proof.
  intros Hn Hi Hroom. rewrite bind_Write. unfold WriteWithParams.
  erewrite (bind_Ret (AddParams a)); [|apply AddParams_room; [exact Hi | exact Hroom]].
  rewrite (bind_Ret _ _ _ _ _ (sprintf_Some _ _ _ _ (Sprintf_plain _ _ Hn))).
  unfold Write, modify. cbn [query args paramIndex].
  rewrite !string_app_assoc. reflexivity.
Qed.

(** X6: a condition with no [%] in it is written as it is: behind
    [ WHERE ], [ AND ] or [ OR ] when no value comes with it (the way
    [Update], [Delete] and [FindByID] hand over a condition they have
    formatted themselves); the values that come with it are bound all the
    same, and, there being no verb for them, the text gets fmt's
    [%!(EXTRA string=$k, ...)] note naming their placeholders. *)
Theorem condition_without_verbs_is_kept_verbatim :
  forall (condition : string) (a : list iface) (qb : QueryBuilder),
    no_percent condition = true ->
    reachable qb ->
    16 * (Z.of_nat (length (args qb)) + Z.of_nat (length a)) <= maxAlloc ->
    let note := fmt.extra (map fmt.OStr
                             (Expected.placeholders (paramIndex qb) (length a))) in
    let after keyword :=
      Ret tt {| query := query qb +:+ keyword +:+ condition +:+ note;
                args := args qb ++ a;
                paramIndex := paramIndex qb + Z.of_nat (length a) |} in
    WriteWhere condition a qb = after " WHERE "
    /\ WriteAnd condition a qb = after " AND "
    /\ WriteOr condition a qb = after " OR "
    /\ (a = [] -> note = EmptyString)
    /\ (a <> [] -> exists t, note = "%!(EXTRA string=$" +:+ t).
Proof.
  intros condition a qb Hn Hr Hroom note after.
  pose proof (reachable_inv qb Hr) as Hi.
  split; [exact (WriteWithParams_plain _ _ _ _ Hn Hi Hroom)|].
  split; [exact (WriteWithParams_plain _ _ _ _ Hn Hi Hroom)|].
  split; [exact (WriteWithParams_plain _ _ _ _ Hn Hi Hroom)|].
  split.
  - intros ->. reflexivity.
  - intros Ha. destruct a as [|v a]; [contradiction|]. unfold note.
    cbn [length Expected.placeholders map fmt.extra].
    rewrite join_cons. eexists.
    cbn [fmt.type_name fmt.print_v]. rewrite !string_app_assoc. reflexivity.
Qed.

Lemma run_ops_no_reset_inv (os : list op) (qb qb' : QueryBuilder) :
  inv qb -> no_reset os = true -> run_ops os qb = Ret tt qb' ->
  inv qb' /\ exists l, args qb' = args qb ++ l.
Proof.
  revert qb. induction os as [|o os IH]; intros qb Hi Hn Hrun; simpl in *.
  - injection Hrun as <-. split; [exact Hi|]. exists []. now rewrite app_nil_r.
  - apply andb_prop in Hn as [Ho Hos]. apply negb_true_iff in Ho.
    unfold bind in Hrun. pose proof (run_op_adds o Ho qb Hi) as Ha.
    destruct (run_op o qb) as [a q|msg q|]; try discriminate.
    destruct Ha as [Hq Eq]. destruct (IH q Hq Hos Hrun) as [Hq' [l El]].
    split; [exact Hq'|]. exists (op_params o ++ l). now rewrite El, Eq, app_assoc.
Qed.

(** X7: until [Reset], a builder hands out no placeholder twice: the
    placeholder of an [AddParam] differs from the placeholder of any later
    [AddParam], whatever calls other than [Reset] returned in between. *)
Theorem no_placeholder_is_handed_out_twice :
  forall (qb qb1 qb2 qb3 : QueryBuilder) (v v' : iface) (p p' : string)
         (os : list op),
    reachable qb ->
    AddParam v qb = Ret p qb1 ->
    no_reset os = true ->
    run_ops os qb1 = Ret tt qb2 ->
    AddParam v' qb2 = Ret p' qb3 ->
    p <> p'.
Proof.
  intros qb qb1 qb2 qb3 v v' p p' os Hr H1 Hn Hrun H2.
  pose proof (reachable_inv qb Hr) as Hi.
  pose proof (adds_AddParam v qb Hi) as Ha. rewrite H1 in Ha. destruct Ha as [Hi1 E1].
  destruct (run_ops_no_reset_inv os qb1 qb2 Hi1 Hn Hrun) as [Hi2 [l El]].
  rewrite AddParam_eq in H1, H2.
  destruct (16 * (Z.of_nat (length (args qb)) + 1) <=? maxAlloc); [|discriminate].
  destruct (16 * (Z.of_nat (length (args qb2)) + 1) <=? maxAlloc); [|discriminate].
  injection H1 as <- _. injection H2 as <- _.
  intros [= E]. apply itoa_inj in E.
  destruct Hi as [Hq _], Hi2 as [Hq2 _].
  rewrite El, E1, !length_app in Hq2. simpl in Hq2. lia.
Qed.

End BuilderMore.

Section ReflectionMore.
Import Reflection Expected Fields.

(** X8: what is not a struct is refused by the three helpers: nil with
    "objeto não pode ser nil", anything else that is neither a struct nor
    a pointer to one (the nil pointer too) with the error of its kind.
    [GetStructFields] and [GetPrimaryKeyField] take a struct by value or
    by pointer; [SetStructField] takes it by pointer only and returns an
    error, the object untouched, for a struct handed over by value. *)
Theorem helpers_refuse_what_is_not_a_struct :
  forall (obj : GoObj) (fieldName : string) (value : iface),
    (record_fields obj = None ->
     let err := match obj with
                | ONil => New "objeto não pode ser nil"
                | _ => New "objeto deve ser uma estrutura ou um ponteiro para uma estrutura"
                end in
     GetStructFields obj = Err err /\ GetPrimaryKeyField obj = Err err)
    /\ ((forall s, obj <> OPtr (Some (TStructOf s))) ->
        SetStructField fieldName value obj
        = Ret (Some (match obj with
                     | ONil => New "objeto não pode ser nil"
                     | OPtr (Some _) => New "objeto deve ser um ponteiro para uma estrutura"
                     | _ => New "objeto deve ser um ponteiro não-nil"
                     end)) obj).
Proof.
  intros obj fieldName value. split.
  - intros H. destruct obj as [|[s|[]]|[[s|[]]|]]; simpl in H; try discriminate;
      split; reflexivity.
  - intros H. destruct obj as [|[s|[]]|[[s|[]]|]]; try reflexivity.
    exfalso. exact (H s eq_refl).
Qed.

Lemma loop_untouched addr rest (fields : gmap string iface) k :
  (forall g, g ∈ rest -> included g -> column g <> k) ->
  GetStructFields_loop addr rest fields !! k = fields !! k.
Proof.
  revert fields. induction rest as [|g rest IH]; intros fields H; [reflexivity|].
  destruct (included_dec g) as [Hg|Hg].
  - rewrite (loop_take _ _ _ _ Hg). rewrite IH.
    + apply lookup_insert_ne. apply (H g); [left | exact Hg].
    + intros g' Hin. apply H. now right.
  - rewrite (loop_skip _ _ _ _ Hg). apply IH. intros g' Hin. apply H. now right.
Qed.

Lemma loop_app addr pre rest (fields : gmap string iface) :
  GetStructFields_loop addr (pre ++ rest) fields
  = GetStructFields_loop addr rest (GetStructFields_loop addr pre fields).
Proof.
  revert fields. induction pre as [|g pre IH]; intros fields; [reflexivity|].
  destruct (included_dec g) as [Hg|Hg].
  - rewrite <- app_comm_cons, !(loop_take _ _ _ _ Hg). apply IH.
  - rewrite <- app_comm_cons, !(loop_skip _ _ _ _ Hg). apply IH.
Qed.

(** X9: where several fields of a record come under the same column, the
    mapping has the value of the last of them: an exported field whose db
    tag is not "-" has its column bound to its own current value as soon
    as no such field after it comes under the same column, whatever the
    fields before it. *)
Theorem last_field_of_a_column_is_the_one_bound :
  forall (obj : GoObj) (pre post : StructValue) (f : Field),
    record_fields obj = Some (pre ++ f :: post) ->
    included f ->
    (forall g, g ∈ post -> included g -> column g <> column f) ->
    exists m : gmap string iface,
      GetStructFields obj = Ok m
      /\ m !! column f = Some (Some (field f)).
Proof.
  intros obj pre post f Hrec Hf Hpost.
  destruct (GetStructFields_record obj _ Hrec) as [addr E].
  eexists. split; [exact E|].
  rewrite loop_app, (loop_take _ _ _ _ Hf), (loop_untouched _ _ _ _ Hpost).
  apply lookup_insert_eq.
Qed.

Lemma SetStructField_loop_skip addr fieldName value pre rest i obj :
  Forall (fun g => matches fieldName g = false) pre ->
  SetStructField_loop addr fieldName value i (pre ++ rest) obj
  = SetStructField_loop addr fieldName value (i + length pre) rest obj.
Proof.
  revert i. induction pre as [|g pre IH]; intros i Hpre.
  - simpl. now rewrite Nat.add_0_r.
  - apply Forall_cons in Hpre as [Hg Hpre]. cbn [app SetStructField_loop].
    unfold matches, db_tag in Hg. rewrite Hg. rewrite (IH (S i) Hpre).
    f_equal. simpl. lia.
Qed.

Lemma set_field_middle (pre post : StructValue) (f : Field) (v : GoValue) :
  set_field (length pre) v (OPtr (Some (TStructOf (pre ++ f :: post))))
  = OPtr (Some (TStructOf (pre ++ with_value f v :: post))).
Proof.
  unfold set_field. do 3 f_equal.
  induction pre as [|g pre IH]; [reflexivity|]. simpl. f_equal. exact IH.
Qed.

(** X10: on a pointer to a struct, the first field that answers to the
    name decides alone: not exported, the call fails with "campo não pode
    ser definido" even when an exported field further on answers too;
    exported, it receives the value, converted to its type when the types
    differ and the conversion exists, every other field staying as it is,
    or the call fails with "tipo de valor incompatível com o tipo do
    campo"; and a nil value makes the call panic. *)
Theorem first_matching_field_decides :
  forall (pre post : StructValue) (f : Field) (fieldName : string) (v : GoValue),
    Forall (fun g => matches fieldName g = false) pre ->
    matches fieldName f = true ->
    let obj := OPtr (Some (TStructOf (pre ++ f :: post))) in
    SetStructField fieldName (Some v) obj
    = (if negb (IsExported (fieldType f)) then
         Ret (Some (New "campo não pode ser definido")) obj
       else if storable v f then
         Ret None (OPtr (Some (TStructOf (pre ++ with_value f (stored v f) :: post))))
       else
         Ret (Some (New "tipo de valor incompatível com o tipo do campo")) obj)
    /\ (IsExported (fieldType f) = true ->
        SetStructField fieldName None obj
        = Panic "reflect: call of reflect.Value.Type on zero Value" obj).
Proof.
  intros pre post f fieldName v Hpre Hf obj.
  assert (forall value,
            SetStructField fieldName value obj
            = SetStructField_loop true fieldName value (length pre) (f :: post) obj)
    as Hskip.
  { intros value. unfold SetStructField, obj. rewrite bind_get. simpl.
    exact (SetStructField_loop_skip true fieldName value pre (f :: post) 0 obj Hpre). }
  unfold matches, db_tag in Hf. split.
  - rewrite Hskip. cbn [SetStructField_loop]. rewrite Hf.
    unfold reflect.CanSet, reflect.FieldOf, storable, stored. simpl.
    destruct (IsExported (fieldType f)); simpl; [|reflexivity].
    destruct (decide (TypeOf (field f) = TypeOf v)) as [E|E].
    + rewrite (bool_decide_eq_false_2 _ (fun H => H E)).
      rewrite (bool_decide_eq_true_2 _ E). simpl.
      unfold bind, modify, ret. unfold obj. now rewrite set_field_middle.
    + rewrite (bool_decide_eq_true_2 _ E).
      rewrite (bool_decide_eq_false_2 _ E). simpl.
      destruct (reflect.ConvertibleTo (TypeOf v) (TypeOf (field f))); [|reflexivity].
      unfold bind, modify, ret. unfold obj. now rewrite set_field_middle.
  - intros He. rewrite Hskip. cbn [SetStructField_loop]. rewrite Hf.
    unfold reflect.CanSet, reflect.FieldOf. simpl. rewrite He. reflexivity.
Qed.

Lemma Convert_type (v : GoValue) (t : GoType) :
  reflect.ConvertibleTo (TypeOf v) t = true -> TypeOf (reflect.Convert v t) = t.
Proof. destruct t, v; simpl; intros H; try reflexivity; discriminate. Qed.

Lemma shape_alter (s : StructValue) (i : nat) (f : Field) (v : GoValue) :
  s !! i = Some f -> TypeOf v = TypeOf (field f) ->
  shape (alter (fun g => {| fieldType := fieldType g; field := v |}) i s) = shape s.
Proof.
  revert i. induction s as [|g s IH]; intros i Hi Ht; [reflexivity|].
  destruct i as [|i]; simpl in *.
  - injection Hi as ->. unfold shape. simpl. now rewrite Ht.
  - unfold shape in *. simpl. f_equal. exact (IH i Hi Ht).
Qed.

Lemma SetStructField_loop_shape addr fieldName value (s rest : StructValue)
    (i : nat) (obj' : GoObj) :
  drop i s = rest ->
  final_state (SetStructField_loop addr fieldName value i rest
                 (OPtr (Some (TStructOf s)))) = Some obj' ->
  exists s', obj' = OPtr (Some (TStructOf s')) /\ shape s' = shape s.
Proof.
  revert i. induction rest as [|f rest IH]; intros i Hd Hf; simpl in Hf.
  - injection Hf as <-. now exists s.
  - assert (s !! i = Some f) as Hi.
    { assert (drop i s !! 0%nat = Some f) as H0 by now rewrite Hd.
      now rewrite lookup_drop, Nat.add_0_r in H0. }
    assert (drop (S i) s = rest) as Hd'.
    { rewrite (drop_S _ _ _ Hi) in Hd. now injection Hd. }
    destruct (String.eqb (Get (Tag (fieldType f)) "db") fieldName
              || String.eqb (Get (Tag (fieldType f)) "db") EmptyString
                 && String.eqb (strings.ToLower (Name (fieldType f))) fieldName);
      [|exact (IH (S i) Hd' Hf)].
    destruct (negb (reflect.CanSet (reflect.FieldOf addr f)));
      [injection Hf as <-; now exists s|].
    destruct value as [v|]; [|injection Hf as <-; now exists s].
    unfold bind, modify, ret in Hf. simpl in Hf.
    destruct (decide (TypeOf (field f) = TypeOf v)) as [E|E].
    + rewrite (bool_decide_eq_false_2 _ (fun H => H E)) in Hf.
      injection Hf as <-. eexists. split; [reflexivity|].
      apply (shape_alter s i f v Hi). now symmetry.
    + rewrite (bool_decide_eq_true_2 _ E) in Hf.
      destruct (reflect.ConvertibleTo (TypeOf v) (TypeOf (field f))) eqn:Hc;
        simpl in Hf; injection Hf as <-; [|now exists s].
      eexists. split; [reflexivity|].
      apply (shape_alter s i f _ Hi). now apply Convert_type.
Qed.

(** X11: [SetStructField] keeps the shape of the record: however the
    call ends, the struct behind the pointer has the same fields, with
    the same names, tags and types, as before; a value of another type is
    never stored unconverted. *)
Theorem set_keeps_the_shape_of_the_record :
  forall (s : StructValue) (fieldName : string) (value : iface) (obj' : GoObj),
    final_state (SetStructField fieldName value (OPtr (Some (TStructOf s))))
    = Some obj' ->
    exists s', obj' = OPtr (Some (TStructOf s')) /\ shape s' = shape s.
Proof.
  intros s fieldName value obj' Hf.
  unfold SetStructField in Hf. rewrite bind_get in Hf. simpl in Hf.
  exact (SetStructField_loop_shape true fieldName value s s 0 obj' eq_refl Hf).
Qed.

Lemma loop_agree addr rest (m1 m2 : gmap string iface) (name : string) :
  (forall k, k <> name -> m1 !! k = m2 !! k) ->
  forall k, k <> name ->
    GetStructFields_loop addr rest m1 !! k = GetStructFields_loop addr rest m2 !! k.
Proof.
  revert m1 m2. induction rest as [|g rest IH]; intros m1 m2 H k Hk; [now apply H|].
  destruct (included_dec g) as [Hg|Hg].
  - rewrite !(loop_take _ _ _ _ Hg). apply IH; [|exact Hk].
    intros k' Hk'. destruct (decide (column_of (db_tag g) (Name (fieldType g)) = k'))
      as [<-|Hne].
    + now rewrite !lookup_insert_eq.
    + rewrite !lookup_insert_ne by exact Hne. now apply H.
  - rewrite !(loop_skip _ _ _ _ Hg). now apply IH.
Qed.

Lemma matches_column (fieldName : string) (f : Field) :
  fieldName <> EmptyString -> matches fieldName f = true -> column f = fieldName.
Proof.
  unfold matches, column, column_of. intros Hn H.
  apply orb_prop in H as [H|H].
  - apply String.eqb_eq in H. rewrite H.
    destruct (String.eqb_spec fieldName EmptyString); [contradiction | reflexivity].
  - apply andb_prop in H as [H1 H2]. rewrite H1. now apply String.eqb_eq in H2.
Qed.

Lemma column_matches (f : Field) : matches (column f) f = true.
Proof.
  unfold matches, column, column_of.
  destruct (String.eqb_spec (db_tag f) EmptyString) as [E|E].
  - rewrite String.eqb_refl. simpl. apply orb_true_r.
  - now rewrite String.eqb_refl.
Qed.

(** X12: what [SetStructField] has stored, [GetStructFields] reads back:
    after a call that succeeded for a name other than the empty one and
    "-", no later exported field coming under that name, the mapping of
    the record has the name bound to the value stored (the value given,
    converted to the type of the field when the types differ), and every
    other column bound as before the call. *)
Theorem stored_value_is_read_back :
  forall (pre post : StructValue) (f : Field) (fieldName : string) (v : GoValue)
         (obj' : GoObj) (m : gmap string iface),
    fieldName <> EmptyString -> fieldName <> "-" ->
    Forall (fun g => matches fieldName g = false) pre ->
    matches fieldName f = true ->
    (forall g, g ∈ post -> included g -> column g <> fieldName) ->
    GetStructFields (OPtr (Some (TStructOf (pre ++ f :: post)))) = Ok m ->
    SetStructField fieldName (Some v) (OPtr (Some (TStructOf (pre ++ f :: post))))
    = Ret None obj' ->
    exists m' : gmap string iface,
      GetStructFields obj' = Ok m'
      /\ m' !! fieldName = Some (Some (stored v f))
      /\ (forall k, k <> fieldName -> m' !! k = m !! k).
Proof.
  intros pre post f fieldName v obj' m Hn1 Hn2 Hpre Hf Hpost Hm Hset.
  pose proof (matches_column fieldName f Hn1 Hf) as Hcol.
  assert (IsExported (fieldType f) = true /\
          obj' = OPtr (Some (TStructOf (pre ++ with_value f (stored v f) :: post))))
    as [He ->].
  { revert Hset. unfold SetStructField. rewrite bind_get. simpl.
    rewrite (SetStructField_loop_skip true fieldName (Some v) pre (f :: post) 0 _ Hpre).
    cbn [SetStructField_loop]. unfold matches, db_tag in Hf. rewrite Hf.
    unfold reflect.CanSet, reflect.FieldOf, stored. simpl.
    destruct (IsExported (fieldType f)); simpl; [|discriminate].
    destruct (decide (TypeOf (field f) = TypeOf v)) as [E|E].
    - rewrite (bool_decide_eq_false_2 _ (fun H => H E)).
      rewrite (bool_decide_eq_true_2 _ E).
      unfold bind, modify, ret. rewrite set_field_middle.
      intros [= <-]. now split.
    - rewrite (bool_decide_eq_true_2 _ E), (bool_decide_eq_false_2 _ E).
      destruct (reflect.ConvertibleTo (TypeOf v) (TypeOf (field f))); [|discriminate].
      unfold bind, modify, ret. rewrite set_field_middle.
      intros [= <-]. now split. }
  assert (included f) as Hif.
  { split; [exact He|]. intros Ht. unfold matches in Hf. rewrite Ht in Hf.
    apply orb_prop in Hf as [H|H].
    - apply String.eqb_eq in H. now apply Hn2.
    - apply andb_prop in H as [H _]. vm_compute in H. discriminate. }
  assert (included (with_value f (stored v f))) as Hif' by exact Hif.
  cbn [GetStructFields reflect.ValueOf reflect.kind reflect.Elem reflect.CanAddr
       reflect.Fields] in Hm |- *.
  simpl in Hm |- *. injection Hm as <-.
  eexists. split; [reflexivity|]. split.
  - rewrite loop_app, (loop_take _ _ _ _ Hif').
    change (column_of (db_tag (with_value f (stored v f)))
              (Name (fieldType (with_value f (stored v f))))) with (column f).
    rewrite Hcol, (loop_untouched _ _ _ _ Hpost). apply lookup_insert_eq.
  - intros k Hk. rewrite !loop_app, (loop_take _ _ _ _ Hif'), (loop_take _ _ _ _ Hif).
    apply (loop_agree true post _ _ fieldName); [|exact Hk].
    intros k' Hk'.
    change (column_of (db_tag (with_value f (stored v f)))
              (Name (fieldType (with_value f (stored v f))))) with (column f).
    change (column_of (db_tag f) (Name (fieldType f))) with (column f).
    rewrite Hcol. now rewrite !lookup_insert_ne by congruence.
Qed.

Lemma SetStructField_exported_first (pre post : StructValue) (f : Field)
    (fieldName : string) (v : GoValue) :
  Forall (fun g => matches fieldName g = false) pre ->
  matches fieldName f = true ->
  IsExported (fieldType f) = true ->
  storable v f = true ->
  SetStructField fieldName (Some v) (OPtr (Some (TStructOf (pre ++ f :: post))))
  = Ret None (OPtr (Some (TStructOf (pre ++ with_value f (stored v f) :: post)))).
Proof.
  intros Hpre Hf He Hs. unfold SetStructField. rewrite bind_get. simpl.
  rewrite (SetStructField_loop_skip true fieldName (Some v) pre (f :: post) 0 _ Hpre).
  cbn [SetStructField_loop]. unfold matches, db_tag in Hf. rewrite Hf.
  unfold reflect.CanSet, reflect.FieldOf, stored, storable in *. simpl. rewrite He. simpl.
  destruct (decide (TypeOf (field f) = TypeOf v)) as [E|E].
  - rewrite (bool_decide_eq_false_2 _ (fun H => H E)).
    rewrite (bool_decide_eq_true_2 _ E).
    unfold bind, modify, ret. now rewrite set_field_middle.
  - rewrite (bool_decide_eq_true_2 _ E), (bool_decide_eq_false_2 _ E).
    rewrite (bool_decide_eq_false_2 _ E) in Hs. simpl in Hs. rewrite Hs.
    unfold bind, modify, ret. now rewrite set_field_middle.
Qed.

(** X13: writing back what was read changes nothing: for a record whose
    fields come under pairwise different columns, [SetStructField] called
    with a column of the mapping of [GetStructFields] (other than the
    empty one) and the value bound to it succeeds and leaves the record
    as it is. *)
Theorem writing_back_what_was_read_changes_nothing :
  forall (s : StructValue) (m : gmap string iface) (k : string) (v : iface),
    NoDup (map column s) ->
    k <> EmptyString ->
    GetStructFields (OPtr (Some (TStructOf s))) = Ok m ->
    m !! k = Some v ->
    SetStructField k v (OPtr (Some (TStructOf s)))
    = Ret None (OPtr (Some (TStructOf s))).
Proof.
  intros s m k v Hnd Hk Hm Hv. simpl in Hm. injection Hm as <-.
  destruct (loop_entries _ _ _ _ _ Hv) as [H0|[g [Hg [[He Ht] [Ek Ev]]]]].
  { rewrite lookup_empty in H0. discriminate. }
  subst v. change (column_of (db_tag g) (Name (fieldType g))) with (column g) in Ek.
  apply list_elem_of_split in Hg as [pre [post ->]].
  assert (Forall (fun h => matches k h = false) pre) as Hpre.
  { apply Forall_forall. intros h Hh.
    destruct (matches k h) eqn:Hmh; [|reflexivity]. exfalso.
    pose proof (matches_column k h Hk Hmh) as Hc.
    rewrite map_app in Hnd. apply NoDup_app in Hnd as [_ [Hdis _]].
    apply (Hdis (column h)).
    - apply list_elem_of_fmap. exists h. now split.
    - simpl. rewrite Hc, Ek. left. }
  rewrite (SetStructField_exported_first pre post g k (field g) Hpre).
  - unfold stored. rewrite (bool_decide_eq_true_2 _ eq_refl).
    unfold with_value. now destruct g.
  - rewrite Ek. apply column_matches.
  - exact He.
  - unfold storable. now rewrite (bool_decide_eq_true_2 _ eq_refl).
Qed.

Lemma first_segment_has_no_comma (s : string) :
  strings.Contains (hd EmptyString (strings.Split s ",")) "," = false.
Proof.
  induction s as [|c s IH]; [reflexivity|]. cbn [strings.Split].
  destruct (Ascii.eqb_spec c ","%char) as [->|Hc]; [reflexivity|].
  destruct (strings.Split s ",") as [|seg segs] eqn:E.
  - cbn [hd strings.Contains String.prefix].
    destruct (Ascii.ascii_dec ","%char c) as [<-|_]; [contradiction | reflexivity].
  - cbn [hd] in *. cbn [strings.Contains String.prefix].
    destruct (Ascii.ascii_dec ","%char c) as [<-|_]; [contradiction | exact IH].
Qed.

Lemma first_segment_is_a_prefix (s : string) :
  exists rest,
    s = hd EmptyString (strings.Split s ",") +:+ rest
    /\ (rest = EmptyString \/ exists rest', rest = String ","%char rest').
Proof.
  induction s as [|c s [rest [E Hr]]].
  - exists EmptyString. split; [reflexivity | now left].
  - cbn [strings.Split]. destruct (Ascii.eqb_spec c ","%char) as [->|Hc].
    + exists (String ","%char s). split; [reflexivity|]. right. now exists s.
    + destruct (strings.Split s ",") as [|seg segs] eqn:Es.
      * cbn [hd] in *. exists rest. split; [|exact Hr].
        change (String c s = String c (EmptyString +:+ rest)). now rewrite <- E.
      * cbn [hd] in *. exists rest. split; [|exact Hr].
        change (String c s = String c (seg +:+ rest)). now rewrite <- E.
Qed.

(** X14: [GetTagName] answers the tag of the field up to its first
    comma: the answer has no comma in it and the tag is the answer,
    followed by nothing or by a comma and the options; it is empty for a
    name that no field of the struct has. *)
Theorem tag_name_is_the_tag_up_to_the_first_comma :
  forall (structType : list StructField) (fieldName tagName : string),
    let name := GetTagName structType fieldName tagName in
    strings.Contains name "," = false
    /\ (forall f, List.find (fun f => String.eqb (Name f) fieldName) structType = Some f ->
          exists rest,
            Get (Tag f) tagName = name +:+ rest
            /\ (rest = EmptyString \/ exists rest', rest = String ","%char rest'))
    /\ (List.find (fun f => String.eqb (Name f) fieldName) structType = None ->
        name = EmptyString).
Proof.
  intros structType fieldName tagName name. unfold name, GetTagName.
  destruct (List.find (fun f => String.eqb (Name f) fieldName) structType) as [f|].
  - split; [|split; [|discriminate]].
    + destruct (String.eqb (Get (Tag f) tagName) EmptyString); [reflexivity|].
      apply first_segment_has_no_comma.
    + intros f' [= <-].
      destruct (String.eqb_spec (Get (Tag f) tagName) EmptyString) as [E|E].
      * exists EmptyString. rewrite E. split; [reflexivity | now left].
      * apply first_segment_is_a_prefix.
  - split; [reflexivity|]. split; [discriminate | reflexivity].
Qed.

Lemma contains_primary_has_comma (s : string) :
  strings.Contains s ",primary" = true -> strings.Contains s "," = true.
Proof.
  induction s as [|c s IH]; [discriminate|]. cbn [strings.Contains String.prefix].
  destruct (Ascii.ascii_dec ","%char c) as [<-|Hc]; [intros _; now destruct s|].
  exact IH.
Qed.

Lemma contains_not_empty (s sub : string) :
  sub <> EmptyString -> strings.Contains s sub = true -> s <> EmptyString.
Proof. intros Hs H ->. destruct sub; [contradiction | discriminate]. Qed.

(** X15: the two getters do not agree on the column of a field marked
    by its tag: for a record whose first field with ",primary" in its tag
    is exported and has a name before the comma, [GetPrimaryKeyField]
    reports that name, while [GetStructFields] files the field under the
    whole tag, option included; the reported column is a key of the
    mapping only if another field comes under it. *)
Theorem identity_column_is_not_the_key_of_its_field :
  forall (obj : GoObj) (s : StructValue) (f : Field),
    record_fields obj = Some s ->
    List.find marked_primary s = Some f ->
    IsExported (fieldType f) = true ->
    hd EmptyString (strings.Split (db_tag f) ",") <> EmptyString ->
    exists (col : string) (m : gmap string iface),
      GetPrimaryKeyField obj = Ok (col, Some (field f))
      /\ GetStructFields obj = Ok m
      /\ col = hd EmptyString (strings.Split (db_tag f) ",")
      /\ col <> db_tag f
      /\ is_Some (m !! db_tag f)
      /\ (forall x, m !! col = Some x ->
            exists g, g ∈ s /\ included g /\ column g = col /\ g <> f).
Proof.
  intros obj s f Hrec Hfind He Hseg.
  destruct (record_fields_value obj s Hrec) as [Hn [addr E]].
  destruct (GetStructFields_record obj s Hrec) as [addr' Em].
  destruct (List.find_some _ _ Hfind) as [Hin Hp]. unfold marked_primary in Hp.
  apply list_elem_of_In in Hin.
  assert (db_tag f <> EmptyString) as Htag
    by (apply (contains_not_empty _ ",primary"); [discriminate | exact Hp]).
  assert (hd EmptyString (strings.Split (db_tag f) ",") <> db_tag f) as Hne.
  { intros Heq. pose proof (first_segment_has_no_comma (db_tag f)) as Hc.
    rewrite Heq in Hc. rewrite (contains_primary_has_comma _ Hp) in Hc. discriminate. }
  assert (included f) as Hif.
  { split; [exact He|]. intros Ht. rewrite Ht in Hp. discriminate. }
  assert (column f = db_tag f) as Hcol.
  { unfold column, column_of.
    destruct (String.eqb_spec (db_tag f) EmptyString); [contradiction | reflexivity]. }
  assert (primary_column f = hd EmptyString (strings.Split (db_tag f) ",")) as Hpc.
  { unfold primary_column.
    destruct (strings.Split (db_tag f) ",") as [|[|c seg] segs]; simpl in *;
      try contradiction; reflexivity. }
  exists (hd EmptyString (strings.Split (db_tag f) ",")). eexists.
  split; [|split; [exact Em|split; [reflexivity|split; [exact Hne|split]]]].
  - unfold GetPrimaryKeyField. destruct obj; [contradiction| |];
      rewrite E; simpl; rewrite primary_loop_find, Hfind; simpl;
      unfold visible; rewrite He, Hpc; reflexivity.
  - rewrite <- Hcol. apply loop_covers; [exact Hin | exact Hif].
  - intros x Hx. destruct (loop_entries _ _ _ _ _ Hx) as [H0|[g [Hg [Hig [Ek Ev]]]]].
    + rewrite lookup_empty in H0. discriminate.
    + exists g. split; [exact Hg|]. split; [exact Hig|]. split; [now symmetry|].
      intros ->. apply Hne. rewrite Ek. exact Hcol.
Qed.

End ReflectionMore.

Section ReflectionIdentity.
Import Reflection Expected Fields.

Lemma id_loop_find (addr : bool) (s : StructValue) :
  id_loop addr s
  = option_map (fun f => (fallback_column f, visible f)) (List.find named_id s).
Proof.
  induction s as [|f s IH]; [reflexivity|]. simpl. unfold named_id at 1.
  destruct (String.eqb (strings.ToLower (Name (fieldType f))) "id"); [|exact IH].
  simpl. rewrite interface_of_visible. reflexivity.
Qed.

(** X16: what [GetPrimaryKeyField] answers for a struct record, as the
    code has it: for the first field whose db tag contains ",primary",
    when there is one, the first segment of the tag (the lower-cased
    identifier when that segment is empty); failing that, for the first
    field whose identifier lower-cased is "id", the db tag as it is
    written, options included ("id" when the tag is empty or "-"); in
    both cases with the current value of the field when it is exported
    and nil when it is not; and the error "chave primária não
    encontrada" when there is neither field. *)
Theorem identity_is_read_from_tag_then_name :
  forall (obj : GoObj) (s : StructValue),
    record_fields obj = Some s ->
    GetPrimaryKeyField obj =
      match List.find marked_primary s with
      | Some f => Ok (primary_column f, visible f)
      | None =>
          match List.find named_id s with
          | Some f => Ok (fallback_column f, visible f)
          | None => Err (New "chave primária não encontrada")
          end
      end.
Proof.
  intros obj s H. destruct (record_fields_value obj s H) as [Hn [addr E]].
  unfold GetPrimaryKeyField. destruct obj; [contradiction| |];
    rewrite E; simpl; rewrite primary_loop_find, id_loop_find;
    destruct (List.find marked_primary s); simpl; try reflexivity;
    destruct (List.find named_id s); reflexivity.
Qed.

End ReflectionIdentity.

Section OperationsMore.
Import Postgres Expected.

Lemma no_percent_app (a b : string) :
  no_percent (a +:+ b) = no_percent a && no_percent b.
Proof.
  induction a as [|c a IH]; [reflexivity|].
  change (no_percent (String c (a +:+ b))
          = no_percent (String c a) && no_percent b).
  cbn [no_percent]. rewrite IH. now rewrite andb_assoc.
Qed.

Lemma no_percent_uint (d : Decimal.uint) :
  no_percent (NilEmpty.string_of_uint d) = true.
Proof. induction d; simpl; auto. Qed.

Lemma no_percent_itoa (n : Z) : no_percent (fmt.itoa n) = true.
Proof.
  assert (forall d, no_percent (NilZero.string_of_uint d) = true) as H.
  { intros d. destruct d; [reflexivity | exact (no_percent_uint _) ..]. }
  unfold fmt.itoa, NilZero.string_of_int.
  destruct (Z.to_int n) as [d|d]; [apply H|].
  change (negb (Ascii.eqb "-" "%") && no_percent (NilZero.string_of_uint d) = true).
  rewrite H. reflexivity.
Qed.

(** For a key name with no [%] in it, the second formatting changes
    nothing: the condition is [key = $n]. *)
Lemma key_condition_plain (primaryKey : string) (n : Z) :
  no_percent primaryKey = true ->
  key_condition primaryKey n = Some (primaryKey +:+ " = $" +:+ fmt.itoa n).
Proof.
  intros Hn. unfold key_condition. rewrite Sprintf_plain.
  - cbn [fmt.extra]. now rewrite append_empty_r.
  - rewrite !no_percent_app, Hn, no_percent_itoa. reflexivity.
Qed.

(** X17: [Update], on the connection and within a transaction, sets
    every column of the mapping but the one named by [PrimaryKey()] and
    selects the row by that key: for a key name with no [%] in it the
    statement is [UPDATE table SET c1 = $1, ..., cn = $n WHERE key = $n+1],
    bound to the values of the columns followed by [PrimaryKeyValue()].
    It is the one call to the backend; its answer decides the result (an
    error of the backend and an error of [RowsAffected] are wrapped, zero
    rows give "no records were updated", anything else succeeds), and
    the record is not written to. *)
Theorem update_sets_every_column_but_the_key :
  forall (range : gmap string iface -> list (string * iface)) (d : DB)
         (model : ModelWithPrimaryKey) (obj : GoObj) (before : list Event)
         (fields : gmap string iface),
    (forall m, range m ≡ₚ map_to_list m) ->
    Reflection.GetStructFields obj = Ok fields ->
    no_percent (PrimaryKey model obj) = true ->
    16 * (Z.of_nat (size fields) + 1) <= QB.maxAlloc ->
    let primaryKey := PrimaryKey model obj in
    let entries := range (delete primaryKey fields) in
    let query := update_text (TableName (asModel model) obj) (map fst entries)
                 +:+ " WHERE " +:+ primaryKey +:+ " = $"
                 +:+ fmt.itoa (1 + Z.of_nat (length entries)) in
    let a := map snd entries ++ [PrimaryKeyValue model obj] in
    let res := ExecContext d query a in
    let answer :=
      Ret (verdict "error updating record" "no records were updated" res)
          {| record := obj; trace := before ++ [EvExec query a res] |} in
    (forall k x, (k, x) ∈ entries <-> fields !! k = Some x /\ k <> primaryKey)
    /\ Update range {| db := Some d |} model {| record := obj; trace := before |}
       = answer
    /\ Transaction_Update range {| tx := d |} model
         {| record := obj; trace := before |}
       = answer.
Proof.
  intros range d model obj before fields Hperm Hfields Hn Hsize
    primaryKey entries query a res answer.
  assert (length entries <= size fields)%nat as Hlen.
  { unfold entries. rewrite (Permutation_length (Hperm _)), length_map_to_list.
    apply map_subseteq_size, delete_subseteq. }
  pose proof (update_statement (TableName (asModel model) obj) primaryKey _ entries
                (PrimaryKeyValue model obj) {| record := obj; trace := before |}
                ltac:(lia) (key_condition_plain primaryKey _ Hn)) as Hb.
  split; [|split].
  - intros k x. unfold entries. rewrite (Hperm _), elem_of_map_to_list.
    rewrite lookup_delete_Some. split; intros [H1 H2]; split; auto.
  - unfold Update. cbn [db]. rewrite bind_get. cbn [record]. rewrite Hfields.
    rewrite (bind_Ret _ _ _ _ _ Hb).
    unfold bind, exec, ret, answer, verdict. cbn [record trace]. fold query a res.
    destruct res as [r|err]; [|reflexivity].
    destruct (RowsAffected r) as [n|err]; [|reflexivity].
    destruct (n =? 0); reflexivity.
  - unfold Transaction_Update. rewrite bind_get. cbn [record]. rewrite Hfields.
    rewrite (bind_Ret _ _ _ _ _ Hb).
    unfold bind, exec, ret, answer, verdict. cbn [record trace tx]. fold query a res.
    destruct res as [r|err]; [|reflexivity].
    destruct (RowsAffected r) as [n|err]; [|reflexivity].
    destruct (n =? 0); reflexivity.
Qed.

(** X18: [Delete], on the connection and within a transaction, does not
    look at the fields of the record: whatever the record is, for a key
    name with no [%] in it the statement is
    [DELETE FROM table WHERE key = $1], bound to [PrimaryKeyValue()]
    alone.  It is the one call to the backend; its answer decides the
    result as for [Update], with "no records were deleted" for zero
    rows, and the record is not written to. *)
Theorem delete_selects_by_the_key_alone :
  forall (d : DB) (model : ModelWithPrimaryKey) (obj : GoObj)
         (before : list Event),
    no_percent (PrimaryKey model obj) = true ->
    let query := delete_text (TableName (asModel model) obj)
                 +:+ " WHERE " +:+ PrimaryKey model obj +:+ " = $1" in
    let a := [PrimaryKeyValue model obj] in
    let res := ExecContext d query a in
    let answer :=
      Ret (verdict "error deleting record" "no records were deleted" res)
          {| record := obj; trace := before ++ [EvExec query a res] |} in
    Delete {| db := Some d |} model {| record := obj; trace := before |} = answer
    /\ Transaction_Delete {| tx := d |} model {| record := obj; trace := before |}
       = answer.
Proof.
  intros d model obj before Hn query a res answer.
  pose proof (delete_statement (TableName (asModel model) obj) (PrimaryKey model obj)
                _ (PrimaryKeyValue model obj) {| record := obj; trace := before |}
                (key_condition_plain _ 1 Hn)) as Hb.
  change (fmt.itoa 1) with "1" in Hb.
  change (" = $" +:+ "1") with " = $1" in Hb.
  split.
  - unfold Delete. cbn [db]. rewrite bind_get. cbn [record].
    rewrite (bind_Ret _ _ _ _ _ Hb).
    unfold bind, exec, ret, answer, verdict. cbn [record trace]. fold query a res.
    destruct res as [r|err]; [|reflexivity].
    destruct (RowsAffected r) as [n|err]; [|reflexivity].
    destruct (n =? 0); reflexivity.
  - unfold Transaction_Delete. rewrite bind_get. cbn [record].
    rewrite (bind_Ret _ _ _ _ _ Hb).
    unfold bind, exec, ret, answer, verdict. cbn [record trace tx]. fold query a res.
    destruct res as [r|err]; [|reflexivity].
    destruct (RowsAffected r) as [n|err]; [|reflexivity].
    destruct (n =? 0); reflexivity.
Qed.

Lemma insert_statement (table : string) (entries : list (string * iface)) (w : World) :
  16 * Z.of_nat (length entries) <= QB.maxAlloc ->
  build (QB.WriteInsert table (map fst entries) (map snd entries)) w
  = Ret (insert_text table (map fst entries) (length entries), map snd entries) w.
Proof.
  intros Hroom. unfold build.
  rewrite WriteInsert_new by (rewrite length_map; exact Hroom).
  unfold QB.Build. cbn [QB.query QB.args]. rewrite length_map. reflexivity.
Qed.

(** X19: [PostgresTransaction.Create] lists every entry of the column
    mapping in the INSERT, the primary key with a zero value too, asks
    for no key back (no RETURNING clause, a plain execution) and leaves
    the record as it is, the model naming a primary key or not; an error
    of the backend is wrapped as in [Create]. *)
Theorem transaction_create_lists_every_column :
  forall (range : gmap string iface -> list (string * iface))
         (t : PostgresTransaction) (model : core_Model) (obj : GoObj)
         (before : list Event) (fields : gmap string iface),
    (forall m, range m ≡ₚ map_to_list m) ->
    Reflection.GetStructFields obj = Ok fields ->
    16 * Z.of_nat (size fields) <= QB.maxAlloc ->
    let entries := range fields in
    let query := insert_text (table_of model obj) (map fst entries)
                   (length entries) in
    let res := ExecContext (tx t) query (map snd entries) in
    (forall k x, (k, x) ∈ entries <-> fields !! k = Some x)
    /\ Transaction_Create range t model {| record := obj; trace := before |}
       = Ret (match res with
              | Err err => Some (insert_error err)
              | Ok _ => None
              end)
             {| record := obj;
                trace := before ++ [EvExec query (map snd entries) res] |}.
Proof.
  intros range t model obj before fields Hperm Hfields Hsize entries query res.
  assert (length entries = size fields) as Hlen.
  { unfold entries. rewrite (Permutation_length (Hperm fields)).
    apply length_map_to_list. }
  split.
  - intros k x. unfold entries. rewrite (Hperm fields). apply elem_of_map_to_list.
  - unfold Transaction_Create. rewrite bind_get. cbn [record]. rewrite Hfields.
    rewrite (bind_Ret _ _ _ _ _
               (insert_statement (table_of model obj) entries _ ltac:(lia))).
    unfold bind, exec, ret. cbn [record trace]. fold query res.
    destruct res; reflexivity.
Qed.

Lemma Create_loop_nil (primaryKey : string) (rest : list (string * iface))
    (columns : list string) (values : list iface) (w : World) :
  (exists x, (primaryKey, x) ∈ rest) ->
  Create_loop primaryKey None rest columns values w
  = Panic "reflect: call of reflect.Value.IsZero on zero Value" w.
Proof.
  revert columns values. induction rest as [|[c y] rest IH];
    intros columns values [x Hx].
  - now apply not_elem_of_nil in Hx.
  - cbn [Create_loop]. destruct (String.eqb_spec c primaryKey) as [->|Hc];
      [reflexivity|].
    apply IH. exists x. apply elem_of_cons in Hx as [[= E _]|Hx]; [|exact Hx].
    now subst c.
Qed.

(** X20: a model whose [PrimaryKeyValue()] answers nil makes [Create]
    panic, as soon as the column mapping of the record has the column
    [PrimaryKey()] names: the zero test is made on the zero
    [reflect.Value], in whatever order the mapping is visited; nothing
    has been sent to the backend and the record is as it was. *)
Theorem create_panics_on_a_nil_key :
  forall (range : gmap string iface -> list (string * iface)) (d : DB)
         (m : ModelWithPrimaryKey) (obj : GoObj) (before : list Event)
         (fields : gmap string iface),
    (forall m, range m ≡ₚ map_to_list m) ->
    Reflection.GetStructFields obj = Ok fields ->
    PrimaryKeyValue m obj = None ->
    is_Some (fields !! PrimaryKey m obj) ->
    Create range {| db := Some d |} (WithPrimaryKey m)
      {| record := obj; trace := before |}
    = Panic "reflect: call of reflect.Value.IsZero on zero Value"
        {| record := obj; trace := before |}.
Proof.
  intros range d m obj before fields Hperm Hfields Hnil [x Hx].
  unfold Create. cbn [db]. rewrite bind_get. cbn [record].
  rewrite Hfields, Hnil. unfold bind at 1.
  rewrite Create_loop_nil; [reflexivity|].
  exists x. rewrite (Hperm fields). now apply elem_of_map_to_list.
Qed.

Lemma Create_loop_world (primaryKey : string) (primaryKeyValue : iface)
    (rest : list (string * iface)) (columns : list string) (values : list iface)
    (w : World) :
  final_state (Create_loop primaryKey primaryKeyValue rest columns values w) = Some w.
Proof.
  revert columns values. induction rest as [|[c x] rest IH]; intros columns values;
    [reflexivity|].
  cbn [Create_loop]. destruct (String.eqb c primaryKey); [|apply IH].
  destruct primaryKeyValue as [v|]; [|reflexivity].
  destruct (reflect.IsZero v); apply IH.
Qed.

(** X21: [Update] and [Delete], on the connection or within a
    transaction, and [PostgresTransaction.Create] never write to the
    record, and make at most one call to the backend, an execution:
    however they end, by a result, an error or a panic.  [Create] makes
    at most one call too, and writes to the record only after a query
    that answered a generated key. *)
Theorem operations_call_the_backend_at_most_once :
  forall (range : gmap string iface -> list (string * iface))
         (p : PostgresORM) (t : PostgresTransaction)
         (model : ModelWithPrimaryKey) (any : core_Model) (w w' : World),
    (final_state (Update range p model w) = Some w'
     \/ final_state (Delete p model w) = Some w'
     \/ final_state (Transaction_Update range t model w) = Some w'
     \/ final_state (Transaction_Delete t model w) = Some w'
     \/ final_state (Transaction_Create range t any w) = Some w' ->
     record w' = record w
     /\ (trace w' = trace w
         \/ exists query a res, trace w' = trace w ++ [EvExec query a res]))
    /\ (final_state (Create range p any w) = Some w' ->
        (record w' = record w
         /\ (trace w' = trace w
             \/ exists ev, trace w' = trace w ++ [ev]))
        \/ exists query a generatedID,
             trace w' = trace w ++ [EvQueryRow query a (Ok generatedID)]).
Proof.
  intros range p t model any w w'. split.
  - intros H.
    unfold Update, Delete, Transaction_Update, Transaction_Delete,
      Transaction_Create, bind, get, ret, build, exec in H.
    destruct w as [obj tr]. cbn [record trace] in *.
    destruct H as [H|[H|[H|[H|H]]]];
      repeat (case_match; simplify_eq/=);
      first [ solve [split; [reflexivity | left; reflexivity]]
            | solve [split; [reflexivity | right; do 3 eexists; reflexivity]] ].
  - intros H. unfold Create in H. destruct w as [obj tr]. cbn [record trace] in *.
    destruct (db p) as [d|]; [|injection H as <-; left; split; [reflexivity|now left]].
    rewrite bind_get in H. cbn [record] in H.
    destruct (Reflection.GetStructFields obj) as [fields|err];
      [|injection H as <-; left; split; [reflexivity|now left]].
    destruct any as [m|m]; cbv beta iota in H; unfold bind at 1 in H;
    match type of H with
    | context [Create_loop ?pk ?pkv ?rest ?cols ?vals ?w0] =>
        pose proof (Create_loop_world pk pkv rest cols vals w0) as Hw;
        destruct (Create_loop pk pkv rest cols vals w0) as [[columns values] w1|msg w1|]
    end; simpl in Hw; simplify_eq/=;
      try solve [left; split; [reflexivity|now left]];
      unfold bind, get, ret, build, exec, query_row_scan, on_record in H;
      repeat (case_match; simplify_eq/=);
      repeat match goal with
             | E : ?x = Ok _ |- context [?x] => rewrite E
             end;
      first [ solve [left; split; [reflexivity | left; reflexivity]]
            | solve [left; split; [reflexivity | right; eexists; reflexivity]]
            | solve [right; do 3 eexists; reflexivity] ].
Qed.

End OperationsMore.
(** ** The further properties at work on the examples *)

Section MoreWitnesses.
Import QB QBOps Reflection Expected Fields Postgres.

Lemma after_where_reachable : reachable Examples.after_where.
Proof.
  apply (reachable_step NewQueryBuilder Examples.where_clause);
    [apply reachable_new | vm_compute; reflexivity].
Qed.

Lemma text_is_only_appended_to_witness :
  is_reset Examples.where_clause = false
  /\ final_state (run_op Examples.where_clause NewQueryBuilder)
     = Some Examples.after_where
  /\ (exists t, query Examples.after_where = query NewQueryBuilder +:+ t)
  /\ no_reset Examples.delete_calls = true
  /\ run_ops Examples.delete_calls NewQueryBuilder = Ret tt Examples.after_calls
  /\ exists t, query Examples.after_calls = query NewQueryBuilder +:+ t.
Proof.
  assert (final_state (run_op Examples.where_clause NewQueryBuilder)
          = Some Examples.after_where) as Hf by (vm_compute; reflexivity).
  assert (run_ops Examples.delete_calls NewQueryBuilder = Ret tt Examples.after_calls)
    as Hrun by (vm_compute; reflexivity).
  split; [reflexivity|]. split; [exact Hf|].
  split; [exact (proj1 (text_is_only_appended_to NewQueryBuilder Examples.after_where)
                   Examples.where_clause eq_refl Hf)|].
  split; [reflexivity|]. split; [exact Hrun|].
  exact (proj2 (text_is_only_appended_to NewQueryBuilder Examples.after_calls)
           Examples.delete_calls eq_refl Hrun).
Defined.

Lemma plain_calls_touch_only_the_text_witness :
  is_plain (OpWriteLimit 5) = true
  /\ exists t,
       run_op (OpWriteLimit 5) Examples.after_where
       = Ret tt {| query := query Examples.after_where +:+ t;
                   args := [Some (VInt 7)]; paramIndex := 2 |}.
Proof.
  split; [reflexivity|].
  exact (plain_calls_touch_only_the_text (OpWriteLimit 5) Examples.after_where eq_refl).
Defined.

Lemma clauses_without_content_are_omitted_witness :
  WriteLimit 0 Examples.after_where = Ret tt Examples.after_where
  /\ WriteOffset (-3) Examples.after_where = Ret tt Examples.after_where
  /\ WriteLimit 5 Examples.after_where = Ret tt Examples.after_limit.
Proof.
  split; [exact (proj1 (proj1 (clauses_without_content_are_omitted
                                 Examples.after_where 0) ltac:(lia)))|].
  split; [exact (proj2 (proj1 (clauses_without_content_are_omitted
                                 Examples.after_where (-3)) ltac:(lia)))|].
  etransitivity;
    [exact (proj1 (proj1 (proj2 (clauses_without_content_are_omitted
                                   Examples.after_where 5)) ltac:(lia)))
    | vm_compute; reflexivity].
Defined.

Lemma insert_numbers_from_the_counter_witness :
  reachable Examples.after_where
  /\ WriteInsert "t" ["a"; "b"] [Some (VInt 1); Some (VString "x")]
       Examples.after_where
     = Ret tt {| query := " WHERE id = $1INSERT INTO t (a, b) VALUES ($2, $3)";
                 args := [Some (VInt 7); Some (VInt 1); Some (VString "x")];
                 paramIndex := 4 |}.
Proof.
  split; [exact after_where_reachable|].
  etransitivity;
    [exact (insert_numbers_from_the_counter "t" ["a"; "b"]
              [Some (VInt 1); Some (VString "x")] Examples.after_where
              after_where_reachable ltac:(vm_compute; discriminate))
    | vm_compute; reflexivity].
Defined.

Lemma update_needs_a_value_per_column_witness :
  reachable Examples.after_where
  /\ WriteUpdate "t" ["a"] [Some (VInt 1); Some (VInt 2)] Examples.after_where
     = Ret tt {| query := " WHERE id = $1UPDATE t SET a = $2";
                 args := [Some (VInt 7); Some (VInt 1)];
                 paramIndex := 3 |}
  /\ exists qb',
       WriteUpdate "t" ["a"; "b"] [Some (VInt 1)] Examples.after_where
       = Panic "runtime error: index out of range [1] with length 1" qb'
       /\ args qb' = [Some (VInt 7); Some (VInt 1)]
       /\ paramIndex qb' = 3.
Proof.
  split; [exact after_where_reachable|]. split.
  - etransitivity;
      [exact (proj1 (update_needs_a_value_per_column "t" ["a"]
                       [Some (VInt 1); Some (VInt 2)] Examples.after_where
                       after_where_reachable ltac:(vm_compute; discriminate))
                ltac:(simpl; lia))
      | vm_compute; reflexivity].
  - exact (proj2 (update_needs_a_value_per_column "t" ["a"; "b"]
                    [Some (VInt 1)] Examples.after_where
                    after_where_reachable ltac:(vm_compute; discriminate))
             ltac:(simpl; lia)).
Defined.

Lemma condition_without_verbs_is_kept_verbatim_witness :
  no_percent "a IS NULL" = true
  /\ reachable Examples.after_where
  /\ WriteAnd "a IS NULL" [] Examples.after_where
     = Ret tt {| query := " WHERE id = $1 AND a IS NULL";
                 args := [Some (VInt 7)]; paramIndex := 2 |}
  /\ WriteOr "a IS NULL" [Some (VInt 1)] Examples.after_where
     = Ret tt {| query := " WHERE id = $1 OR a IS NULL%!(EXTRA string=$2)";
                 args := [Some (VInt 7); Some (VInt 1)]; paramIndex := 3 |}.
Proof.
  split; [reflexivity|]. split; [exact after_where_reachable|]. split.
  - etransitivity;
      [exact (proj1 (proj2 (condition_without_verbs_is_kept_verbatim "a IS NULL" []
                              Examples.after_where eq_refl after_where_reachable
                              ltac:(vm_compute; discriminate))))
      | vm_compute; reflexivity].
  - etransitivity;
      [exact (proj1 (proj2 (proj2 (condition_without_verbs_is_kept_verbatim
                                     "a IS NULL" [Some (VInt 1)]
                                     Examples.after_where eq_refl after_where_reachable
                                     ltac:(vm_compute; discriminate)))))
      | vm_compute; reflexivity].
Defined.

Lemma no_placeholder_is_handed_out_twice_witness :
  reachable NewQueryBuilder
  /\ AddParam (Some (VInt 7)) NewQueryBuilder
     = Ret "$1" {| query := EmptyString; args := [Some (VInt 7)]; paramIndex := 2 |}
  /\ run_ops Examples.delete_calls
       {| query := EmptyString; args := [Some (VInt 7)]; paramIndex := 2 |}
     = Ret tt {| query := "DELETE FROM t WHERE id = $2";
                 args := [Some (VInt 7); Some (VInt 7)]; paramIndex := 3 |}
  /\ AddParam (Some (VInt 7))
       {| query := "DELETE FROM t WHERE id = $2";
          args := [Some (VInt 7); Some (VInt 7)]; paramIndex := 3 |}
     = Ret "$3" {| query := "DELETE FROM t WHERE id = $2";
                   args := [Some (VInt 7); Some (VInt 7); Some (VInt 7)];
                   paramIndex := 4 |}
  /\ "$1" <> "$3".
Proof.
  assert (AddParam (Some (VInt 7)) NewQueryBuilder
          = Ret "$1" {| query := EmptyString; args := [Some (VInt 7)];
                        paramIndex := 2 |}) as H1 by (vm_compute; reflexivity).
  assert (run_ops Examples.delete_calls
            {| query := EmptyString; args := [Some (VInt 7)]; paramIndex := 2 |}
          = Ret tt {| query := "DELETE FROM t WHERE id = $2";
                      args := [Some (VInt 7); Some (VInt 7)]; paramIndex := 3 |})
    as Hrun by (vm_compute; reflexivity).
  assert (AddParam (Some (VInt 7))
            {| query := "DELETE FROM t WHERE id = $2";
               args := [Some (VInt 7); Some (VInt 7)]; paramIndex := 3 |}
          = Ret "$3" {| query := "DELETE FROM t WHERE id = $2";
                        args := [Some (VInt 7); Some (VInt 7); Some (VInt 7)];
                        paramIndex := 4 |}) as H2 by (vm_compute; reflexivity).
  split; [apply reachable_new|]. split; [exact H1|]. split; [exact Hrun|].
  split; [exact H2|].
  exact (no_placeholder_is_handed_out_twice _ _ _ _ _ _ _ _ Examples.delete_calls
           reachable_new H1 eq_refl Hrun H2).
Defined.

Lemma helpers_refuse_what_is_not_a_struct_witness :
  record_fields (OPtr None) = None
  /\ GetStructFields (OPtr None)
     = Err (New "objeto deve ser uma estrutura ou um ponteiro para uma estrutura")
  /\ GetPrimaryKeyField (OPtr None)
     = Err (New "objeto deve ser uma estrutura ou um ponteiro para uma estrutura")
  /\ SetStructField "id" (Some (VInt 1)) (OVal (TStructOf (Examples.User 5 "Ann")))
     = Ret (Some (New "objeto deve ser um ponteiro não-nil"))
           (OVal (TStructOf (Examples.User 5 "Ann"))).
Proof.
  destruct (proj1 (helpers_refuse_what_is_not_a_struct (OPtr None) "id" None) eq_refl)
    as [H1 H2].
  split; [reflexivity|]. split; [exact H1|]. split; [exact H2|].
  exact (proj2 (helpers_refuse_what_is_not_a_struct
                  (OVal (TStructOf (Examples.User 5 "Ann"))) "id" (Some (VInt 1)))
           ltac:(intros s; discriminate)).
Defined.

Lemma last_field_of_a_column_is_the_one_bound_witness :
  record_fields (OVal (TStructOf Examples.Twice))
  = Some ([(Examples.tagged "Code" "n" (VInt 3))] ++ (Examples.tagged "Name" "n" (VString "x")) :: [])
  /\ included (Examples.tagged "Name" "n" (VString "x"))
  /\ exists m : gmap string iface,
       GetStructFields (OVal (TStructOf Examples.Twice)) = Ok m
       /\ m !! "n" = Some (Some (VString "x")).
Proof.
  assert (included (Examples.tagged "Name" "n" (VString "x"))) as Hi by (split; [reflexivity | discriminate]).
  split; [reflexivity|]. split; [exact Hi|].
  exact (last_field_of_a_column_is_the_one_bound
           (OVal (TStructOf Examples.Twice)) [(Examples.tagged "Code" "n" (VInt 3))] [] (Examples.tagged "Name" "n" (VString "x"))
           eq_refl Hi ltac:(intros g Hg; now apply not_elem_of_nil in Hg)).
Defined.

Lemma first_matching_field_decides_witness :
  Forall (fun g => matches "name" g = false) [Examples.tagged "ID" "id" (VInt 5)]
  /\ matches "name" (Examples.tagged "Name" "name" (VString "Ann")) = true
  /\ SetStructField "name" (Some (VString "Bob"))
       (OPtr (Some (TStructOf (Examples.User 5 "Ann"))))
     = Ret None (OPtr (Some (TStructOf (Examples.User 5 "Bob"))))
  /\ SetStructField "name" None (OPtr (Some (TStructOf (Examples.User 5 "Ann"))))
     = Panic "reflect: call of reflect.Value.Type on zero Value"
         (OPtr (Some (TStructOf (Examples.User 5 "Ann")))).
Proof.
  assert (Forall (fun g => matches "name" g = false)
            [Examples.tagged "ID" "id" (VInt 5)]) as Hpre
    by (constructor; [reflexivity | constructor]).
  destruct (first_matching_field_decides
              [Examples.tagged "ID" "id" (VInt 5)] []
              (Examples.tagged "Name" "name" (VString "Ann")) "name" (VString "Bob")
              Hpre eq_refl) as [H1 H2].
  split; [exact Hpre|]. split; [reflexivity|].
  split; [etransitivity; [exact H1 | vm_compute; reflexivity]|].
  exact (H2 eq_refl).
Defined.

Lemma set_keeps_the_shape_of_the_record_witness :
  final_state (SetStructField "id" (Some (VInt64 9))
                 (OPtr (Some (TStructOf (Examples.User 5 "Ann")))))
  = Some (OPtr (Some (TStructOf (Examples.User 9 "Ann"))))
  /\ exists s',
       OPtr (Some (TStructOf (Examples.User 9 "Ann"))) = OPtr (Some (TStructOf s'))
       /\ shape s' = shape (Examples.User 5 "Ann").
Proof.
  assert (final_state (SetStructField "id" (Some (VInt64 9))
                         (OPtr (Some (TStructOf (Examples.User 5 "Ann")))))
          = Some (OPtr (Some (TStructOf (Examples.User 9 "Ann"))))) as Hf
    by (vm_compute; reflexivity).
  split; [exact Hf|].
  exact (set_keeps_the_shape_of_the_record _ _ _ _ Hf).
Defined.

Lemma stored_value_is_read_back_witness :
  GetStructFields (OPtr (Some (TStructOf (Examples.User 5 "Ann"))))
  = Ok Examples.ann_fields
  /\ SetStructField "name" (Some (VString "Bob"))
       (OPtr (Some (TStructOf (Examples.User 5 "Ann"))))
     = Ret None (OPtr (Some (TStructOf (Examples.User 5 "Bob"))))
  /\ exists m' : gmap string iface,
       GetStructFields (OPtr (Some (TStructOf (Examples.User 5 "Bob")))) = Ok m'
       /\ m' !! "name" = Some (Some (VString "Bob"))
       /\ m' !! "id" = Examples.ann_fields !! "id".
Proof.
  assert (GetStructFields (OPtr (Some (TStructOf (Examples.User 5 "Ann"))))
          = Ok Examples.ann_fields) as Hm by (vm_compute; reflexivity).
  assert (SetStructField "name" (Some (VString "Bob"))
            (OPtr (Some (TStructOf (Examples.User 5 "Ann"))))
          = Ret None (OPtr (Some (TStructOf (Examples.User 5 "Bob"))))) as Hs
    by (vm_compute; reflexivity).
  split; [exact Hm|]. split; [exact Hs|].
  destruct (stored_value_is_read_back
              [Examples.tagged "ID" "id" (VInt 5)] []
              (Examples.tagged "Name" "name" (VString "Ann")) "name" (VString "Bob")
              _ _ ltac:(discriminate) ltac:(discriminate)
              ltac:(constructor; [reflexivity | constructor]) eq_refl
              ltac:(intros g Hg; now apply not_elem_of_nil in Hg) Hm Hs)
    as [m' [H1 [H2 H3]]].
  exists m'. split; [exact H1|]. split; [exact H2|].
  apply H3. discriminate.
Defined.

Lemma writing_back_what_was_read_changes_nothing_witness :
  NoDup (map column (Examples.User 5 "Ann"))
  /\ GetStructFields (OPtr (Some (TStructOf (Examples.User 5 "Ann"))))
     = Ok Examples.ann_fields
  /\ Examples.ann_fields !! "name" = Some (Some (VString "Ann"))
  /\ SetStructField "name" (Some (VString "Ann"))
       (OPtr (Some (TStructOf (Examples.User 5 "Ann"))))
     = Ret None (OPtr (Some (TStructOf (Examples.User 5 "Ann")))).
Proof.
  assert (NoDup (map column (Examples.User 5 "Ann"))) as Hnd.
  { apply NoDup_cons. split; [|apply NoDup_singleton].
    intros H. apply list_elem_of_singleton in H. vm_compute in H. discriminate. }
  assert (GetStructFields (OPtr (Some (TStructOf (Examples.User 5 "Ann"))))
          = Ok Examples.ann_fields) as Hm by (vm_compute; reflexivity).
  assert (Examples.ann_fields !! "name" = Some (Some (VString "Ann"))) as Hv
    by (vm_compute; reflexivity).
  split; [exact Hnd|]. split; [exact Hm|]. split; [exact Hv|].
  exact (writing_back_what_was_read_changes_nothing _ _ "name" _ Hnd
           ltac:(discriminate) Hm Hv).
Defined.

Lemma tag_name_is_the_tag_up_to_the_first_comma_witness :
  GetTagName (map fieldType Examples.TestStruct) "ID" "db" = "id"
  /\ strings.Contains (GetTagName (map fieldType Examples.TestStruct) "ID" "db") ","
     = false
  /\ (exists rest,
        "id,primary" = GetTagName (map fieldType Examples.TestStruct) "ID" "db" +:+ rest
        /\ (rest = EmptyString \/ exists rest', rest = String ","%char rest'))
  /\ GetTagName (map fieldType Examples.TestStruct) "Missing" "db" = EmptyString.
Proof.
  destruct (tag_name_is_the_tag_up_to_the_first_comma
              (map fieldType Examples.TestStruct) "ID" "db") as [H1 [H2 _]].
  destruct (tag_name_is_the_tag_up_to_the_first_comma
              (map fieldType Examples.TestStruct) "Missing" "db") as [_ [_ H3]].
  split; [reflexivity|]. split; [exact H1|].
  split; [exact (H2 (fieldType Examples.id_field) eq_refl)|].
  exact (H3 eq_refl).
Defined.

Lemma identity_column_is_not_the_key_of_its_field_witness :
  record_fields (OVal (TStructOf Examples.TestStruct)) = Some Examples.TestStruct
  /\ List.find marked_primary Examples.TestStruct = Some Examples.id_field
  /\ exists (col : string) (m : gmap string iface),
       GetPrimaryKeyField (OVal (TStructOf Examples.TestStruct))
       = Ok (col, Some (VInt 1))
       /\ GetStructFields (OVal (TStructOf Examples.TestStruct)) = Ok m
       /\ col = "id"
       /\ is_Some (m !! "id,primary").
Proof.
  split; [reflexivity|]. split; [reflexivity|].
  destruct (identity_column_is_not_the_key_of_its_field
              (OVal (TStructOf Examples.TestStruct)) Examples.TestStruct
              Examples.id_field eq_refl eq_refl eq_refl ltac:(discriminate))
    as [col [m [H1 [H2 [H3 [_ [H5 _]]]]]]].
  exists col, m. split; [exact H1|]. split; [exact H2|].
  split; [exact H3 | exact H5].
Defined.

Lemma identity_is_read_from_tag_then_name_witness :
  record_fields (OVal (TStructOf Examples.TestStruct)) = Some Examples.TestStruct
  /\ GetPrimaryKeyField (OVal (TStructOf Examples.TestStruct))
     = Ok ("id", Some (VInt 1))
  /\ record_fields (OPtr (Some (TStructOf Examples.hidden_key)))
     = Some Examples.hidden_key
  /\ GetPrimaryKeyField (OPtr (Some (TStructOf Examples.hidden_key)))
     = Ok ("id", None).
Proof.
  split; [reflexivity|].
  split; [etransitivity;
            [exact (identity_is_read_from_tag_then_name
                      (OVal (TStructOf Examples.TestStruct)) Examples.TestStruct eq_refl)
            | vm_compute; reflexivity]|].
  split; [reflexivity|].
  etransitivity;
    [exact (identity_is_read_from_tag_then_name
              (OPtr (Some (TStructOf Examples.hidden_key))) Examples.hidden_key eq_refl)
    | vm_compute; reflexivity].
Defined.

Lemma update_sets_every_column_but_the_key_witness :
  GetStructFields (OPtr (Some (TStructOf (Examples.User 5 "Ann"))))
  = Ok Examples.ann_fields
  /\ no_percent "id" = true
  /\ Update map_to_list Examples.orm Examples.UserModel
       (Examples.world (Examples.User 5 "Ann"))
     = Ret (Some (New "no records were updated")) Examples.after_update
  /\ Transaction_Update map_to_list Examples.transaction Examples.UserModel
       (Examples.world (Examples.User 5 "Ann"))
     = Ret (Some (New "no records were updated")) Examples.after_update.
Proof.
  assert (GetStructFields (OPtr (Some (TStructOf (Examples.User 5 "Ann"))))
          = Ok Examples.ann_fields) as Hm by (vm_compute; reflexivity).
  destruct (update_sets_every_column_but_the_key map_to_list Examples.quiet_backend
              Examples.UserModel (OPtr (Some (TStructOf (Examples.User 5 "Ann")))) []
              Examples.ann_fields (fun m => Permutation_refl (map_to_list m)) Hm
              eq_refl ltac:(vm_compute; discriminate)) as [_ [H1 H2]].
  split; [exact Hm|]. split; [reflexivity|].
  split; [etransitivity; [exact H1 | vm_compute; reflexivity]|].
  etransitivity; [exact H2 | vm_compute; reflexivity].
Defined.

Lemma delete_selects_by_the_key_alone_witness :
  no_percent "id" = true
  /\ Delete Examples.orm Examples.UserModel (Examples.world (Examples.User 5 "Ann"))
     = Ret (Some (New "no records were deleted")) Examples.after_delete
  /\ Transaction_Delete Examples.transaction Examples.UserModel
       (Examples.world (Examples.User 5 "Ann"))
     = Ret (Some (New "no records were deleted")) Examples.after_delete.
Proof.
  destruct (delete_selects_by_the_key_alone Examples.quiet_backend
              Examples.UserModel (OPtr (Some (TStructOf (Examples.User 5 "Ann")))) []
              eq_refl) as [H1 H2].
  split; [reflexivity|].
  split; [etransitivity; [exact H1 | vm_compute; reflexivity]|].
  etransitivity; [exact H2 | vm_compute; reflexivity].
Defined.

Lemma transaction_create_lists_every_column_witness :
  GetStructFields (OPtr (Some (TStructOf (Examples.User 0 "Ann"))))
  = Ok Examples.user_fields
  /\ Transaction_Create map_to_list Examples.transaction
       (WithPrimaryKey Examples.UserModel) (Examples.world (Examples.User 0 "Ann"))
     = Ret None
         {| record := OPtr (Some (TStructOf (Examples.User 0 "Ann")));
            trace := [EvExec "INSERT INTO users (id, name) VALUES ($1, $2)"
                        [Some (VInt 0); Some (VString "Ann")]
                        (Ok Examples.answered)] |}.
Proof.
  assert (GetStructFields (OPtr (Some (TStructOf (Examples.User 0 "Ann"))))
          = Ok Examples.user_fields) as Hm by (vm_compute; reflexivity).
  split; [exact Hm|].
  etransitivity;
    [exact (proj2 (transaction_create_lists_every_column map_to_list
                     Examples.transaction (WithPrimaryKey Examples.UserModel)
                     (OPtr (Some (TStructOf (Examples.User 0 "Ann")))) []
                     Examples.user_fields (fun m => Permutation_refl (map_to_list m))
                     Hm ltac:(vm_compute; discriminate)))
    | vm_compute; reflexivity].
Defined.

Lemma create_panics_on_a_nil_key_witness :
  GetStructFields (OPtr (Some (TStructOf (Examples.User 5 "Ann"))))
  = Ok Examples.ann_fields
  /\ PrimaryKeyValue Examples.NilKeyModel (OPtr (Some (TStructOf (Examples.User 5 "Ann"))))
     = None
  /\ is_Some (Examples.ann_fields !! "id")
  /\ Create map_to_list Examples.orm (WithPrimaryKey Examples.NilKeyModel)
       (Examples.world (Examples.User 5 "Ann"))
     = Panic "reflect: call of reflect.Value.IsZero on zero Value"
         (Examples.world (Examples.User 5 "Ann")).
Proof.
  assert (GetStructFields (OPtr (Some (TStructOf (Examples.User 5 "Ann"))))
          = Ok Examples.ann_fields) as Hm by (vm_compute; reflexivity).
  assert (is_Some (Examples.ann_fields !! "id")) as Hk
    by (exists (Some (VInt 5)); vm_compute; reflexivity).
  split; [exact Hm|]. split; [reflexivity|]. split; [exact Hk|].
  exact (create_panics_on_a_nil_key map_to_list Examples.quiet_backend
           Examples.NilKeyModel (OPtr (Some (TStructOf (Examples.User 5 "Ann")))) []
           Examples.ann_fields (fun m => Permutation_refl (map_to_list m))
           Hm eq_refl Hk).
Defined.

Lemma operations_call_the_backend_at_most_once_witness :
  final_state (Update map_to_list Examples.orm Examples.UserModel
                 (Examples.world (Examples.User 5 "Ann")))
  = Some Examples.after_update
  /\ record Examples.after_update = record (Examples.world (Examples.User 5 "Ann"))
  /\ final_state (Create map_to_list Examples.orm (WithPrimaryKey Examples.UserModel)
                    (Examples.world (Examples.User 0 "Ann")))
     = Some {| record := OPtr (Some (TStructOf (Examples.User 42 "Ann")));
               trace := [EvQueryRow
                           "INSERT INTO users (name) VALUES ($1) RETURNING id"
                           [Some (VString "Ann")] (Ok 42)] |}
  /\ exists ev,
       [EvQueryRow "INSERT INTO users (name) VALUES ($1) RETURNING id"
          [Some (VString "Ann")] (Ok 42)]
       = trace (Examples.world (Examples.User 0 "Ann")) ++ [ev].
Proof.
  assert (final_state (Update map_to_list Examples.orm Examples.UserModel
                         (Examples.world (Examples.User 5 "Ann")))
          = Some Examples.after_update) as HU by (vm_compute; reflexivity).
  assert (final_state (Create map_to_list Examples.orm
                         (WithPrimaryKey Examples.UserModel)
                         (Examples.world (Examples.User 0 "Ann")))
          = Some {| record := OPtr (Some (TStructOf (Examples.User 42 "Ann")));
                    trace := [EvQueryRow
                                "INSERT INTO users (name) VALUES ($1) RETURNING id"
                                [Some (VString "Ann")] (Ok 42)] |}) as HC
    by (vm_compute; reflexivity).
  split; [exact HU|].
  split; [exact (proj1 (proj1 (operations_call_the_backend_at_most_once map_to_list
                                 Examples.orm Examples.transaction Examples.UserModel
                                 (WithPrimaryKey Examples.UserModel) _ _)
                          (or_introl HU)))|].
  split; [exact HC|].
  destruct (proj2 (operations_call_the_backend_at_most_once map_to_list
                     Examples.orm Examples.transaction Examples.UserModel
                     (WithPrimaryKey Examples.UserModel) _ _) HC)
    as [[_ [H|H]]|[q [a [g H]]]].
  - discriminate H.
  - exact H.
  - exists (EvQueryRow q a (Ok g)). exact H.
Defined.

End MoreWitnesses.
